(** * ai-caption-api: the caption endpoint of [api/generateCaption.js]

    A shallow embedding of the request handler: token authentication
    ([validateAppToken]), body validation ([validateRequestBody]), the
    provider client ([processWithOpenAI]), response shaping
    ([createErrorResponse], [createSuccessResponse]) and the top-level
    [handler], followed by the properties the specification states about
    them.

    Conventions of the embedding.
    - A JavaScript string is the list of its UTF-16 code units, so that
      [length] is [String.prototype.length].
    - A JavaScript exception is an explicit [Throw] in the [Completion]
      monad; [try]/[catch] is [tryCatch].
    - The outbound [fetch], the clock and [Math.random] are inputs, gathered
      in the record [Env]; the requests sent to the provider are returned
      next to the HTTP response, in order.
    - A number received in JSON is never computed with, so the number type
      is a parameter ([JsNumber]); the one number the validator computes,
      the estimated size, is an exact rational.
    - The messages of the errors the engine itself throws ([TypeError]) are
      worded as V8 words them.
    - [console.log] and [console.error] write to the server log only and are
      left out. *)

From Stdlib Require Import String Ascii NArith ZArith QArith Qround Bool Lia List.
From Stdlib Require Import DecimalString.
Import ListNotations.

Close Scope Q_scope.
Close Scope Z_scope.
Close Scope N_scope.
Local Open Scope nat_scope.
Local Open Scope string_scope.
Local Open Scope list_scope.

(* ====================================================================== *)
(** ** Strings as UTF-16 code units *)
(* ====================================================================== *)

Module JsString.

Definition jsstring := list N.

(** A source literal, one code unit per character. *)
Definition lit (s : string) : jsstring :=
  map N_of_ascii (list_ascii_of_string s).

(** [a === b] on strings: the same code units. *)
Fixpoint eqb (a b : jsstring) : bool :=
  match a, b with
  | [], [] => true
  | x :: a', y :: b' => (x =? y)%N && eqb a' b'
  | _, _ => false
  end.

(** Decimal digits of an integer, as [Number::toString] prints an integer
    below 1e21. *)
Definition ofN (n : N) : jsstring := lit (NilZero.string_of_uint (N.to_uint n)).
Definition ofNat (n : nat) : jsstring := ofN (N.of_nat n).
Definition ofZ (z : Z) : jsstring := lit (NilZero.string_of_int (Z.to_int z)).

Definition inRange (lo hi c : N) : bool := (lo <=? c)%N && (c <=? hi)%N.

(** The class [\s]: WhiteSpace and LineTerminator code points. *)
Definition isWhiteSpace (c : N) : bool :=
  inRange 9 13 c || (c =? 32)%N || (c =? 160)%N || (c =? 5760)%N
  || inRange 8192 8202 c || (c =? 8232)%N || (c =? 8233)%N
  || (c =? 8239)%N || (c =? 8287)%N || (c =? 12288)%N || (c =? 65279)%N.

Definition isDigit (c : N) : bool := inRange 48 57 c.
Definition isUpper (c : N) : bool := inRange 65 90 c.
Definition isLower (c : N) : bool := inRange 97 122 c.

(** [s.replace(/\s/g, '')] *)
Definition removeWhiteSpace (s : jsstring) : jsstring :=
  filter (fun c => negb (isWhiteSpace c)) s.

Fixpoint trimStart (s : jsstring) : jsstring :=
  match s with
  | c :: r => if isWhiteSpace c then trimStart r else s
  | [] => []
  end.

(** [s.trim()]: white space and line terminators stripped at both ends. *)
Definition trim (s : jsstring) : jsstring :=
  rev (trimStart (rev (trimStart s))).

(** [s.substring(a)] and [s.substring(0, b)] for in-range arguments. *)
Definition substringFrom (a : nat) (s : jsstring) : jsstring := skipn a s.
Definition substringTo (b : nat) (s : jsstring) : jsstring := firstn b s.

(** [s.substr(start, len)] *)
Definition substr (start len : nat) (s : jsstring) : jsstring :=
  firstn len (skipn start s).

Fixpoint isPrefix (p s : jsstring) : bool :=
  match p, s with
  | [], _ => true
  | a :: p', b :: s' => (a =? b)%N && isPrefix p' s'
  | _ :: _, [] => false
  end.

(** [s.replace(pat, '')] with a string pattern: the first occurrence of
    [pat] is removed, the rest is kept. *)
Fixpoint removeFirst (pat s : jsstring) : jsstring :=
  if isPrefix pat s then skipn (length pat) s
  else match s with
       | [] => []
       | c :: r => c :: removeFirst pat r
       end.

(** [hay.includes(needle)] *)
Fixpoint includes (needle hay : jsstring) : bool :=
  isPrefix needle hay ||
  match hay with
  | [] => false
  | _ :: r => includes needle r
  end.

(** The proposition the boolean test decides. *)
Definition Includes (needle hay : jsstring) : Prop :=
  exists pre post, hay = pre ++ needle ++ post.

(** [parts.join(sep)] *)
Fixpoint join (sep : jsstring) (parts : list jsstring) : jsstring :=
  match parts with
  | [] => []
  | [p] => p
  | p :: ps => p ++ sep ++ join sep ps
  end.

(** Order-preserving removal of duplicates, as [[...new Set(xs)]]. *)
Fixpoint dedup (seen : list N) (xs : list N) : list N :=
  match xs with
  | [] => []
  | c :: r =>
      if existsb (N.eqb c) seen then dedup seen r
      else c :: dedup (c :: seen) r
  end.

Definition hexDigit (d : N) : N :=
  if (d <? 10)%N then (48 + d)%N else (87 + d)%N.

(** Four lower-case hexadecimal digits of a code unit. *)
Definition hex4 (c : N) : jsstring :=
  [ hexDigit ((c / 4096) mod 16); hexDigit ((c / 256) mod 16);
    hexDigit ((c / 16) mod 16); hexDigit (c mod 16) ]%N.

Definition isHighSurrogate (c : N) : bool := inRange 55296 56319 c.
Definition isLowSurrogate (c : N) : bool := inRange 56320 57343 c.

Definition escapeUnit (c : N) : jsstring :=
  if (c =? 8)%N then lit "\b"
  else if (c =? 9)%N then lit "\t"
  else if (c =? 10)%N then lit "\n"
  else if (c =? 12)%N then lit "\f"
  else if (c =? 13)%N then lit "\r"
  else if (c =? 34)%N then [92; 34]%N
  else if (c =? 92)%N then [92; 92]%N
  else if (c <? 32)%N then lit "\u" ++ hex4 c
  else [c].

(** The characters of a JSON string literal ([QuoteJSONString] without
    the enclosing quotes): control characters, the quote, the backslash and
    unpaired surrogates are escaped. *)
Fixpoint escapeJSON (s : jsstring) : jsstring :=
  match s with
  | [] => []
  | c :: r =>
      if isHighSurrogate c then
        match r with
        | d :: r' =>
            if isLowSurrogate d then c :: d :: escapeJSON r'
            else (lit "\u" ++ hex4 c) ++ escapeJSON r
        | [] => lit "\u" ++ hex4 c
        end
      else if isLowSurrogate c then (lit "\u" ++ hex4 c) ++ escapeJSON r
      else escapeUnit c ++ escapeJSON r
  end.

Definition quote : jsstring := [34%N].

(** [JSON.stringify(s)] of a string. *)
Definition quoteJSON (s : jsstring) : jsstring := quote ++ escapeJSON s ++ quote.

End JsString.
Import JsString.

(* ====================================================================== *)
(** ** Numbers

    The handler never computes with a number it receives in JSON: it tests
    it for truthiness, converts it to a string inside a message, or passes it
    on. The development is therefore generic in the number type; IEEE
    doubles are one instance, the integers another. *)
(* ====================================================================== *)

Class JsNumber := {
  number : Type;
  (** [ToBoolean]: false exactly for [+0], [-0] and [NaN]. *)
  number_truthy : number -> bool;
  (** [Number::toString]. *)
  number_toString : number -> jsstring;
  (** The number value of an integer (lengths, clock differences). *)
  number_ofZ : Z -> number
}.

(** Integer-valued numbers, used for the concrete runs below. They print
    in decimal, as the numbers of the language do below 10^21. *)
#[export] Instance IntegerNumber : JsNumber := {
  number := Z;
  number_truthy := fun z => negb (z =? 0)%Z;
  number_toString := ofZ;
  number_ofZ := fun z => z
}.

(* ====================================================================== *)
(** ** Values, exceptions, completions *)
(* ====================================================================== *)

Section Values.
Context {Num : JsNumber}.

(** The values a parsed JSON document consists of, and [undefined]. An
    object is the list of its own properties in insertion order. *)
#[warnings="-register-all"]
Inductive JsVal : Type :=
| JUndefined
| JNull
| JBool (b : bool)
| JNum (n : number)
| JStr (s : jsstring)
| JArr (items : list JsVal)
| JObj (props : list (jsstring * JsVal)).

(** [ToBoolean] *)
Definition truthy (v : JsVal) : bool :=
  match v with
  | JUndefined | JNull => false
  | JBool b => b
  | JNum n => number_truthy n
  | JStr s => negb (eqb s [])
  | JArr _ | JObj _ => true
  end.

(** [typeof v] *)
Definition typeOf (v : JsVal) : jsstring :=
  match v with
  | JUndefined => lit "undefined"
  | JNull | JArr _ | JObj _ => lit "object"
  | JBool _ => lit "boolean"
  | JNum _ => lit "number"
  | JStr _ => lit "string"
  end.

Fixpoint lookup (k : jsstring) (props : list (jsstring * JsVal)) : option JsVal :=
  match props with
  | [] => None
  | (k', v) :: r => if eqb k k' then Some v else lookup k r
  end.

Definition digitsValue (k : jsstring) : nat :=
  fold_left (fun acc c => 10 * acc + N.to_nat (c - 48)) k 0.

(** A property name that is a canonical array index. *)
Definition parseIndex (k : jsstring) : option nat :=
  if forallb isDigit k && eqb (ofNat (digitsValue k)) k
  then Some (digitsValue k) else None.

(** [v[k]] for a [v] that is neither [undefined] nor [null]: the own
    properties of objects, arrays and strings. The names the handler reads
    ([imageData], [mimeType], [debugMode], [choices], [message], [content],
    [finish_reason], [usage], [error]) are defined by no prototype, so an
    absent own property reads as [undefined]. *)
Definition getProp (v : JsVal) (k : jsstring) : JsVal :=
  match v with
  | JObj props =>
      match lookup k props with Some x => x | None => JUndefined end
  | JArr items =>
      if eqb k (lit "length")
      then JNum (number_ofZ (Z.of_nat (length items)))
      else match parseIndex k with
           | Some i => nth i items JUndefined
           | None => JUndefined
           end
  | JStr s =>
      if eqb k (lit "length")
      then JNum (number_ofZ (Z.of_nat (length s)))
      else match parseIndex k with
           | Some i =>
               match nth_error s i with
               | Some c => JStr [c]
               | None => JUndefined
               end
           | None => JUndefined
           end
  | _ => JUndefined
  end.

Definition isNullish (v : JsVal) : bool :=
  match v with JUndefined | JNull => true | _ => false end.

(** [v?.[k]] and [v?.k] *)
Definition getOptional (v : JsVal) (k : jsstring) : JsVal :=
  if isNullish v then JUndefined else getProp v k.

(** [{ code, message }], an entry of [ERROR_TYPES]. *)
Record ErrorType := { type_code : jsstring; type_message : jsstring }.

(** [class APIError extends Error] *)
Record APIError := {
  err_type : ErrorType;
  err_code : jsstring;
  err_message : jsstring;
  err_details : JsVal;
  err_statusCode : Z;
  err_timestamp : jsstring
}.

(** What a [throw] carries: an [APIError], or another [Error] of which the
    handler reads [name] and [message]. *)
Inductive Thrown : Type :=
| ThrownAPIError (e : APIError)
| ThrownError (name message : jsstring).

(** How the evaluation of an expression or a call ends: with a value, or
    with a [throw]. *)
Inductive Completion (A : Type) : Type :=
| Normal (a : A)
| Throw (e : Thrown).
Arguments Normal {A} a.
Arguments Throw {A} e.

Definition bind {A B} (c : Completion A) (k : A -> Completion B) : Completion B :=
  match c with
  | Normal a => k a
  | Throw e => Throw e
  end.

(** [try { c } catch (error) { h error }] *)
Definition tryCatch {A} (c : Completion A) (h : Thrown -> Completion A) : Completion A :=
  match c with
  | Normal a => Normal a
  | Throw e => h e
  end.

Definition typeError (message : jsstring) : Thrown :=
  ThrownError (lit "TypeError") message.

(** [new Error(message)] *)
Definition newError (message : jsstring) : Thrown :=
  ThrownError (lit "Error") message.

Definition hasOwn (k : jsstring) (props : list (jsstring * JsVal)) : bool :=
  match lookup k props with Some _ => true | None => false end.

(** [ToString], as a template literal applies it. A parsed JSON object has
    no callable property of its own: with an own [toString] property it has
    no primitive value and the conversion throws; without one,
    [Object.prototype.toString] answers. An array joins its elements with
    commas, [null] and [undefined] counting as empty.

    The conversion is that of the language, not of a machine: the
    [RangeError] an engine throws when an array is nested more deeply than
    its call stack admits, or when the text grows past its longest string,
    is left out. Where a property below tells that a conversion returns, or
    which error it throws, it is about values that meet no such limit. *)
Fixpoint ToString (v : JsVal) : Completion jsstring :=
  match v with
  | JUndefined => Normal (lit "undefined")
  | JNull => Normal (lit "null")
  | JBool true => Normal (lit "true")
  | JBool false => Normal (lit "false")
  | JNum n => Normal (number_toString n)
  | JStr s => Normal s
  | JArr items =>
      (fix joinItems (l : list JsVal) : Completion jsstring :=
         match l with
         | [] => Normal []
         | x :: r =>
             bind (if isNullish x then Normal [] else ToString x) (fun sx =>
             match r with
             | [] => Normal sx
             | _ :: _ => bind (joinItems r) (fun sr => Normal (sx ++ lit "," ++ sr))
             end)
         end) items
  | JObj props =>
      if hasOwn (lit "toString") props
      then Throw (typeError (lit "Cannot convert object to primitive value"))
      else Normal (lit "[object Object]")
  end.

End Values.

Arguments Normal {Num A} a.
Arguments Throw {Num A} e.

Declare Scope completion_scope.
Delimit Scope completion_scope with completion.
Notation "x <- c ;; k" := (bind c (fun x => k))
  (at level 61, c at next level, right associativity) : completion_scope.
Local Open Scope completion_scope.

(* ====================================================================== *)
(** ** Configuration *)
(* ====================================================================== *)

(** The two variables the module reads from [process.env] when it is
    loaded; an unset variable is [undefined]. *)
Record ProcessEnv := {
  APP_TOKEN : option jsstring;
  OPENAI_API_KEY : option jsstring
}.

Module AI_CONFIG.
Definition CURRENT_PROVIDER : jsstring := lit "openai".
Definition MAX_IMAGE_SIZE : Z := 20 * 1024 * 1024.
Definition REQUEST_TIMEOUT : Z := 30000.
Definition RATE_LIMIT : Z := 60.
End AI_CONFIG.

Module SECURITY_CONFIG.
Definition REQUIRED_APP_TOKEN (penv : ProcessEnv) : option jsstring := APP_TOKEN penv.
Definition ALLOWED_IMAGE_TYPES : list jsstring :=
  [lit "image/jpeg"; lit "image/jpg"; lit "image/png"; lit "image/webp"].
Definition MAX_REQUEST_SIZE : Z := 6 * 1024 * 1024.
End SECURITY_CONFIG.

(* ====================================================================== *)
(** ** Regular expressions of the source

    Each pattern is a sequence of character classes none of which overlaps
    the class that follows it, so matching it left to right without
    backtracking decides it. *)
(* ====================================================================== *)

Module Pattern.

(** [cls{n}]: exactly [n] units of the class; the rest of the input. *)
Fixpoint exactly (n : nat) (cls : N -> bool) (s : jsstring) : option jsstring :=
  match n with
  | 0 => Some s
  | S n' =>
      match s with
      | c :: r => if cls c then exactly n' cls r else None
      | [] => None
      end
  end.

(** [cls*], greedy. *)
Fixpoint many (cls : N -> bool) (s : jsstring) : jsstring :=
  match s with
  | c :: r => if cls c then many cls r else s
  | [] => []
  end.

(** [cls{0,n}], greedy. *)
Fixpoint atMost (n : nat) (cls : N -> bool) (s : jsstring) : jsstring :=
  match n with
  | 0 => s
  | S n' =>
      match s with
      | c :: r => if cls c then atMost n' cls r else s
      | [] => []
      end
  end.

(** [$] without the [m] flag: the end of the input. *)
Definition atEnd (s : jsstring) : bool :=
  match s with [] => true | _ :: _ => false end.

Definition andThen (a : option jsstring) (f : jsstring -> option jsstring) : option jsstring :=
  match a with Some r => f r | None => None end.

(** The class of the one unit [c]. *)
Definition only (c : N) : N -> bool := N.eqb c.

(** [[0-9a-f]] under the [i] flag. *)
Definition hexI (c : N) : bool :=
  isDigit c || inRange 97 102 c || inRange 65 70 c.

(** [[A-Za-z0-9+\/]] *)
Definition base64Char (c : N) : bool :=
  isUpper c || isLower c || isDigit c || only 43 c || only 47 c.

(** [[^A-Za-z0-9+\/=]] *)
Definition notBase64OrPad (c : N) : bool :=
  negb (isUpper c || isLower c || isDigit c || only 43 c || only 47 c || only 61 c).

(** [/^[0-9a-f]{8}-[0-9a-f]{4}-[0-9a-f]{4}-[0-9a-f]{4}-[0-9a-f]{12}$/i.test(s)] *)
Definition tokenPattern (s : jsstring) : bool :=
  match
    andThen (andThen (andThen (andThen (andThen (andThen (andThen (andThen
      (exactly 8 hexI s)
      (exactly 1 (only 45))) (exactly 4 hexI))
      (exactly 1 (only 45))) (exactly 4 hexI))
      (exactly 1 (only 45))) (exactly 4 hexI))
      (exactly 1 (only 45))) (exactly 12 hexI)
  with
  | Some r => atEnd r
  | None => false
  end.

(** [/^[A-Za-z0-9+\/]*={0,2}$/.test(s)] *)
Definition base64Pattern (s : jsstring) : bool :=
  atEnd (atMost 2 (only 61) (many base64Char s)).

End Pattern.

(* ====================================================================== *)
(** ** Security validation *)
(* ====================================================================== *)

Section Validation.
Context {Num : JsNumber}.
Variable penv : ProcessEnv.

(** [v === t] for a string [t]. *)
Definition strictEqualsString (v : JsVal) (t : jsstring) : bool :=
  match v with JStr s => eqb s t | _ => false end.

(** [v === true] *)
Definition strictEqualsTrue (v : JsVal) : bool :=
  match v with JBool true => true | _ => false end.

Definition validateAppToken (token : JsVal) : bool :=
  if negb (truthy token) || negb (eqb (typeOf token) (lit "string")) then false
  else
    match token with
    | JStr s =>
        Pattern.tokenPattern s &&
        match SECURITY_CONFIG.REQUIRED_APP_TOKEN penv with
        | Some secret => eqb s secret
        | None => false
        end
    | _ => false
    end.

(** The object a call of [validateRequestBody] returns; [debug] is set on
    the bypass only. *)
Record ValidationResult := {
  isValid : bool;
  errors : list jsstring;
  debug : bool
}.

(** [errors.push(e)] *)
Definition push (errors : list jsstring) (e : jsstring) : list jsstring :=
  errors ++ [e].

(** [if (c) errors.push(e)] *)
Definition pushIf (c : bool) (errors : list jsstring) (e : jsstring) : list jsstring :=
  if c then push errors e else errors.

(** [(cleanedBase64.length * 3) / 4]; exact in double precision for every
    length a string can have. *)
Definition estimatedSize (cleanedLength : nat) : Q :=
  ((Z.of_nat cleanedLength * 3) # 4)%Q.

Definition pad2 (d : Z) : jsstring :=
  if (d <? 10)%Z then lit "0" ++ ofZ d else ofZ d.

(** [`${x}`] for a non-negative [x] with at most two decimals, the values
    [estimatedSize] and [MAX_IMAGE_SIZE / (1024 * 1024)] take: the integer
    part, then the decimals without trailing zeros. *)
Definition numberToString (x : Q) : jsstring :=
  let h := Qfloor (x * 100)%Q in
  let ip := (h / 100)%Z in
  let fp := (h mod 100)%Z in
  if (fp =? 0)%Z then ofZ ip
  else if (fp mod 10 =? 0)%Z then ofZ ip ++ lit "." ++ ofZ (fp / 10)%Z
  else ofZ ip ++ lit "." ++ pad2 fp.

(** [x.toFixed(2)] for a non-negative [x]: the integer [n] nearest to
    [100 x], the larger one on a tie, printed with two decimals. *)
Definition toFixed2 (x : Q) : jsstring :=
  let n := Qfloor (x * 100 + (1 # 2))%Q in
  ofZ (n / 100)%Z ++ lit "." ++ pad2 (n mod 100)%Z.

Record DebugInfo := {
  originalLength : nat;
  cleanedLength : nat;
  whitespaceRemoved : nat;
  firstChars : jsstring;
  lastChars : jsstring;
  hasInvalidChars : bool
}.

Definition jsonKey (k : string) : jsstring := quote ++ lit k ++ quote ++ lit ":".

Definition jsonBool (b : bool) : jsstring := if b then lit "true" else lit "false".

(** [JSON.stringify(debugInfo)] *)
Definition stringifyDebugInfo (d : DebugInfo) : jsstring :=
  lit "{" ++ jsonKey "originalLength" ++ ofNat (originalLength d)
  ++ lit "," ++ jsonKey "cleanedLength" ++ ofNat (cleanedLength d)
  ++ lit "," ++ jsonKey "whitespaceRemoved" ++ ofNat (whitespaceRemoved d)
  ++ lit "," ++ jsonKey "firstChars" ++ quoteJSON (firstChars d)
  ++ lit "," ++ jsonKey "lastChars" ++ quoteJSON (lastChars d)
  ++ lit "," ++ jsonKey "hasInvalidChars" ++ jsonBool (hasInvalidChars d)
  ++ lit "}".

Definition MB : Q := inject_Z (1024 * 1024).

(** The object [debugInfo]. *)
Definition debugInfoOf (imageData cleanedBase64 : jsstring) : DebugInfo :=
  let originalLength := length imageData in
  let cleanedLength := length cleanedBase64 in
  {| originalLength := originalLength;
     cleanedLength := cleanedLength;
     whitespaceRemoved := originalLength - cleanedLength;
     firstChars := substringTo 20 cleanedBase64;
     lastChars := substringFrom (length cleanedBase64 - 20) cleanedBase64;
     hasInvalidChars := negb (Pattern.base64Pattern cleanedBase64) |}.

(** [[...new Set(cleanedBase64.match(/[^A-Za-z0-9+\/=]/g) || [])]] *)
Definition invalidCharsOf (cleanedBase64 : jsstring) : list jsstring :=
  map (fun c => [c]) (dedup [] (filter Pattern.notBase64OrPad cleanedBase64)).

(** [x > y] and [x < y] on numbers. *)
Definition Qgtb (x y : Q) : bool := negb (Qle_bool x y).
Definition Qltb (x y : Q) : bool := negb (Qle_bool y x).

(** The block guarded by
    [body.imageData && typeof body.imageData === 'string']. *)
Definition checkImageData (imageData : jsstring) (errors : list jsstring) : list jsstring :=
  let cleanedBase64 := removeWhiteSpace imageData in
  let debugInfo := debugInfoOf imageData cleanedBase64 in
  let errors :=
    pushIf (negb (Pattern.base64Pattern cleanedBase64)) errors
      (lit "imageData contains invalid base64 characters: "
       ++ join (lit ", ") (invalidCharsOf cleanedBase64)
       ++ lit " | Debug: " ++ stringifyDebugInfo debugInfo) in
  let estimatedSize := estimatedSize (length cleanedBase64) in
  let errors :=
    pushIf (Qgtb estimatedSize (inject_Z AI_CONFIG.MAX_IMAGE_SIZE)) errors
      (lit "Image size exceeds maximum allowed size of "
       ++ numberToString (inject_Z AI_CONFIG.MAX_IMAGE_SIZE / MB)%Q
       ++ lit "MB (current: " ++ toFixed2 (estimatedSize / MB)%Q ++ lit "MB)") in
  let errors :=
    pushIf (Qltb estimatedSize 100) errors
      (lit "Image data appears to be too small or invalid ("
       ++ numberToString estimatedSize
       ++ lit " bytes) | Debug: " ++ stringifyDebugInfo debugInfo) in
  let errors :=
    pushIf (Nat.eqb (length cleanedBase64) 0) errors
      (lit "imageData is empty after cleaning") in
  let errors :=
    pushIf (negb (Nat.eqb (length cleanedBase64 mod 4) 0)) errors
      (lit "imageData length (" ++ ofNat (length cleanedBase64)
       ++ lit ") is not valid base64 (must be multiple of 4) | Debug: "
       ++ stringifyDebugInfo debugInfo) in
  errors.

Definition validateRequestBody (body : JsVal) : Completion ValidationResult :=
  let errors := [] in
  if negb (truthy body) || negb (eqb (typeOf body) (lit "object")) then
    let errors := push errors (lit "Request body must be a valid JSON object") in
    Normal {| isValid := false; errors := errors; debug := false |}
  else
  let errors :=
    pushIf (negb (truthy (getProp body (lit "imageData")))) errors
      (lit "imageData field is required") in
  let errors :=
    pushIf (negb (truthy (getProp body (lit "mimeType")))) errors
      (lit "mimeType field is required") in
  if strictEqualsTrue (getProp body (lit "debugMode")) then
    Normal {| isValid := true; errors := []; debug := true |}
  else
  let errors :=
    if truthy (getProp body (lit "imageData"))
       && eqb (typeOf (getProp body (lit "imageData"))) (lit "string")
    then
      match getProp body (lit "imageData") with
      | JStr s => checkImageData s errors
      | _ => errors
      end
    else errors in
  errors <-
    (if truthy (getProp body (lit "mimeType"))
        && negb (existsb (strictEqualsString (getProp body (lit "mimeType")))
                   SECURITY_CONFIG.ALLOWED_IMAGE_TYPES)
     then
       shown <- ToString (getProp body (lit "mimeType")) ;;
       Normal (push errors (lit "Unsupported image type: " ++ shown))
     else Normal errors) ;;
  Normal {| isValid := Nat.eqb (length errors) 0; errors := errors; debug := false |}.

End Validation.

(* ====================================================================== *)
(** ** AI provider abstraction layer *)
(* ====================================================================== *)

(** An entry of [AI_PROVIDERS]. *)
Record Provider := {
  provider_name : jsstring;
  provider_endpoint : jsstring;
  provider_model : jsstring;
  provider_maxTokens : Z;
  provider_temperature : Q;
  provider_headers : list (jsstring * jsstring)
}.

(** [`${v}`] for an environment variable. *)
Definition showEnvVar (v : option jsstring) : jsstring :=
  match v with Some s => s | None => lit "undefined" end.

Module AI_PROVIDERS.
Definition openai (penv : ProcessEnv) : Provider :=
  {| provider_name := lit "OpenAI";
     provider_endpoint := lit "https://api.openai.com/v1/chat/completions";
     provider_model := lit "gpt-4o";
     provider_maxTokens := 300;
     provider_temperature := (7 # 10)%Q;
     provider_headers :=
       [ (lit "Content-Type", lit "application/json");
         (lit "Authorization", lit "Bearer " ++ showEnvVar (OPENAI_API_KEY penv)) ] |}.

(** [AI_PROVIDERS[name]] *)
Definition get (penv : ProcessEnv) (name : jsstring) : option Provider :=
  if eqb name (lit "openai") then Some (openai penv) else None.
End AI_PROVIDERS.

Module PROMPT_CONFIG.
Definition default : jsstring :=
  lit "if this is a picture of a dog respond with the words bark bark, if it is not respond with this is not a dog".
End PROMPT_CONFIG.

(** The object [requestPayload]; the request body is its serialization. *)
Record RequestPayload := {
  payload_model : jsstring;
  payload_text : jsstring;
  payload_image_url : jsstring;
  payload_detail : jsstring;
  payload_max_tokens : Z;
  payload_temperature : Q
}.

(** The arguments of the one [fetch] call. *)
Record OutboundRequest := {
  out_endpoint : jsstring;
  out_method : jsstring;
  out_headers : list (jsstring * jsstring);
  out_body : RequestPayload
}.

Section Provider.
Context {Num : JsNumber}.

(** What [await response.json()] settles to. *)
Inductive JsonResult : Type :=
| JsonValue (v : JsVal)
| JsonRejected (name message : jsstring).

(** What [await fetch(...)] settles to. The call is bound by
    [AI_CONFIG.REQUEST_TIMEOUT]: when the provider has not answered by then,
    the controller aborts it and [fetch] rejects with an error whose [name]
    is [AbortError]. *)
Inductive FetchOutcome : Type :=
| FetchRejected (name message : jsstring)
| FetchResponse (status : Z) (json : JsonResult).

(** [response.ok] *)
Definition responseOk (status : Z) : bool :=
  (200 <=? status)%Z && (status <=? 299)%Z.

(** The world outside the handler: the provider, the clock, the random
    generator. *)
Record Env := {
  fetch : OutboundRequest -> FetchOutcome;
  (** [Date.now()] when the request identifier is made *)
  now_received : Z;
  (** [Math.random().toString(36)] *)
  random_base36 : jsstring;
  (** [Date.now()] before and after the provider call *)
  now_start : Z;
  now_end : Z;
  (** [new Date().toISOString()] when the response is built *)
  now_iso : jsstring
}.

Variable penv : ProcessEnv.
Variable env : Env.

(** [v.k], which throws on [undefined] and [null]. *)
Definition member (v : JsVal) (k : string) : Completion JsVal :=
  match v with
  | JUndefined =>
      Throw (typeError (lit "Cannot read properties of undefined (reading '"
                        ++ lit k ++ lit "')"))
  | JNull =>
      Throw (typeError (lit "Cannot read properties of null (reading '"
                        ++ lit k ++ lit "')"))
  | _ => Normal (getProp v (lit k))
  end.

(** [imageData.replace(/\s/g, '')]: a method of strings only. *)
Definition replaceWhiteSpace (imageData : JsVal) : Completion jsstring :=
  match imageData with
  | JStr s => Normal (removeWhiteSpace s)
  | JUndefined | JNull => _ <- member imageData "replace" ;; Normal []
  | _ => Throw (typeError (lit "imageData.replace is not a function"))
  end.

(** [content?.trim()] *)
Definition optionalTrim (content : JsVal) : Completion JsVal :=
  match content with
  | JUndefined | JNull => Normal JUndefined
  | JStr s => Normal (JStr (trim s))
  | _ =>
      Throw (typeError
        (lit "data.choices?.[0]?.message?.content?.trim is not a function"))
  end.

(** [a || b] *)
Definition orElse (a b : JsVal) : JsVal := if truthy a then a else b.

Definition thrownName (e : Thrown) : jsstring :=
  match e with
  | ThrownAPIError _ => lit "APIError"
  | ThrownError name _ => name
  end.

Definition thrownMessage (e : Thrown) : jsstring :=
  match e with
  | ThrownAPIError a => err_message a
  | ThrownError _ message => message
  end.

(** An object literal. *)
Definition object (props : list (string * JsVal)) : list (jsstring * JsVal) :=
  map (fun kv => (lit (fst kv), snd kv)) props.

(** The object [requestPayload] of [processWithOpenAI]. *)
Definition requestPayload (provider : Provider) (prompt shownMimeType cleanedImageData : jsstring)
  : RequestPayload :=
  {| payload_model := provider_model provider;
     payload_text := prompt;
     payload_image_url :=
       lit "data:" ++ shownMimeType ++ lit ";base64," ++ cleanedImageData;
     payload_detail := lit "high";
     payload_max_tokens := provider_maxTokens provider;
     payload_temperature := provider_temperature provider |}.

(** The arguments [fetch] is called with. *)
Definition fetchArguments (provider : Provider) (payload : RequestPayload) : OutboundRequest :=
  {| out_endpoint := provider_endpoint provider;
     out_method := lit "POST";
     out_headers := provider_headers provider;
     out_body := payload |}.

(** The requests sent to the provider, and what the call returns or
    throws. *)
Definition processWithOpenAI (imageData mimeType : JsVal)
  : list OutboundRequest * Completion (list (jsstring * JsVal)) :=
  let provider := AI_PROVIDERS.openai penv in
  let prompt := PROMPT_CONFIG.default in
  match replaceWhiteSpace imageData with
  | Throw e => ([], Throw e)
  | Normal cleanedImageData =>
  match ToString mimeType with
  | Throw e => ([], Throw e)
  | Normal shownMimeType =>
  let request :=
    fetchArguments provider
      (requestPayload provider prompt shownMimeType cleanedImageData) in
  ([request],
   tryCatch
     (match fetch env request with
      | FetchRejected name message => Throw (ThrownError name message)
      | FetchResponse status json =>
          if negb (responseOk status) then
            let errorData :=
              match json with
              | JsonValue v => v
              | JsonRejected _ _ => JObj []
              end in
            error <- member errorData "error" ;;
            shown <- ToString (orElse (getOptional error (lit "message"))
                                      (JStr (lit "Unknown error"))) ;;
            Throw (newError (lit "OpenAI API error: " ++ ofZ status
                             ++ lit " - " ++ shown))
          else
            data <- match json with
                    | JsonValue v => Normal v
                    | JsonRejected name message => Throw (ThrownError name message)
                    end ;;
            choices <- member data "choices" ;;
            caption <- optionalTrim
                         (getOptional (getOptional (getOptional choices (lit "0"))
                                         (lit "message")) (lit "content")) ;;
            if negb (truthy caption) then
              Throw (newError (lit "No caption generated by OpenAI"))
            else
              Normal (object
                [ ("caption", caption);
                  ("provider", JStr (provider_name provider));
                  ("model", JStr (provider_model provider));
                  ("confidence",
                   if strictEqualsString
                        (getOptional (getOptional choices (lit "0"))
                           (lit "finish_reason")) (lit "stop")
                   then JStr (lit "high") else JStr (lit "medium"));
                  ("usage", orElse (getProp data (lit "usage")) JNull) ])
      end)
     (fun error =>
        if eqb (thrownName error) (lit "AbortError") then
          Throw (newError (lit "Request timeout: OpenAI API took too long to respond"))
        else
          Throw (newError (lit "OpenAI processing failed: " ++ thrownMessage error))))
  end end.

End Provider.

(* ====================================================================== *)
(** ** Error handling and the main handler *)
(* ====================================================================== *)

Module ERROR_TYPES.
Definition AUTHENTICATION_ERROR : ErrorType :=
  {| type_code := lit "AUTH_001"; type_message := lit "Authentication failed" |}.
Definition VALIDATION_ERROR : ErrorType :=
  {| type_code := lit "VAL_001"; type_message := lit "Request validation failed" |}.
Definition AI_PROVIDER_ERROR : ErrorType :=
  {| type_code := lit "AI_001"; type_message := lit "AI provider error" |}.
Definition METHOD_NOT_ALLOWED : ErrorType :=
  {| type_code := lit "METHOD_001"; type_message := lit "Method not allowed" |}.
End ERROR_TYPES.

(** The request as the platform hands it over: header names are in lower
    case, [body] is the parsed body or [undefined]. *)
Record Request {Num : JsNumber} := {
  method : jsstring;
  headers : list (jsstring * jsstring);
  body : JsVal
}.

(** What [res] has been told when the handler returns; [responseBody] is
    the argument of [res.json], absent after [res.end()]. *)
Record Response {Num : JsNumber} := {
  statusCode : Z;
  responseHeaders : list (jsstring * jsstring);
  responseBody : option JsVal
}.

Section Handler.
Context {Num : JsNumber}.
Variable penv : ProcessEnv.
Variable env : Env.

(** [new APIError(type, details, statusCode)] *)
Definition newAPIError (type : ErrorType) (details : JsVal) (statusCode : Z) : APIError :=
  {| err_type := type;
     err_code := type_code type;
     err_message := type_message type;
     err_details := details;
     err_statusCode := statusCode;
     err_timestamp := now_iso env |}.

Definition createErrorResponse (error : APIError) : JsVal :=
  let inner :=
    object [ ("code", JStr (err_code error));
             ("message", JStr (err_message error));
             ("timestamp", JStr (err_timestamp error)) ] in
  let inner :=
    if truthy (err_details error)
    then inner ++ object [ ("details", err_details error) ]
    else inner in
  JObj (object [ ("success", JBool false); ("error", JObj inner) ]).

(** [obj[k] = v] *)
Fixpoint assign (props : list (jsstring * JsVal)) (k : jsstring) (v : JsVal)
  : list (jsstring * JsVal) :=
  match props with
  | [] => [(k, v)]
  | (k', v') :: r => if eqb k k' then (k', v) :: r else (k', v') :: assign r k v
  end.

(** [{ ...base, ...more }] *)
Definition spread (base more : list (jsstring * JsVal)) : list (jsstring * JsVal) :=
  fold_left (fun acc kv => assign acc (fst kv) (snd kv)) more base.

Definition createSuccessResponse (data : JsVal) (metadata : list (jsstring * JsVal)) : JsVal :=
  JObj (object
    [ ("success", JBool true);
      ("data", data);
      ("metadata",
       JObj (spread
               (object [ ("timestamp", JStr (now_iso env));
                         ("provider", JStr AI_CONFIG.CURRENT_PROVIDER) ])
               metadata)) ]).

Definition processWithAIProvider (imageData mimeType : JsVal)
  : list OutboundRequest * Completion (list (jsstring * JsVal)) :=
  match AI_PROVIDERS.get penv AI_CONFIG.CURRENT_PROVIDER with
  | None =>
      ([], Throw (newError (lit "AI provider '" ++ AI_CONFIG.CURRENT_PROVIDER
                            ++ lit "' not found")))
  | Some _ => processWithOpenAI penv env imageData mimeType
  end.

(** [req.headers[name]] *)
Definition header (req : Request) (name : string) : JsVal :=
  match find (fun kv => eqb (fst kv) (lit name)) (headers req) with
  | Some kv => JStr (snd kv)
  | None => JUndefined
  end.

(** [req.headers['x-app-token'] ||
     req.headers['authorization']?.replace('Bearer ', '')] *)
Definition appToken (req : Request) : JsVal :=
  orElse (header req "x-app-token")
    (match header req "authorization" with
     | JStr a => JStr (removeFirst (lit "Bearer ") a)
     | _ => JUndefined
     end).

Definition corsHeaders : list (jsstring * jsstring) :=
  [ (lit "Access-Control-Allow-Origin", lit "*");
    (lit "Access-Control-Allow-Methods", lit "POST, OPTIONS");
    (lit "Access-Control-Allow-Headers", lit "Content-Type, Authorization, X-App-Token") ].

(** [res.status(status).json(payload)] *)
Definition respondJson (status : Z) (payload : JsVal) : Response :=
  {| statusCode := status;
     responseHeaders := corsHeaders;
     responseBody := Some payload |}.

(** The [catch] clause of the handler. *)
Definition handleError (error : Thrown) : Response :=
  let error :=
    match error with
    | ThrownAPIError e => e
    | ThrownError _ message =>
        newAPIError ERROR_TYPES.AI_PROVIDER_ERROR (JStr message) 500
    end in
  respondJson (err_statusCode error) (createErrorResponse error).

(** The body of the [try] block: the provider requests it sends, and the
    response it returns or the error it throws. *)
Definition handlerTry (req : Request) (requestId : jsstring)
  : list OutboundRequest * Completion Response :=
  if negb (validateAppToken penv (appToken req)) then
    ([], Throw (ThrownAPIError
            (newAPIError ERROR_TYPES.AUTHENTICATION_ERROR
               (JStr (lit "Invalid or missing app token")) 401)))
  else
  match validateRequestBody (body req) with
  | Throw e => ([], Throw e)
  | Normal validation =>
  if negb (isValid validation) then
    ([], Throw (ThrownAPIError
            (newAPIError ERROR_TYPES.VALIDATION_ERROR
               (JArr (map JStr (errors validation))) 400)))
  else
  let startTime := now_start env in
  let (sent, settled) :=
    processWithAIProvider (getProp (body req) (lit "imageData"))
                          (getProp (body req) (lit "mimeType")) in
  (sent,
   aiResult <- settled ;;
   let processingTime := (now_end env - startTime)%Z in
   let responseData :=
     spread aiResult
       (object [ ("processingTime", JStr (ofZ processingTime ++ lit "ms"));
                 ("requestId", JStr requestId) ]) in
   imageSize <- member (getProp (body req) (lit "imageData")) "length" ;;
   let response :=
     createSuccessResponse (JObj responseData)
       (object [ ("requestId", JStr requestId);
                 ("processingTime", JNum (number_ofZ processingTime));
                 ("imageSize", imageSize);
                 ("mimeType", getProp (body req) (lit "mimeType")) ]) in
   Normal (respondJson 200 response))
  end.

(** The exported handler: the response, and the requests sent to the
    provider on the way. *)
Definition handler (req : Request) : Response * list OutboundRequest :=
  let requestId :=
    lit "req_" ++ ofZ (now_received env) ++ lit "_"
    ++ substr 2 9 (random_base36 env) in
  if eqb (method req) (lit "OPTIONS") then
    ({| statusCode := 200; responseHeaders := corsHeaders; responseBody := None |}, [])
  else if negb (eqb (method req) (lit "POST")) then
    let error :=
      newAPIError ERROR_TYPES.METHOD_NOT_ALLOWED
        (JStr (lit "Method " ++ method req ++ lit " not allowed")) 405 in
    (respondJson 405 (createErrorResponse error), [])
  else
    let (sent, settled) := handlerTry req requestId in
    match settled with
    | Normal response => (response, sent)
    | Throw error => (handleError error, sent)
    end.

End Handler.

(* ====================================================================== *)
(** ** Vocabulary of the properties

    Definitions the statements below are written with; none of them is part
    of the handler. *)
(* ====================================================================== *)

(** A hexadecimal digit in either case. *)
Definition HexDigit (c : N) : Prop :=
  (48 <= c <= 57 \/ 97 <= c <= 102 \/ 65 <= c <= 70)%N.

Definition hexGroup (n : nat) (g : jsstring) : Prop :=
  length g = n /\ Forall HexDigit g.

(** The canonical UUID shape [xxxxxxxx-xxxx-xxxx-xxxx-xxxxxxxxxxxx], as the
    specification words it: five groups of 8, 4, 4, 4 and 12 hexadecimal
    digits, separated by hyphens. *)
Definition uuidShape (s : jsstring) : Prop :=
  exists a b c d e,
    s = a ++ lit "-" ++ b ++ lit "-" ++ c ++ lit "-" ++ d ++ lit "-" ++ e
    /\ hexGroup 8 a /\ hexGroup 4 b /\ hexGroup 4 c /\ hexGroup 4 d
    /\ hexGroup 12 e.

(** A character of the base64 alphabet. *)
Definition Base64Char (c : N) : Prop :=
  (65 <= c <= 90 \/ 97 <= c <= 122 \/ 48 <= c <= 57 \/ c = 43 \/ c = 47)%N.

(** Base64 text: characters of the alphabet, then at most two padding
    characters. *)
Definition base64Shape (s : jsstring) : Prop :=
  exists data pad,
    s = data ++ pad /\ Forall Base64Char data
    /\ (pad = [] \/ pad = lit "=" \/ pad = lit "==").

(** The four kinds of error answer: status, code and message. *)
Definition errorKinds : list (Z * string * string) :=
  [ (401%Z, "AUTH_001", "Authentication failed");
    (400%Z, "VAL_001", "Request validation failed");
    (500%Z, "AI_001", "AI provider error");
    (405%Z, "METHOD_001", "Method not allowed") ].

(** A string without white space. *)
Definition noWhiteSpace (s : jsstring) : Prop :=
  Forall (fun c => isWhiteSpace c = false) s.

Section Vocabulary.
Context {Num : JsNumber}.

(** The errors recorded when the required-field checks are done. *)
Definition afterRequired (body : JsVal) : list jsstring :=
  pushIf (negb (truthy (getProp body (lit "mimeType"))))
    (pushIf (negb (truthy (getProp body (lit "imageData")))) []
       (lit "imageData field is required"))
    (lit "mimeType field is required").

(** The errors recorded when the checks on [imageData] are done. *)
Definition afterImageData (body : JsVal) : list jsstring :=
  match getProp body (lit "imageData") with
  | JStr (c :: s) => checkImageData (c :: s) (afterRequired body)
  | _ => afterRequired body
  end.

(** A [POST] request. *)
Definition POST (headers : list (jsstring * jsstring)) (body : JsVal) : Request :=
  {| method := lit "POST"; headers := headers; body := body |}.

(** An [OPTIONS] request. *)
Definition OPTIONS (headers : list (jsstring * jsstring)) (body : JsVal) : Request :=
  {| method := lit "OPTIONS"; headers := headers; body := body |}.


(** The JSON document of a response, and the value at a path of property
    names inside a value. *)
Definition payload (r : Response) : JsVal :=
  match responseBody r with Some v => v | None => JUndefined end.

Fixpoint atPath (v : JsVal) (path : list string) : JsVal :=
  match path with
  | [] => v
  | k :: rest => atPath (getProp v (lit k)) rest
  end.

(** The result of the bypass. *)
Definition bypassed : ValidationResult :=
  {| isValid := true; errors := []; debug := true |}.

(** The one request [processWithOpenAI] sends for a cleaned image and a
    MIME type already converted to a string. *)
Definition providerCall (penv : ProcessEnv) (shownMimeType cleanedImageData : jsstring)
  : OutboundRequest :=
  fetchArguments (AI_PROVIDERS.openai penv)
    (requestPayload (AI_PROVIDERS.openai penv) PROMPT_CONFIG.default
       shownMimeType cleanedImageData).

(** An error envelope: the status, [success: false] and the error code. *)
Definition isErrorResponse (status : Z) (code : string) (r : Response) : Prop :=
  statusCode r = status
  /\ atPath (payload r) ["success"] = JBool false
  /\ atPath (payload r) ["error"; "code"] = JStr (lit code).

(** A message mentions the timeout when it contains the word, in either
    case. *)
Definition toLowerUnit (c : N) : N := if isUpper c then (c + 32)%N else c.

Definition mentionsTimeout (message : jsstring) : bool :=
  includes (lit "timeout") (map toLowerUnit message).

(** The request identifier the handler makes up. *)
Definition requestIdOf (env : Env) : jsstring :=
  lit "req_" ++ ofZ (now_received env) ++ lit "_" ++ substr 2 9 (random_base36 env).

(** The text of the first completion of a provider answer. *)
Definition firstCompletion (data : JsVal) : JsVal :=
  atPath data ["choices"; "0"; "message"; "content"].

(** The errors recorded when the check on [mimeType] is done, unless
    printing the value throws. *)
Definition afterMimeType (body : JsVal) : Completion (list jsstring) :=
  if truthy (getProp body (lit "mimeType"))
     && negb (existsb (strictEqualsString (getProp body (lit "mimeType")))
                SECURITY_CONFIG.ALLOWED_IMAGE_TYPES)
  then
    shown <- ToString (getProp body (lit "mimeType")) ;;
    Normal (push (afterImageData body) (lit "Unsupported image type: " ++ shown))
  else Normal (afterImageData body).

(** The body of an error answer of the provider, [{}] when it does not
    parse. *)
Definition errorDataOf (json : JsonResult) : JsVal :=
  match json with
  | JsonValue v => v
  | JsonRejected _ _ => JObj []
  end.

(** The validator returns, and reports the body valid. *)
Definition accepts (body : JsVal) : Prop :=
  exists r, validateRequestBody body = Normal r /\ isValid r = true.

(** The values [undefined] and [""] of a header: both are falsy. *)
Definition absentHeader (v : JsVal) : Prop := v = JUndefined \/ v = JStr [].

(** The error envelope of the handler: [success: false], and an [error]
    object with its four properties. *)
Definition errorEnvelope (code message : string) (timestamp : jsstring) (details : JsVal)
  : JsVal :=
  JObj (object
    [ ("success", JBool false);
      ("error", JObj (object [ ("code", JStr (lit code));
                               ("message", JStr (lit message));
                               ("timestamp", JStr timestamp);
                               ("details", details) ])) ]).

(** The answer to a provider failure: status 500, code ["AI_001"], and the
    text of the failure as details. *)
Definition providerFailure (env : Env) (text : jsstring) : Response :=
  respondJson 500
    (errorEnvelope "AI_001" "AI provider error" (now_iso env) (JStr text)).

End Vocabulary.

(** Concrete values for the runs below, over the integer numbers. *)
Module Fixture.

Definition secret : jsstring := lit "01234567-89ab-cdef-0123-456789ABCDEF".

Definition penv : ProcessEnv :=
  {| APP_TOKEN := Some secret; OPENAI_API_KEY := Some (lit "sk-test") |}.

(** A world whose provider settles every call to [outcome]. *)
Definition world (outcome : FetchOutcome) : Env :=
  {| fetch := fun _ => outcome;
     now_received := 1705314645000;
     random_base36 := lit "0.4fzyo82mvyr";
     now_start := 1705314645002;
     now_end := 1705314647849;
     now_iso := lit "2024-01-15T10:30:47.849Z" |}.

Definition timedOut : FetchOutcome :=
  FetchRejected (lit "AbortError") (lit "This operation was aborted").

(** A provider answer with one completion. *)
Definition answered (content : JsVal) : FetchOutcome :=
  FetchResponse 200
    (JsonValue (JObj (object
       [ ("choices",
          JArr [ JObj (object
                   [ ("message", JObj (object [ ("role", JStr (lit "assistant"));
                                                ("content", content) ]));
                     ("finish_reason", JStr (lit "stop")) ]) ]) ]))).

Definition authorized : list (jsstring * jsstring) :=
  [ (lit "content-type", lit "application/json"); (lit "x-app-token", secret) ].

(** 136 base64 characters: an estimated 102 bytes. *)
Definition image : jsstring := repeat 65%N 136.

Definition wellFormed : JsVal :=
  JObj (object [ ("imageData", JStr image); ("mimeType", JStr (lit "image/jpeg")) ]).

(** [debugMode: true] with an empty [imageData] and no [mimeType]. *)
Definition debugging : JsVal :=
  JObj (object [ ("debugMode", JBool true); ("imageData", JStr []) ]).


(** An object with an own [toString] property: it has no string form. *)
Definition unprintable : JsVal := JObj (object [ ("toString", JNum 1%Z) ]).

(** No [imageData], and a [mimeType] that cannot be printed. *)
Definition missingImage : JsVal := JObj (object [ ("mimeType", unprintable) ]).

(** Five base64 characters, and a [mimeType] that cannot be printed. *)
Definition fiveChars : JsVal :=
  JObj (object [ ("imageData", JStr (lit "QUJDR")); ("mimeType", unprintable) ]).

(** An empty [imageData] with an allowed [mimeType]. *)
Definition emptyImage : JsVal :=
  JObj (object [ ("imageData", JStr []); ("mimeType", JStr (lit "image/png")) ]).

(** Four base64 characters: an estimated 3 bytes. *)
Definition tiny : JsVal :=
  JObj (object [ ("imageData", JStr (lit "QUJD")); ("mimeType", JStr (lit "image/png")) ]).

(** What the validator returns on [tiny]. *)
Definition tinyResult : ValidationResult :=
  match validateRequestBody tiny with
  | Normal r => r
  | Throw _ => {| isValid := true; errors := []; debug := false |}
  end.

(** Five base64 characters with an allowed [mimeType], and what the
    validator returns on it. *)
Definition fiveCharsPng : JsVal :=
  JObj (object [ ("imageData", JStr (lit "QUJDR")); ("mimeType", JStr (lit "image/png")) ]).

Definition fiveCharsResult : ValidationResult :=
  match validateRequestBody fiveCharsPng with
  | Normal r => r
  | Throw _ => {| isValid := true; errors := []; debug := false |}
  end.

(** Only a [mimeType], and what the validator returns on it. *)
Definition onlyMimeType : list (jsstring * JsVal) :=
  object [ ("mimeType", JStr (lit "image/png")) ].

Definition onlyMimeTypeResult : ValidationResult :=
  {| isValid := false; errors := [lit "imageData field is required"]; debug := false |}.

(** An allowed type in another spelling. *)
Definition shouting : list (jsstring * JsVal) :=
  object [ ("imageData", JStr image); ("mimeType", JStr (lit "IMAGE/PNG")) ].

(** Misplaced padding and two characters outside the alphabet, one of them
    twice, and what the validator returns on it. *)
Definition garbled : list (jsstring * JsVal) :=
  object [ ("imageData", JStr (lit "QU=J$D!$")); ("mimeType", JStr (lit "image/png")) ].

Definition garbledResult : ValidationResult :=
  match validateRequestBody (JObj garbled) with
  | Normal r => r
  | Throw _ => {| isValid := true; errors := []; debug := false |}
  end.

(** Three spaces, and what the validator returns on them. *)
Definition blank : list (jsstring * JsVal) :=
  object [ ("imageData", JStr (lit "   ")); ("mimeType", JStr (lit "image/png")) ].

Definition blankResult : ValidationResult :=
  match validateRequestBody (JObj blank) with
  | Normal r => r
  | Throw _ => {| isValid := true; errors := []; debug := false |}
  end.

(** The image of [wellFormed], and the same wrapped after 76 characters. *)
Definition unwrapped : list (jsstring * JsVal) :=
  object [ ("imageData", JStr image); ("mimeType", JStr (lit "image/jpeg")) ].


(** A configuration whose secret is not a UUID. *)
Definition misconfigured : ProcessEnv :=
  {| APP_TOKEN := Some (lit "secret123"); OPENAI_API_KEY := Some (lit "sk-test") |}.

Definition networkDown : FetchOutcome :=
  FetchRejected (lit "TypeError") (lit "fetch failed").

Definition rateLimited : FetchOutcome :=
  FetchResponse 429
    (JsonValue (JObj (object
       [ ("error", JObj (object [ ("message", JStr (lit "Rate limit exceeded")) ])) ]))).

Definition badGateway : FetchOutcome :=
  FetchResponse 502 (JsonRejected (lit "SyntaxError") (lit "Unexpected token <")).

(** The data of [answered content]. *)
Definition answer (content : JsVal) : JsVal :=
  JObj (object
    [ ("choices",
       JArr [ JObj (object
                [ ("message", JObj (object [ ("role", JStr (lit "assistant"));
                                             ("content", content) ]));
                  ("finish_reason", JStr (lit "stop")) ]) ]) ]).

(** The bypass with data nobody would accept. *)
Definition smuggled : JsVal :=
  JObj (object [ ("debugMode", JBool true);
                 ("imageData", JStr (lit "not base64 !"));
                 ("mimeType", JObj (object [ ("a", JNum 1%Z) ])) ]).

Definition accepted : ValidationResult :=
  {| isValid := true; errors := []; debug := false |}.

End Fixture.

(* ====================================================================== *)
(** * Properties *)
(* ====================================================================== *)

(** ** Strings and patterns *)

Lemma eqb_eq (a b : jsstring) : eqb a b = true <-> a = b.
Proof.
  revert b. induction a as [|x a IH]; intros [|y b]; simpl; split;
    try congruence; try reflexivity.
  - intros H. apply andb_true_iff in H as [Hx Hr].
    apply N.eqb_eq in Hx. apply IH in Hr. congruence.
  - intros H. injection H as -> ->. rewrite N.eqb_refl.
    simpl. now apply IH.
Qed.

Lemma eqb_refl (a : jsstring) : eqb a a = true.
Proof. now apply eqb_eq. Qed.

Lemma eqb_neq (a b : jsstring) : eqb a b = false <-> a <> b.
Proof.
  split.
  - intros H E. apply eqb_eq in E. congruence.
  - intros H. destruct (eqb a b) eqn:E; [|reflexivity].
    apply eqb_eq in E. contradiction.
Qed.

Lemma isPrefix_spec (p s : jsstring) :
  isPrefix p s = true <-> exists r, s = p ++ r.
Proof.
  revert s. induction p as [|a p IH]; intros s; simpl.
  - split; [intros _; now exists s | reflexivity].
  - destruct s as [|b s].
    + split; [discriminate | intros [r Hr]; discriminate].
    + rewrite andb_true_iff, N.eqb_eq, IH. split.
      * intros [-> [r ->]]. now exists r.
      * intros [r Hr]. injection Hr as -> ->. split; [reflexivity | now exists r].
Qed.

Lemma includes_spec (needle hay : jsstring) :
  includes needle hay = true <-> Includes needle hay.
Proof.
  unfold Includes. induction hay as [|c hay IH].
  - simpl. rewrite orb_false_r, isPrefix_spec. split.
    + intros [r Hr]. now exists [], r.
    + intros (pre & post & H). symmetry in H.
      apply app_eq_nil in H as [-> H]. apply app_eq_nil in H as [-> ->].
      now exists [].
  - cbn [includes]. rewrite orb_true_iff, isPrefix_spec, IH. split.
    + intros [[r Hr] | (pre & post & H)].
      * now exists [], r.
      * exists (c :: pre), post. simpl. now rewrite H.
    + intros (pre & post & H). destruct pre as [|x pre].
      * left. now exists post.
      * right. injection H as _ H. now exists pre, post.
Qed.

Lemma Includes_middle (pre needle post : jsstring) :
  Includes needle (pre ++ needle ++ post).
Proof. now exists pre, post. Qed.

Lemma removeWhiteSpace_length (s : jsstring) :
  length (removeWhiteSpace s) <= length s.
Proof. apply filter_length_le. Qed.

Module PatternFacts.
Import Pattern.

Lemma exactly_app (n : nat) (cls : N -> bool) (g r : jsstring) :
  length g = n -> forallb cls g = true -> exactly n cls (g ++ r) = Some r.
Proof.
  revert g. induction n as [|n IH]; intros [|c g] Hlen Hall; try discriminate.
  - reflexivity.
  - simpl in *. apply andb_true_iff in Hall as [Hc Hg].
    rewrite Hc. apply IH; [lia | assumption].
Qed.

Lemma exactly_inv (n : nat) (cls : N -> bool) (s r : jsstring) :
  exactly n cls s = Some r ->
  exists g, s = g ++ r /\ length g = n /\ forallb cls g = true.
Proof.
  revert s. induction n as [|n IH]; intros s H; simpl in H.
  - injection H as ->. now exists [].
  - destruct s as [|c s]; [discriminate|].
    destruct (cls c) eqn:Hc; [|discriminate].
    apply IH in H as (g & -> & Hlen & Hall).
    exists (c :: g). simpl. rewrite Hc, Hall. repeat split. now rewrite Hlen.
Qed.

Lemma andThen_inv (a : option jsstring) (f : jsstring -> option jsstring) (r : jsstring) :
  andThen a f = Some r -> exists m, a = Some m /\ f m = Some r.
Proof. destruct a as [m|]; simpl; [now exists m | discriminate]. Qed.

Lemma atEnd_inv (s : jsstring) : atEnd s = true -> s = [].
Proof. now destruct s. Qed.

Lemma only_inv (c : N) (g : jsstring) :
  length g = 1 -> forallb (only c) g = true -> g = [c].
Proof.
  destruct g as [|x [|y g]]; try discriminate. simpl. intros _ H.
  rewrite andb_true_r in H. apply N.eqb_eq in H. now subst.
Qed.

End PatternFacts.

(** ** The authenticator *)

Lemma hexI_spec (c : N) : Pattern.hexI c = true <-> HexDigit c.
Proof.
  unfold Pattern.hexI, HexDigit, isDigit, inRange.
  rewrite !orb_true_iff, !andb_true_iff, !N.leb_le. tauto.
Qed.

Lemma forallb_hexI (g : jsstring) :
  forallb Pattern.hexI g = true <-> Forall HexDigit g.
Proof.
  rewrite forallb_forall, Forall_forall.
  split; intros H c Hc; apply hexI_spec; now apply H.
Qed.

Lemma tokenPattern_spec (s : jsstring) :
  Pattern.tokenPattern s = true <-> uuidShape s.
Proof.
  unfold Pattern.tokenPattern, uuidShape, hexGroup. split.
  - intros H.
    destruct (Pattern.andThen _ _) as [r|] eqn:E; [|discriminate].
    apply PatternFacts.atEnd_inv in H. subst r.
    repeat match type of E with
    | Pattern.andThen _ _ = Some _ =>
        let m := fresh "m" in
        let E' := fresh "E" in
        apply PatternFacts.andThen_inv in E as (m & E & E')
    end.
    repeat match goal with
    | H : Pattern.exactly _ _ _ = Some _ |- _ =>
        let g := fresh "g" in
        let Hl := fresh "Hl" in
        let Ha := fresh "Ha" in
        apply PatternFacts.exactly_inv in H as (g & -> & Hl & Ha)
    end.
    repeat match goal with
    | Hl : length ?g = 1, Ha : forallb (Pattern.only _) ?g = true |- _ =>
        pose proof (PatternFacts.only_inv _ _ Hl Ha); subst g; clear Hl Ha
    end.
    repeat match goal with
    | Ha : forallb Pattern.hexI _ = true |- _ => apply forallb_hexI in Ha
    end.
    rewrite app_nil_r.
    eexists _, _, _, _, _. split; [reflexivity|]. auto 10.
  - intros (a & b & c & d & e & -> & [La Ha] & [Lb Hb] & [Lc Hc] & [Ld Hd] & [Le He]).
    apply forallb_hexI in Ha, Hb, Hc, Hd, He.
    rewrite (PatternFacts.exactly_app 8 _ a) by assumption. cbn [Pattern.andThen].
    change (lit "-" ++ b ++ ?r) with ([45%N] ++ b ++ r).
    rewrite (PatternFacts.exactly_app 1 _ [45%N]) by reflexivity. cbn [Pattern.andThen].
    rewrite (PatternFacts.exactly_app 4 _ b) by assumption. cbn [Pattern.andThen].
    change (lit "-" ++ c ++ ?r) with ([45%N] ++ c ++ r).
    rewrite (PatternFacts.exactly_app 1 _ [45%N]) by reflexivity. cbn [Pattern.andThen].
    rewrite (PatternFacts.exactly_app 4 _ c) by assumption. cbn [Pattern.andThen].
    change (lit "-" ++ d ++ ?r) with ([45%N] ++ d ++ r).
    rewrite (PatternFacts.exactly_app 1 _ [45%N]) by reflexivity. cbn [Pattern.andThen].
    rewrite (PatternFacts.exactly_app 4 _ d) by assumption. cbn [Pattern.andThen].
    change (lit "-" ++ e) with ([45%N] ++ e).
    rewrite (PatternFacts.exactly_app 1 _ [45%N]) by reflexivity. cbn [Pattern.andThen].
    rewrite <- (app_nil_r e).
    rewrite (PatternFacts.exactly_app 12 _ e) by assumption. reflexivity.
Qed.

Section AuthenticatorFacts.
Context {Num : JsNumber}.
Variable penv : ProcessEnv.

(** The authenticator accepts exactly the UUID-shaped strings that equal
    the configured secret. *)
Lemma validateAppToken_true_iff (token : JsVal) :
  validateAppToken penv token = true <->
  exists s, token = JStr s /\ uuidShape s /\ APP_TOKEN penv = Some s.
Proof.
  unfold validateAppToken, SECURITY_CONFIG.REQUIRED_APP_TOKEN. split.
  - destruct token as [ | | b | n | s | items | props ];
      try discriminate; try (now destruct (negb _ || _)).
    destruct (negb (truthy (JStr s)) || _); [discriminate|].
    intros H. apply andb_true_iff in H as [Hp Hs].
    apply tokenPattern_spec in Hp.
    destruct (APP_TOKEN penv) as [secret|]; [|discriminate].
    apply eqb_eq in Hs. subst secret. now exists s.
  - intros (s & -> & Hshape & Hsecret).
    assert (Hne : eqb s [] = false).
    { destruct s; [|reflexivity]. destruct Hshape as (a & b & c & d & e & H & _).
      symmetry in H. apply app_eq_nil in H as [_ H]. discriminate. }
    cbn [truthy typeOf]. rewrite Hne. cbn.
    rewrite Hsecret, eqb_refl, andb_true_r. now apply tokenPattern_spec.
Qed.

End AuthenticatorFacts.

(** ** The request validator *)

Section ValidatorFacts.
Context {Num : JsNumber}.

Lemma In_push (errors : list jsstring) (e x : jsstring) :
  In x (push errors e) <-> In x errors \/ x = e.
Proof.
  unfold push. rewrite in_app_iff. simpl. intuition congruence.
Qed.

Lemma pushIf_keeps (c : bool) (errors : list jsstring) (e x : jsstring) :
  In x errors -> In x (pushIf c errors e).
Proof.
  unfold pushIf. destruct c; [|trivial]. intros H. apply In_push. now left.
Qed.

Lemma pushIf_adds (c : bool) (errors : list jsstring) (e : jsstring) :
  c = true -> In e (pushIf c errors e).
Proof. intros ->. apply In_push. now right. Qed.

Lemma pushIf_skips (errors : list jsstring) (e : jsstring) :
  pushIf false errors e = errors.
Proof. reflexivity. Qed.

(** The checks on a string [imageData] only add to the errors recorded
    before. *)
Lemma checkImageData_keeps (s : jsstring) (errors : list jsstring) (x : jsstring) :
  In x errors -> In x (checkImageData s errors).
Proof.
  intros H. unfold checkImageData. cbv zeta.
  repeat apply pushIf_keeps. exact H.
Qed.

Lemma checkImageData_size_exceeded (s : jsstring) (errors : list jsstring) :
  Qgtb (estimatedSize (length (removeWhiteSpace s)))
       (inject_Z AI_CONFIG.MAX_IMAGE_SIZE) = true ->
  In (lit "Image size exceeds maximum allowed size of 20MB (current: "
      ++ toFixed2 (estimatedSize (length (removeWhiteSpace s)) / MB)%Q
      ++ lit "MB)")
     (checkImageData s errors).
Proof.
  intros H. unfold checkImageData. cbv zeta.
  do 3 apply pushIf_keeps.
  exact (pushIf_adds _ _ _ H).
Qed.

Lemma checkImageData_too_small (s : jsstring) (errors : list jsstring) :
  Qltb (estimatedSize (length (removeWhiteSpace s))) 100 = true ->
  In (lit "Image data appears to be too small or invalid ("
      ++ numberToString (estimatedSize (length (removeWhiteSpace s)))
      ++ lit " bytes) | Debug: "
      ++ stringifyDebugInfo (debugInfoOf s (removeWhiteSpace s)))
     (checkImageData s errors).
Proof.
  intros H. unfold checkImageData. cbv zeta.
  do 2 apply pushIf_keeps.
  exact (pushIf_adds _ _ _ H).
Qed.

Lemma checkImageData_not_multiple_of_4 (s : jsstring) (errors : list jsstring) :
  length (removeWhiteSpace s) mod 4 <> 0 ->
  In (lit "imageData length (" ++ ofNat (length (removeWhiteSpace s))
      ++ lit ") is not valid base64 (must be multiple of 4) | Debug: "
      ++ stringifyDebugInfo (debugInfoOf s (removeWhiteSpace s)))
     (checkImageData s errors).
Proof.
  intros H. unfold checkImageData. cbv zeta.
  apply pushIf_adds. apply negb_true_iff. now apply Nat.eqb_neq.
Qed.

Lemma object_passes_guard (props : list (jsstring * JsVal)) :
  negb (truthy (JObj props)) || negb (eqb (typeOf (JObj props)) (lit "object")) = false.
Proof. reflexivity. Qed.

(** Only an object has a property named [imageData], [mimeType] or
    [debugMode]. *)
Lemma getProp_named (body : JsVal) (k : jsstring) :
  eqb k (lit "length") = false -> parseIndex k = None ->
  getProp body k <> JUndefined -> exists props, body = JObj props.
Proof.
  intros Hlen Hidx H. destruct body as [ | | b | n | s | items | props ];
    simpl in H; try congruence.
  - rewrite Hlen, Hidx in H. congruence.
  - rewrite Hlen, Hidx in H. congruence.
  - now exists props.
Qed.

Lemma imageData_object (body : JsVal) :
  getProp body (lit "imageData") <> JUndefined -> exists props, body = JObj props.
Proof. now apply getProp_named. Qed.

Lemma debugMode_object (body : JsVal) :
  getProp body (lit "debugMode") <> JUndefined -> exists props, body = JObj props.
Proof. now apply getProp_named. Qed.

(** The bypass: an object whose [debugMode] is [true] is reported valid,
    with no errors. *)
Lemma validateRequestBody_bypass (body : JsVal) :
  getProp body (lit "debugMode") = JBool true ->
  validateRequestBody body = Normal bypassed.
Proof.
  intros H. destruct (debugMode_object body) as [props ->]; [congruence|].
  unfold validateRequestBody. rewrite object_passes_guard, H. reflexivity.
Qed.

(** Without the bypass the validator, when it returns, returns every
    error recorded by the required-field and [imageData] checks, and is
    valid exactly when no error was recorded. *)
Lemma validateRequestBody_returns (props : list (jsstring * JsVal)) (r : ValidationResult) :
  getProp (JObj props) (lit "debugMode") <> JBool true ->
  validateRequestBody (JObj props) = Normal r ->
  (forall e, In e (afterImageData (JObj props)) -> In e (errors r))
  /\ isValid r = Nat.eqb (length (errors r)) 0
  /\ debug r = false.
Proof.
  intros Hdebug. unfold validateRequestBody. rewrite object_passes_guard.
  cbv zeta.
  replace (strictEqualsTrue (getProp (JObj props) (lit "debugMode"))) with false
    by (destruct (getProp (JObj props) (lit "debugMode")) as [ | | [|] | | | | ];
        try reflexivity; congruence).
  fold (afterRequired (JObj props)).
  assert (Hstage :
    (if truthy (getProp (JObj props) (lit "imageData"))
        && eqb (typeOf (getProp (JObj props) (lit "imageData"))) (lit "string")
     then match getProp (JObj props) (lit "imageData") with
          | JStr s => checkImageData s (afterRequired (JObj props))
          | _ => afterRequired (JObj props)
          end
     else afterRequired (JObj props)) = afterImageData (JObj props)).
  { unfold afterImageData.
    destruct (getProp (JObj props) (lit "imageData")) as [ | | b | n | s | items | ps ];
      try reflexivity.
    - now destruct (truthy (JBool b) && _).
    - now destruct (truthy (JNum n) && _).
    - now destruct s. }
  rewrite Hstage. clear Hstage.
  destruct (truthy (getProp (JObj props) (lit "mimeType")) && _).
  - destruct (ToString (getProp (JObj props) (lit "mimeType"))) as [shown|e];
      simpl; [|discriminate].
    intros H. injection H as <-. simpl. repeat split.
    intros e He. apply In_push. now left.
  - simpl. intros H. injection H as <-. simpl. repeat split. trivial.
Qed.






Lemma strictEqualsTrue_false (v : JsVal) :
  v <> JBool true -> strictEqualsTrue v = false.
Proof. destruct v as [ | | [|] | | | | ]; try reflexivity. congruence. Qed.

(** An unsupported [mimeType] is reported, when it can be printed. *)
Lemma validateRequestBody_unsupported (props : list (jsstring * JsVal)) (r : ValidationResult) :
  getProp (JObj props) (lit "debugMode") <> JBool true ->
  validateRequestBody (JObj props) = Normal r ->
  truthy (getProp (JObj props) (lit "mimeType")) = true ->
  existsb (strictEqualsString (getProp (JObj props) (lit "mimeType")))
    SECURITY_CONFIG.ALLOWED_IMAGE_TYPES = false ->
  exists shown,
    ToString (getProp (JObj props) (lit "mimeType")) = Normal shown
    /\ In (lit "Unsupported image type: " ++ shown) (errors r).
Proof.
  intros Hdebug. unfold validateRequestBody. rewrite object_passes_guard.
  cbv zeta. rewrite (strictEqualsTrue_false _ Hdebug).
  intros H Ht Hex. rewrite Ht, Hex in H. cbn [negb andb] in H.
  destruct (ToString (getProp (JObj props) (lit "mimeType"))) as [shown|e];
    simpl in H; [|discriminate].
  exists shown. split; [reflexivity|]. injection H as <-. simpl.
  apply In_push. now right.
Qed.

Lemma Qgtb_true (x y : Q) : Qgtb x y = true <-> (y < x)%Q.
Proof.
  unfold Qgtb. rewrite negb_true_iff. split.
  - intros H. apply Qnot_le_lt. intros Hle.
    apply Qle_bool_iff in Hle. congruence.
  - intros H. destruct (Qle_bool x y) eqn:E; [|reflexivity].
    apply Qle_bool_iff in E. exfalso. exact (Qlt_not_le _ _ H E).
Qed.

Lemma Qltb_true (x y : Q) : Qltb x y = true <-> (x < y)%Q.
Proof. exact (Qgtb_true y x). Qed.

(** The estimate is three quarters of the cleaned length. *)
Lemma estimatedSize_value (n : nat) :
  (estimatedSize n == inject_Z (Z.of_nat n) * 3 / 4)%Q.
Proof.
  unfold estimatedSize, Qeq, Qdiv, Qmult, Qinv, inject_Z. simpl. lia.
Qed.

Lemma nonempty_not_valid (l : list jsstring) (e : jsstring) :
  In e l -> Nat.eqb (length l) 0 = false.
Proof. destruct l; [contradiction | reflexivity]. Qed.

End ValidatorFacts.

(** ** The handler *)

Section HandlerFacts.
Context {Num : JsNumber}.
Variable penv : ProcessEnv.
Variable env : Env.

Lemma validateAppToken_false_iff (token : JsVal) :
  validateAppToken penv token = false <->
  ~ (exists s, token = JStr s /\ uuidShape s /\ APP_TOKEN penv = Some s).
Proof.
  rewrite <- validateAppToken_true_iff.
  destruct (validateAppToken penv token); split; congruence.
Qed.

(** A request that fails authentication is answered before its body is
    looked at. *)
Lemma handler_rejects_token (hdrs : list (jsstring * jsstring)) (body : JsVal) :
  validateAppToken penv (appToken (POST hdrs body)) = false ->
  handler penv env (POST hdrs body) =
  (respondJson 401
     (createErrorResponse
        (newAPIError env ERROR_TYPES.AUTHENTICATION_ERROR
           (JStr (lit "Invalid or missing app token")) 401)), []).
Proof.
  intros H. unfold handler, handlerTry.
  change (eqb (method (POST hdrs body)) (lit "OPTIONS")) with false.
  change (eqb (method (POST hdrs body)) (lit "POST")) with true.
  cbv iota beta. cbn [negb]. cbv iota. rewrite H. reflexivity.
Qed.

Lemma appToken_ignores_body (hdrs : list (jsstring * jsstring)) (body1 body2 : JsVal) :
  appToken (POST hdrs body1) = appToken (POST hdrs body2).
Proof. reflexivity. Qed.

Lemma getOptional_getProp (v : JsVal) (k : jsstring) :
  getOptional v k = getProp v k.
Proof. now destruct v. Qed.

Lemma provider_is_configured :
  AI_PROVIDERS.get penv AI_CONFIG.CURRENT_PROVIDER = Some (AI_PROVIDERS.openai penv).
Proof. reflexivity. Qed.

(** Past authentication and validation, the answer is decided by the
    provider call on [imageData] and [mimeType] as the body has them. *)
Lemma handler_provider_throws (hdrs : list (jsstring * jsstring)) (json : JsVal)
      (validation : ValidationResult) (sent : list OutboundRequest) (e : Thrown) :
  validateAppToken penv (appToken (POST hdrs json)) = true ->
  validateRequestBody json = Normal validation ->
  isValid validation = true ->
  processWithAIProvider penv env (getProp json (lit "imageData"))
    (getProp json (lit "mimeType")) = (sent, Throw e) ->
  handler penv env (POST hdrs json) = (handleError env e, sent).
Proof.
  intros Htoken Hbody Hvalid Hcall. unfold handler, handlerTry.
  change (eqb (method (POST hdrs json)) (lit "OPTIONS")) with false.
  change (eqb (method (POST hdrs json)) (lit "POST")) with true.
  cbv iota beta. cbn [negb]. cbv iota. rewrite Htoken. cbn [negb]. cbv iota.
  cbn [body POST].
  rewrite Hbody, Hvalid. cbn [negb]. cbv iota. cbv zeta.
  rewrite Hcall. reflexivity.
Qed.

Lemma handler_provider_returns (hdrs : list (jsstring * jsstring)) (json : JsVal)
      (validation : ValidationResult) (sent : list OutboundRequest)
      (aiResult : list (jsstring * JsVal)) (s : jsstring) :
  validateAppToken penv (appToken (POST hdrs json)) = true ->
  validateRequestBody json = Normal validation ->
  isValid validation = true ->
  getProp json (lit "imageData") = JStr s ->
  processWithAIProvider penv env (getProp json (lit "imageData"))
    (getProp json (lit "mimeType")) = (sent, Normal aiResult) ->
  handler penv env (POST hdrs json) =
  (respondJson 200
     (createSuccessResponse env
        (JObj (spread aiResult
                 (object [ ("processingTime",
                            JStr (ofZ (now_end env - now_start env) ++ lit "ms"));
                           ("requestId", JStr (requestIdOf env)) ])))
        (object [ ("requestId", JStr (requestIdOf env));
                  ("processingTime", JNum (number_ofZ (now_end env - now_start env)));
                  ("imageSize", JNum (number_ofZ (Z.of_nat (length s))));
                  ("mimeType", getProp json (lit "mimeType")) ])),
   sent).
Proof.
  intros Htoken Hbody Hvalid Himage Hcall. unfold handler, handlerTry.
  change (eqb (method (POST hdrs json)) (lit "OPTIONS")) with false.
  change (eqb (method (POST hdrs json)) (lit "POST")) with true.
  cbv iota beta. cbn [negb]. cbv iota. rewrite Htoken. cbn [negb]. cbv iota.
  cbn [body POST].
  rewrite Hbody, Hvalid. cbn [negb]. cbv iota. cbv zeta.
  rewrite Hcall. rewrite Himage. reflexivity.
Qed.

(** The provider client on a string [imageData]: one request goes out, and
    the outcome of [fetch] decides the rest. *)
Lemma processWithOpenAI_sends (s shown : jsstring) (mimeType : JsVal) :
  ToString mimeType = Normal shown ->
  fst (processWithOpenAI penv env (JStr s) mimeType)
  = [providerCall penv shown (removeWhiteSpace s)].
Proof.
  intros Hmime. unfold processWithOpenAI. cbn [replaceWhiteSpace].
  rewrite Hmime. reflexivity.
Qed.

Lemma processWithOpenAI_timeout (s shown message : jsstring) (mimeType : JsVal) :
  ToString mimeType = Normal shown ->
  fetch env (providerCall penv shown (removeWhiteSpace s))
  = FetchRejected (lit "AbortError") message ->
  processWithOpenAI penv env (JStr s) mimeType
  = ([providerCall penv shown (removeWhiteSpace s)],
     Throw (newError (lit "Request timeout: OpenAI API took too long to respond"))).
Proof.
  intros Hmime Hfetch. unfold processWithOpenAI. cbn [replaceWhiteSpace].
  rewrite Hmime. cbv zeta. fold (providerCall penv shown (removeWhiteSpace s)).
  rewrite Hfetch. reflexivity.
Qed.


Lemma processWithOpenAI_caption (s shown c : jsstring) (mimeType data : JsVal) (status : Z) :
  ToString mimeType = Normal shown ->
  fetch env (providerCall penv shown (removeWhiteSpace s))
  = FetchResponse status (JsonValue data) ->
  responseOk status = true ->
  firstCompletion data = JStr c ->
  processWithOpenAI penv env (JStr s) mimeType
  = ([providerCall penv shown (removeWhiteSpace s)],
     if eqb (trim c) [] then
       Throw (newError (lit "OpenAI processing failed: No caption generated by OpenAI"))
     else
       Normal (object
         [ ("caption", JStr (trim c));
           ("provider", JStr (lit "OpenAI"));
           ("model", JStr (lit "gpt-4o"));
           ("confidence",
            if strictEqualsString (atPath data ["choices"; "0"; "finish_reason"]) (lit "stop")
            then JStr (lit "high") else JStr (lit "medium"));
           ("usage", orElse (getProp data (lit "usage")) JNull) ])).
Proof.
  intros Hmime Hfetch Hok Hc. unfold processWithOpenAI. cbn [replaceWhiteSpace].
  rewrite Hmime. cbv zeta. fold (providerCall penv shown (removeWhiteSpace s)).
  rewrite Hfetch, Hok. cbn [negb]. cbv iota.
  assert (Hdata : member data "choices" = Normal (getProp data (lit "choices"))).
  { destruct data; try reflexivity; discriminate. }
  cbn [bind]. rewrite Hdata. cbn [bind].
  rewrite !getOptional_getProp.
  unfold firstCompletion in Hc. cbn [atPath] in Hc. rewrite Hc.
  cbn [optionalTrim bind truthy atPath].
  destruct (eqb (trim c) []); reflexivity.
Qed.

Lemma processWithOpenAI_returns_inv (imageData mimeType : JsVal)
      (sent : list OutboundRequest) (aiResult : list (jsstring * JsVal)) :
  processWithOpenAI penv env imageData mimeType = (sent, Normal aiResult) ->
  exists s, imageData = JStr s.
Proof.
  unfold processWithOpenAI.
  destruct imageData as [ | | b | n | s | items | props ]; try discriminate.
  intros _. now exists s.
Qed.

(** The requests the handler sends are those of the provider call. *)
Lemma handler_sent (hdrs : list (jsstring * jsstring)) (json : JsVal)
      (validation : ValidationResult) :
  validateAppToken penv (appToken (POST hdrs json)) = true ->
  validateRequestBody json = Normal validation ->
  isValid validation = true ->
  snd (handler penv env (POST hdrs json))
  = fst (processWithAIProvider penv env (getProp json (lit "imageData"))
           (getProp json (lit "mimeType"))).
Proof.
  intros Htoken Hbody Hvalid.
  destruct (processWithAIProvider penv env (getProp json (lit "imageData"))
              (getProp json (lit "mimeType"))) as [sent [aiResult|e]] eqn:Hcall.
  - destruct (processWithOpenAI_returns_inv _ _ _ _ Hcall) as [s Hs].
    now rewrite (handler_provider_returns hdrs json validation sent aiResult s).
  - now rewrite (handler_provider_throws hdrs json validation sent e).
Qed.

(** A body the validator reports invalid is answered with status 400 and
    the validator's errors as details. *)
Lemma handler_rejects_invalid (hdrs : list (jsstring * jsstring)) (json : JsVal)
      (validation : ValidationResult) :
  validateAppToken penv (appToken (POST hdrs json)) = true ->
  validateRequestBody json = Normal validation ->
  isValid validation = false ->
  handler penv env (POST hdrs json) =
  (respondJson 400
     (createErrorResponse
        (newAPIError env ERROR_TYPES.VALIDATION_ERROR
           (JArr (map JStr (errors validation))) 400)), []).
Proof.
  intros Htoken Hbody Hvalid. unfold handler, handlerTry.
  change (eqb (method (POST hdrs json)) (lit "OPTIONS")) with false.
  change (eqb (method (POST hdrs json)) (lit "POST")) with true.
  cbv iota beta. cbn [negb]. cbv iota. rewrite Htoken. cbn [negb]. cbv iota.
  cbn [body POST]. rewrite Hbody, Hvalid. reflexivity.
Qed.

(** An error thrown by the validator itself reaches the [catch] clause. *)
Lemma handler_validator_throws (hdrs : list (jsstring * jsstring)) (json : JsVal)
      (e : Thrown) :
  validateAppToken penv (appToken (POST hdrs json)) = true ->
  validateRequestBody json = Throw e ->
  handler penv env (POST hdrs json) = (handleError env e, []).
Proof.
  intros Htoken Hbody. unfold handler, handlerTry.
  change (eqb (method (POST hdrs json)) (lit "OPTIONS")) with false.
  change (eqb (method (POST hdrs json)) (lit "POST")) with true.
  cbv iota beta. cbn [negb]. cbv iota. rewrite Htoken. cbn [negb]. cbv iota.
  cbn [body POST]. rewrite Hbody. reflexivity.
Qed.

End HandlerFacts.

(* ====================================================================== *)
(** * The claims of the specification *)
(* ====================================================================== *)

Section Claims.
Context {Num : JsNumber}.

(** C3. [validateAppToken] returns [true] exactly when the candidate is a
    string of the canonical UUID shape (hexadecimal digits in either case)
    that equals the configured secret; an absent token, a token that is not
    a string and a malformed token all give [false]. Nothing the function
    does can throw: [!token], [typeof], [RegExp.prototype.test] on a string
    and [===] all return, which is why it is a total function into [bool]
    here. *)
Theorem validateAppToken_spec :
  forall (penv : ProcessEnv) (token : JsVal),
    (validateAppToken penv token = true <->
     exists s, token = JStr s /\ uuidShape s /\ APP_TOKEN penv = Some s)
    /\ (token = JUndefined \/ typeOf token <> lit "string" ->
        validateAppToken penv token = false)
    /\ (forall s, token = JStr s -> ~ uuidShape s ->
        validateAppToken penv token = false)
    /\ (forall s, token = JStr s -> APP_TOKEN penv <> Some s ->
        validateAppToken penv token = false).
Proof.
  intros penv token. split; [apply validateAppToken_true_iff|].
  repeat split.
  - intros H. apply validateAppToken_false_iff. intros (s & -> & _).
    destruct H as [H|H]; [discriminate | now apply H].
  - intros s -> H. apply validateAppToken_false_iff.
    intros (s' & E & Hs & _). injection E as <-. contradiction.
  - intros s -> H. apply validateAppToken_false_iff.
    intros (s' & E & _ & Hs). injection E as <-. contradiction.
Qed.

(** C4. Whenever the token of a [POST] request is not a UUID-shaped string
    equal to the configured secret, the answer is status 401 with
    [success: false] and [error.code] ["AUTH_001"], no call goes to the
    provider, and this holds for any two bodies (and any two states of the
    world): status and code are the same in both runs, and the whole answer
    is when the two runs share the clock. *)
Theorem invalid_token_rejected_whatever_the_body :
  forall (penv : ProcessEnv) (env1 env2 : Env)
         (hdrs : list (jsstring * jsstring)) (body1 body2 : JsVal),
    ~ (exists s, appToken (POST hdrs body1) = JStr s /\ uuidShape s
                 /\ APP_TOKEN penv = Some s) ->
    isErrorResponse 401 "AUTH_001" (fst (handler penv env1 (POST hdrs body1)))
    /\ isErrorResponse 401 "AUTH_001" (fst (handler penv env2 (POST hdrs body2)))
    /\ snd (handler penv env1 (POST hdrs body1)) = []
    /\ snd (handler penv env2 (POST hdrs body2)) = []
    /\ (env1 = env2 ->
        handler penv env1 (POST hdrs body1) = handler penv env2 (POST hdrs body2)).
Proof.
  intros penv env1 env2 hdrs body1 body2 H.
  apply validateAppToken_false_iff in H.
  pose proof H as H2. rewrite (appToken_ignores_body hdrs body1 body2) in H2.
  rewrite (handler_rejects_token penv env1 hdrs body1 H).
  rewrite (handler_rejects_token penv env2 hdrs body2 H2).
  repeat split. now intros ->.
Qed.

(** C2. A body whose [debugMode] is [true] is reported valid, whatever else
    it holds: none of the remaining checks runs. In particular a [POST]
    with a valid token, [debugMode: true], [imageData: ""] and no
    [mimeType] passes validation and reaches the provider call: exactly one
    request goes out, for the data URL [data:undefined;base64,]. *)
Theorem debugMode_true_skips_validation :
  forall (penv : ProcessEnv) (env : Env)
         (hdrs : list (jsstring * jsstring)) (json : JsVal),
    getProp json (lit "debugMode") = JBool true ->
    validateRequestBody json = Normal bypassed
    /\ (validateAppToken penv (appToken (POST hdrs json)) = true ->
        getProp json (lit "imageData") = JStr [] ->
        getProp json (lit "mimeType") = JUndefined ->
        snd (handler penv env (POST hdrs json))
        = [providerCall penv (lit "undefined") []]).
Proof.
  intros penv env hdrs json Hdebug.
  pose proof (validateRequestBody_bypass json Hdebug) as Hbypass.
  split; [exact Hbypass|].
  intros Htoken Himage Hmime.
  rewrite (handler_sent penv env hdrs json bypassed Htoken Hbypass eq_refl).
  rewrite Himage, Hmime. unfold processWithAIProvider.
  rewrite provider_is_configured.
  now rewrite (processWithOpenAI_sends penv env [] (lit "undefined") JUndefined).
Qed.



(** C7, as the handler has it. For a body whose [imageData] is a non-empty
    string, with [debugMode] not [true], the validator estimates the
    decoded size as three quarters of the cleaned length; whenever it
    returns a result (it does unless printing an unsupported [mimeType]
    throws), an estimate above 20 MiB makes the body invalid with the
    size-exceeded message, which carries the estimate in MB with two
    decimals, and an estimate under 100 bytes makes it invalid with a
    message citing "too small or invalid". The empty string is not
    covered: it is reported as a missing field, without a size check. *)
Theorem size_checks_on_non_empty_string_imageData :
  forall (json : JsVal) (s : jsstring) (r : ValidationResult),
    getProp json (lit "imageData") = JStr s ->
    s <> [] ->
    getProp json (lit "debugMode") <> JBool true ->
    validateRequestBody json = Normal r ->
    (estimatedSize (length (removeWhiteSpace s))
     == inject_Z (Z.of_nat (length (removeWhiteSpace s))) * 3 / 4)%Q
    /\ ((inject_Z (20 * 1024 * 1024) < estimatedSize (length (removeWhiteSpace s)))%Q ->
        isValid r = false
        /\ In (lit "Image size exceeds maximum allowed size of 20MB (current: "
               ++ toFixed2 (estimatedSize (length (removeWhiteSpace s)) / MB)%Q
               ++ lit "MB)") (errors r))
    /\ ((estimatedSize (length (removeWhiteSpace s)) < 100)%Q ->
        isValid r = false
        /\ exists e, In e (errors r)
             /\ Includes (lit "too small or invalid") e
             /\ isPrefix (lit "Image data appears to be too small or invalid ("
                          ++ numberToString (estimatedSize (length (removeWhiteSpace s)))
                          ++ lit " bytes)") e = true).
Proof.
  intros json s r Himage Hne Hdebug Hr.
  destruct (imageData_object json) as [props ->]; [congruence|].
  destruct (validateRequestBody_returns props r Hdebug Hr) as (Hin & Hvalid & _).
  assert (Hstage : afterImageData (JObj props)
                   = checkImageData s (afterRequired (JObj props))).
  { unfold afterImageData. rewrite Himage. destruct s; [congruence | reflexivity]. }
  rewrite Hstage in Hin. split; [apply estimatedSize_value|]. split.
  - intros Hbig. apply Qgtb_true in Hbig.
    pose proof (Hin _ (checkImageData_size_exceeded s _ Hbig)) as He.
    split; [|exact He]. rewrite Hvalid. exact (nonempty_not_valid _ _ He).
  - intros Hsmall. apply Qltb_true in Hsmall.
    pose proof (Hin _ (checkImageData_too_small s _ Hsmall)) as He.
    split; [rewrite Hvalid; exact (nonempty_not_valid _ _ He)|].
    eexists. split; [exact He|]. split.
    + exists (lit "Image data appears to be "),
        (lit " (" ++ numberToString (estimatedSize (length (removeWhiteSpace s)))
         ++ lit " bytes) | Debug: "
         ++ stringifyDebugInfo (debugInfoOf s (removeWhiteSpace s))).
      reflexivity.
    + apply isPrefix_spec.
      exists (lit " | Debug: " ++ stringifyDebugInfo (debugInfoOf s (removeWhiteSpace s))).
      rewrite <- !app_assoc. reflexivity.
Qed.

(** C1, as the handler has it. When the provider call the handler sends
    for a [POST] with a valid token and a valid body exceeds the timeout
    ([fetch] rejects with an [AbortError]), the answer is status 500 with
    code ["AI_001"]; [error.message] is the generic "AI provider error",
    which does not mention the timeout, and the timeout is reported in
    [error.details], which is "Request timeout: OpenAI API took too long to
    respond". *)
Theorem timeout_is_reported_in_details :
  forall (penv : ProcessEnv) (env : Env) (hdrs : list (jsstring * jsstring))
         (json : JsVal) (validation : ValidationResult)
         (call : OutboundRequest) (message : jsstring),
    validateAppToken penv (appToken (POST hdrs json)) = true ->
    validateRequestBody json = Normal validation ->
    isValid validation = true ->
    snd (handler penv env (POST hdrs json)) = [call] ->
    fetch env call = FetchRejected (lit "AbortError") message ->
    isErrorResponse 500 "AI_001" (fst (handler penv env (POST hdrs json)))
    /\ atPath (payload (fst (handler penv env (POST hdrs json)))) ["error"; "message"]
       = JStr (lit "AI provider error")
    /\ mentionsTimeout (lit "AI provider error") = false
    /\ atPath (payload (fst (handler penv env (POST hdrs json)))) ["error"; "details"]
       = JStr (lit "Request timeout: OpenAI API took too long to respond")
    /\ mentionsTimeout (lit "Request timeout: OpenAI API took too long to respond") = true.
Proof.
  intros penv env hdrs json validation call message Htoken Hbody Hvalid Hsent Hfetch.
  rewrite (handler_sent penv env hdrs json validation Htoken Hbody Hvalid) in Hsent.
  unfold processWithAIProvider in Hsent. rewrite provider_is_configured in Hsent.
  assert (Hcall : processWithAIProvider penv env (getProp json (lit "imageData"))
                    (getProp json (lit "mimeType"))
                  = ([call], Throw (newError
                       (lit "Request timeout: OpenAI API took too long to respond")))).
  { unfold processWithAIProvider. rewrite provider_is_configured.
    destruct (getProp json (lit "imageData")) as [ | | b | n | s | items | props ];
      try discriminate Hsent.
    destruct (ToString (getProp json (lit "mimeType"))) as [shown|e] eqn:Hshown.
    - rewrite (processWithOpenAI_sends penv env s shown _ Hshown) in Hsent.
      injection Hsent as <-.
      exact (processWithOpenAI_timeout penv env s shown message _ Hshown Hfetch).
    - unfold processWithOpenAI in Hsent. cbn [replaceWhiteSpace] in Hsent.
      rewrite Hshown in Hsent. discriminate Hsent. }
  rewrite (handler_provider_throws penv env hdrs json _ _ _ Htoken Hbody Hvalid Hcall).
  repeat split.
Qed.

(** C8, as the handler has it. For a [POST] with a valid token and a body
    that passes validation, whose [imageData] and [mimeType] are strings,
    when the provider answers with a success status and a first completion
    whose text is not empty once trimmed, the answer is status 200,
    [data.caption] is the trimmed text and [metadata.imageSize] is the
    length of [imageData] as received, before cleaning. A completion that
    is only white space is not covered: it is treated as no caption. *)
Theorem caption_round_trip :
  forall (penv : ProcessEnv) (env : Env) (hdrs : list (jsstring * jsstring))
         (json : JsVal) (validation : ValidationResult) (s mime c : jsstring)
         (status : Z) (data : JsVal),
    validateAppToken penv (appToken (POST hdrs json)) = true ->
    validateRequestBody json = Normal validation ->
    isValid validation = true ->
    getProp json (lit "imageData") = JStr s ->
    getProp json (lit "mimeType") = JStr mime ->
    fetch env (providerCall penv mime (removeWhiteSpace s))
    = FetchResponse status (JsonValue data) ->
    responseOk status = true ->
    firstCompletion data = JStr c ->
    trim c <> [] ->
    statusCode (fst (handler penv env (POST hdrs json))) = 200%Z
    /\ atPath (payload (fst (handler penv env (POST hdrs json)))) ["success"]
       = JBool true
    /\ atPath (payload (fst (handler penv env (POST hdrs json)))) ["data"; "caption"]
       = JStr (trim c)
    /\ atPath (payload (fst (handler penv env (POST hdrs json)))) ["metadata"; "imageSize"]
       = JNum (number_ofZ (Z.of_nat (length s)))
    /\ snd (handler penv env (POST hdrs json))
       = [providerCall penv mime (removeWhiteSpace s)].
Proof.
  intros penv env hdrs json validation s mime c status data
         Htoken Hbody Hvalid Himage Hmime Hfetch Hok Hc Htrim.
  pose proof (processWithOpenAI_caption penv env s mime c (JStr mime) data status
                eq_refl Hfetch Hok Hc) as Hcall.
  apply eqb_neq in Htrim. rewrite Htrim in Hcall.
  rewrite <- Himage, <- Hmime in Hcall.
  change (processWithOpenAI penv env (getProp json (lit "imageData"))
            (getProp json (lit "mimeType")))
    with (processWithAIProvider penv env (getProp json (lit "imageData"))
            (getProp json (lit "mimeType"))) in Hcall.
  rewrite (handler_provider_returns penv env hdrs json validation _ _ s
             Htoken Hbody Hvalid Himage Hcall).
  repeat split.
Qed.

(** X1. Where the validator returns, a missing [imageData] or [mimeType]
    is answered with status 400 and code ["VAL_001"], the validator's
    errors as [error.details], among them the required-field message of
    each missing field; nothing is sent to the provider. *)
Theorem missing_field_answered_400_when_validator_returns :
  forall (penv : ProcessEnv) (env : Env) (hdrs : list (jsstring * jsstring))
         (props : list (jsstring * JsVal)) (r : ValidationResult),
    validateAppToken penv (appToken (POST hdrs (JObj props))) = true ->
    getProp (JObj props) (lit "debugMode") <> JBool true ->
    validateRequestBody (JObj props) = Normal r ->
    getProp (JObj props) (lit "imageData") = JUndefined
    \/ getProp (JObj props) (lit "mimeType") = JUndefined ->
    isErrorResponse 400 "VAL_001" (fst (handler penv env (POST hdrs (JObj props))))
    /\ atPath (payload (fst (handler penv env (POST hdrs (JObj props)))))
         ["error"; "details"] = JArr (map JStr (errors r))
    /\ (getProp (JObj props) (lit "imageData") = JUndefined ->
        In (lit "imageData field is required") (errors r))
    /\ (getProp (JObj props) (lit "mimeType") = JUndefined ->
        In (lit "mimeType field is required") (errors r))
    /\ snd (handler penv env (POST hdrs (JObj props))) = [].
Proof.
  intros penv env hdrs props r Htoken Hdebug Hr Hmissing.
  destruct (validateRequestBody_returns props r Hdebug Hr) as (Hin & Hvalid & _).
  assert (Himage : getProp (JObj props) (lit "imageData") = JUndefined ->
                   In (lit "imageData field is required") (errors r)).
  { intros E. apply Hin. unfold afterImageData, afterRequired. rewrite E.
    apply pushIf_keeps. now apply pushIf_adds. }
  assert (Hmime : getProp (JObj props) (lit "mimeType") = JUndefined ->
                  In (lit "mimeType field is required") (errors r)).
  { intros E. apply Hin.
    assert (Hreq : In (lit "mimeType field is required") (afterRequired (JObj props))).
    { unfold afterRequired. rewrite E. now apply pushIf_adds. }
    unfold afterImageData.
    destruct (getProp (JObj props) (lit "imageData")) as [ | | | | [|c s] | | ];
      try exact Hreq.
    now apply checkImageData_keeps. }
  assert (Hinvalid : isValid r = false).
  { rewrite Hvalid. destruct Hmissing as [E|E].
    - exact (nonempty_not_valid _ _ (Himage E)).
    - exact (nonempty_not_valid _ _ (Hmime E)). }
  rewrite (handler_rejects_invalid penv env hdrs (JObj props) r Htoken Hr Hinvalid).
  repeat split; assumption.
Qed.

(** X2. Where the validator returns, a string [imageData] whose cleaned
    length is not a multiple of 4 makes the body invalid, and one of the
    errors cites "not valid base64". *)
Theorem not_multiple_of_4_reported_when_validator_returns :
  forall (json : JsVal) (s : jsstring) (r : ValidationResult),
    getProp json (lit "imageData") = JStr s ->
    length (removeWhiteSpace s) mod 4 <> 0 ->
    getProp json (lit "debugMode") <> JBool true ->
    validateRequestBody json = Normal r ->
    isValid r = false
    /\ exists e, In e (errors r)
         /\ Includes (lit "not valid base64") e
         /\ isPrefix (lit "imageData length (" ++ ofNat (length (removeWhiteSpace s))
                      ++ lit ") is not valid base64 (must be multiple of 4)") e = true.
Proof.
  intros json s r Himage Hmod Hdebug Hr.
  destruct (imageData_object json) as [props ->]; [congruence|].
  destruct (validateRequestBody_returns props r Hdebug Hr) as (Hin & Hvalid & _).
  assert (Hstage : afterImageData (JObj props)
                   = checkImageData s (afterRequired (JObj props))).
  { unfold afterImageData. rewrite Himage.
    destruct s; [now contradiction Hmod | reflexivity]. }
  rewrite Hstage in Hin.
  pose proof (Hin _ (checkImageData_not_multiple_of_4 s _ Hmod)) as He.
  split; [rewrite Hvalid; exact (nonempty_not_valid _ _ He)|].
  eexists. split; [exact He|]. split.
  - exists (lit "imageData length (" ++ ofNat (length (removeWhiteSpace s)) ++ lit ") is "),
      (lit " (must be multiple of 4) | Debug: "
       ++ stringifyDebugInfo (debugInfoOf s (removeWhiteSpace s))).
    rewrite <- !app_assoc. reflexivity.
  - apply isPrefix_spec.
    exists (lit " | Debug: " ++ stringifyDebugInfo (debugInfoOf s (removeWhiteSpace s))).
    rewrite <- !app_assoc. reflexivity.
Qed.

(** X3. The validator throws nowhere but where it prints an unsupported
    [mimeType]. If it throws, the body is an object, [debugMode] is not
    [true], and [mimeType] is truthy and none of the allowed strings. And
    it does throw, the [TypeError] of the conversion, when [debugMode] is
    not [true] and [mimeType] is an object with a [toString] property of
    its own, or an array that starts with such an object. *)
Theorem validateRequestBody_throws_only_printing_mimeType :
  forall (json : JsVal),
    (forall e, validateRequestBody json = Throw e ->
       (exists props, json = JObj props)
       /\ getProp json (lit "debugMode") <> JBool true
       /\ truthy (getProp json (lit "mimeType")) = true
       /\ (forall mime, In mime SECURITY_CONFIG.ALLOWED_IMAGE_TYPES ->
                        getProp json (lit "mimeType") <> JStr mime))
    /\ (forall ps,
          getProp json (lit "debugMode") <> JBool true ->
          (getProp json (lit "mimeType") = JObj ps
           \/ exists rest, getProp json (lit "mimeType") = JArr (JObj ps :: rest)) ->
          hasOwn (lit "toString") ps = true ->
          validateRequestBody json
          = Throw (typeError (lit "Cannot convert object to primitive value"))).
Proof.
  intros json. split.
  - intros e. unfold validateRequestBody.
    destruct (negb (truthy json) || _); [discriminate|]. cbv zeta.
    destruct (strictEqualsTrue (getProp json (lit "debugMode"))) eqn:Hdebug;
      [discriminate|].
    destruct (truthy (getProp json (lit "mimeType"))) eqn:Hmime; [|discriminate].
    destruct (existsb _ SECURITY_CONFIG.ALLOWED_IMAGE_TYPES) eqn:Hallowed;
      [discriminate|].
    intros _. repeat split.
    + apply (getProp_named json (lit "mimeType")); try reflexivity.
      intros E. rewrite E in Hmime. discriminate.
    + intros E. rewrite E in Hdebug. discriminate.
    + intros mime Hin E. rewrite E in Hallowed.
      assert (H : existsb (strictEqualsString (JStr mime))
                    SECURITY_CONFIG.ALLOWED_IMAGE_TYPES = true).
      { apply existsb_exists. exists mime. split; [assumption | apply eqb_refl]. }
      congruence.
  - intros ps Hdebug Hmime Hown.
    assert (Hobject : exists props, json = JObj props).
    { apply (getProp_named json (lit "mimeType")); try reflexivity.
      destruct Hmime as [-> | (rest & ->)]; discriminate. }
    destruct Hobject as [props ->].
    unfold validateRequestBody. rewrite object_passes_guard. cbv zeta.
    rewrite (strictEqualsTrue_false _ Hdebug).
    destruct Hmime as [-> | (rest & ->)]; cbn [truthy strictEqualsString existsb andb negb
                                                 SECURITY_CONFIG.ALLOWED_IMAGE_TYPES];
      cbn [ToString isNullish]; rewrite Hown; reflexivity.
Qed.

(** An [OPTIONS] request is answered with status 200, the three CORS
    headers and no body, whatever its headers and body are; nothing is
    authenticated, validated or sent. *)
Theorem options_is_answered_empty :
  forall (penv : ProcessEnv) (env : Env)
         (hdrs : list (jsstring * jsstring)) (json : JsVal),
    handler penv env (OPTIONS hdrs json)
    = ({| statusCode := 200;
          responseHeaders :=
            [ (lit "Access-Control-Allow-Origin", lit "*");
              (lit "Access-Control-Allow-Methods", lit "POST, OPTIONS");
              (lit "Access-Control-Allow-Headers",
               lit "Content-Type, Authorization, X-App-Token") ];
          responseBody := None |}, []).
Proof. reflexivity. Qed.

(** X6. Any method other than [OPTIONS] and [POST] is answered with status
    405 and code ["METHOD_001"], without a look at the token or the
    body. *)
Theorem other_methods_not_allowed :
  forall (penv : ProcessEnv) (env : Env) (req : Request),
    method req <> lit "OPTIONS" ->
    method req <> lit "POST" ->
    isErrorResponse 405 "METHOD_001" (fst (handler penv env req))
    /\ atPath (payload (fst (handler penv env req))) ["error"; "details"]
       = JStr (lit "Method " ++ method req ++ lit " not allowed")
    /\ snd (handler penv env req) = [].
Proof.
  intros penv env req Hoptions Hpost. unfold handler.
  apply eqb_neq in Hoptions, Hpost. rewrite Hoptions, Hpost.
  repeat split.
Qed.

End Claims.

(* ====================================================================== *)
(** * Further properties of the code *)
(* ====================================================================== *)

(** ** More on strings and patterns *)

Lemma removeWhiteSpace_noWhiteSpace (s : jsstring) :
  noWhiteSpace (removeWhiteSpace s).
Proof.
  unfold noWhiteSpace, removeWhiteSpace. apply Forall_forall.
  intros c Hc. apply filter_In in Hc as [_ Hc]. now apply negb_true_iff.
Qed.

Lemma removeWhiteSpace_fixes (s : jsstring) :
  noWhiteSpace s -> removeWhiteSpace s = s.
Proof.
  unfold noWhiteSpace, removeWhiteSpace. induction 1 as [|c s Hc _ IH].
  - reflexivity.
  - simpl. rewrite Hc. simpl. now rewrite IH.
Qed.

Lemma removeWhiteSpace_idempotent (s : jsstring) :
  removeWhiteSpace (removeWhiteSpace s) = removeWhiteSpace s.
Proof. apply removeWhiteSpace_fixes, removeWhiteSpace_noWhiteSpace. Qed.

Lemma trimStart_head (s : jsstring) (c : N) (r : jsstring) :
  trimStart s = c :: r -> isWhiteSpace c = false.
Proof.
  induction s as [|x s IH]; simpl; [discriminate|].
  destruct (isWhiteSpace x) eqn:Hx; [exact IH|].
  intros H. injection H as <- _. exact Hx.
Qed.

Lemma trimStart_fixes (s : jsstring) (c : N) (r : jsstring) :
  s = c :: r -> isWhiteSpace c = false -> trimStart s = s.
Proof. intros -> H. simpl. now rewrite H. Qed.

(** What is left of a string once its leading white space is dropped is a
    suffix of it. *)
Lemma trimStart_suffix (s : jsstring) :
  exists ws, s = ws ++ trimStart s /\ Forall (fun c => isWhiteSpace c = true) ws.
Proof.
  induction s as [|x s (ws & IH & Hws)]; simpl.
  - now exists [].
  - destruct (isWhiteSpace x) eqn:Hx.
    + exists (x :: ws). split; [simpl; now rewrite <- IH | now constructor].
    + now exists [].
Qed.

(** Trimming drops white space at both ends and nothing else. *)
Lemma trim_decompose (s : jsstring) :
  exists l r,
    s = l ++ trim s ++ r
    /\ trimStart s = trim s ++ r
    /\ Forall (fun c => isWhiteSpace c = true) l
    /\ Forall (fun c => isWhiteSpace c = true) r.
Proof.
  destruct (trimStart_suffix s) as (l & Hs & Hl).
  destruct (trimStart_suffix (rev (trimStart s))) as (ws & Hrev & Hws).
  assert (Ha : trimStart s = trim s ++ rev ws).
  { unfold trim. rewrite <- rev_app_distr, <- Hrev. now rewrite rev_involutive. }
  exists l, (rev ws). repeat split.
  - rewrite <- Ha. exact Hs.
  - exact Ha.
  - exact Hl.
  - now apply Forall_rev.
Qed.

(** A trimmed string neither starts nor ends with white space. *)
Lemma trim_first (s : jsstring) (c : N) (r : jsstring) :
  trim s = c :: r -> isWhiteSpace c = false.
Proof.
  intros H. destruct (trim_decompose s) as (_ & ws & _ & Ha & _).
  rewrite H in Ha. exact (trimStart_head s c _ Ha).
Qed.

Lemma trim_last (s : jsstring) (r : jsstring) (c : N) :
  trim s = r ++ [c] -> isWhiteSpace c = false.
Proof.
  unfold trim. intros H.
  assert (Hb : trimStart (rev (trimStart s)) = c :: rev r).
  { rewrite <- (rev_involutive (trimStart (rev (trimStart s)))), H.
    now rewrite rev_app_distr. }
  exact (trimStart_head _ _ _ Hb).
Qed.

Lemma base64Char_spec (c : N) : Pattern.base64Char c = true <-> Base64Char c.
Proof.
  unfold Pattern.base64Char, Pattern.only, Base64Char, isUpper, isLower, isDigit, inRange.
  rewrite !orb_true_iff, !andb_true_iff, !N.leb_le, !N.eqb_eq.
  intuition congruence.
Qed.

Lemma many_app (cls : N -> bool) (g r : jsstring) :
  forallb cls g = true -> Pattern.many cls (g ++ r) = Pattern.many cls r.
Proof.
  induction g as [|c g IH]; simpl; [reflexivity|].
  intros H. apply andb_true_iff in H as [Hc Hg]. rewrite Hc. now apply IH.
Qed.

Lemma many_inv (cls : N -> bool) (s : jsstring) :
  exists g, s = g ++ Pattern.many cls s /\ forallb cls g = true.
Proof.
  induction s as [|c s (g & IH & Hg)]; simpl.
  - now exists [].
  - destruct (cls c) eqn:Hc.
    + exists (c :: g). simpl. rewrite Hc, Hg. split; [now rewrite <- IH | reflexivity].
    + now exists [].
Qed.

(** The pattern of the validator accepts exactly base64 text: characters of
    the alphabet followed by at most two [=]. *)
Lemma base64Pattern_spec (s : jsstring) :
  Pattern.base64Pattern s = true <-> base64Shape s.
Proof.
  unfold Pattern.base64Pattern, base64Shape. split.
  - intros H. destruct (many_inv Pattern.base64Char s) as (g & Hs & Hg).
    exists g, (Pattern.many Pattern.base64Char s). split; [exact Hs|]. split.
    + apply Forall_forall. intros c Hc. apply base64Char_spec.
      rewrite forallb_forall in Hg. now apply Hg.
    + destruct (Pattern.many Pattern.base64Char s) as [|c r]; [now left|].
      cbn [Pattern.atMost] in H.
      destruct (Pattern.only 61 c) eqn:E; [|discriminate H].
      apply N.eqb_eq in E. subst c.
      destruct r as [|d r]; [right; now left|].
      cbn [Pattern.atMost] in H.
      destruct (Pattern.only 61 d) eqn:E; [|discriminate H].
      apply N.eqb_eq in E. subst d.
      destruct r as [|e r]; [right; now right | discriminate H].
  - intros (data & pad & -> & Hdata & Hpad).
    rewrite many_app.
    + destruct Hpad as [-> | [-> | ->]]; reflexivity.
    + apply forallb_forall. intros c Hc. apply base64Char_spec.
      rewrite Forall_forall in Hdata. now apply Hdata.
Qed.

(** [dedup] keeps one copy of every element that was not seen before, in
    the order of first occurrence. *)
Lemma dedup_In (seen xs : list N) (c : N) :
  In c (dedup seen xs) <-> In c xs /\ ~ In c seen.
Proof.
  revert seen. induction xs as [|x xs IH]; intros seen; simpl.
  - tauto.
  - destruct (existsb (N.eqb x) seen) eqn:E.
    + rewrite IH. apply existsb_exists in E as (y & Hy & Hxy).
      apply N.eqb_eq in Hxy. subst y. split.
      * intros [H1 H2]. tauto.
      * intros [[->|H1] H2]; [contradiction | tauto].
    + assert (Hx : ~ In x seen).
      { intros Hin. apply Bool.not_true_iff_false in E. apply E.
        apply existsb_exists. exists x. split; [assumption | apply N.eqb_refl]. }
      simpl. rewrite IH. simpl. split.
      * intros [->|[H1 H2]]; [tauto|]. split; [tauto|]. intros H3. apply H2. now right.
      * intros [[->|H1] H2]; [now left|].
        destruct (N.eq_dec x c) as [->|Hne]; [now left|].
        right. split; [assumption|]. intros [H3|H3]; [contradiction | contradiction].
Qed.

Lemma dedup_NoDup (seen xs : list N) : NoDup (dedup seen xs).
Proof.
  revert seen. induction xs as [|x xs IH]; intros seen; simpl.
  - constructor.
  - destruct (existsb (N.eqb x) seen); [apply IH|].
    constructor; [|apply IH].
    intros H. apply dedup_In in H as [_ H]. apply H. now left.
Qed.

(** Removing the first occurrence of a pattern: a leading occurrence is
    cut off, and a string without any occurrence is left as it is. *)
Lemma removeFirst_unfold (p s : jsstring) :
  removeFirst p s =
  if isPrefix p s then skipn (length p) s
  else match s with
       | [] => []
       | c :: r => c :: removeFirst p r
       end.
Proof. now destruct s. Qed.

Lemma removeFirst_prefix (p t : jsstring) : removeFirst p (p ++ t) = t.
Proof.
  rewrite removeFirst_unfold.
  replace (isPrefix p (p ++ t)) with true
    by (symmetry; apply isPrefix_spec; now exists t).
  now rewrite skipn_app, skipn_all, Nat.sub_diag.
Qed.

Lemma removeFirst_absent (p s : jsstring) :
  ~ Includes p s -> removeFirst p s = s.
Proof.
  induction s as [|c s IH]; intros H; rewrite removeFirst_unfold.
  - destruct (isPrefix p []) eqn:E; [|reflexivity].
    exfalso. apply H. apply includes_spec. simpl. now rewrite E.
  - destruct (isPrefix p (c :: s)) eqn:E.
    + exfalso. apply H. apply includes_spec. cbn [includes]. now rewrite E.
    + f_equal. apply IH. intros (pre & post & Hs). apply H.
      exists (c :: pre), post. simpl. now rewrite Hs.
Qed.

(** ** More on the validator *)

Section ValidatorStages.
Context {Num : JsNumber}.

(** Without the bypass, the validator is its three stages in a row. *)
Lemma validateRequestBody_stages (props : list (jsstring * JsVal)) :
  getProp (JObj props) (lit "debugMode") <> JBool true ->
  validateRequestBody (JObj props) =
  (errors <- afterMimeType (JObj props) ;;
   Normal {| isValid := Nat.eqb (length errors) 0; errors := errors; debug := false |}).
Proof.
  intros Hdebug. unfold validateRequestBody. rewrite object_passes_guard.
  cbv zeta. rewrite (strictEqualsTrue_false _ Hdebug).
  fold (afterRequired (JObj props)).
  assert (Hstage :
    (if truthy (getProp (JObj props) (lit "imageData"))
        && eqb (typeOf (getProp (JObj props) (lit "imageData"))) (lit "string")
     then match getProp (JObj props) (lit "imageData") with
          | JStr s => checkImageData s (afterRequired (JObj props))
          | _ => afterRequired (JObj props)
          end
     else afterRequired (JObj props)) = afterImageData (JObj props)).
  { unfold afterImageData.
    destruct (getProp (JObj props) (lit "imageData")) as [ | | b | n | s | items | ps ];
      try reflexivity.
    - now destruct (truthy (JBool b) && _).
    - now destruct (truthy (JNum n) && _).
    - now destruct s. }
  rewrite Hstage. unfold afterMimeType.
  destruct (truthy (getProp (JObj props) (lit "mimeType")) && _); [|reflexivity].
  now destruct (ToString (getProp (JObj props) (lit "mimeType"))).
Qed.

Lemma pushIf_nil (c : bool) (errors : list jsstring) (e : jsstring) :
  pushIf c errors e = [] <-> c = false /\ errors = [].
Proof.
  unfold pushIf, push. destruct c.
  - split; [|intros [H _]; discriminate].
    intros H. apply app_eq_nil in H as [_ H]. discriminate.
  - tauto.
Qed.

Lemma estimatedSize_within_limit (n : nat) :
  Qgtb (estimatedSize n) (inject_Z AI_CONFIG.MAX_IMAGE_SIZE) = false
  <-> (3 * Z.of_nat n <= 83886080)%Z.
Proof.
  unfold Qgtb. rewrite negb_false_iff, Qle_bool_iff.
  unfold Qle, estimatedSize, inject_Z, AI_CONFIG.MAX_IMAGE_SIZE.
  cbn [Qnum Qden]. lia.
Qed.

Lemma estimatedSize_not_too_small (n : nat) :
  Qltb (estimatedSize n) 100 = false <-> (400 <= 3 * Z.of_nat n)%Z.
Proof.
  unfold Qltb. rewrite negb_false_iff, Qle_bool_iff.
  unfold Qle, estimatedSize. cbn [Qnum Qden]. lia.
Qed.

(** The checks on a string record nothing exactly when the cleaned text is
    base64, of a length that is a multiple of 4 between 136 and 27,962,024
    (an estimate between 100 bytes and 20 MiB). *)
Lemma checkImageData_nil (s : jsstring) (errors : list jsstring) :
  checkImageData s errors = [] <->
  errors = []
  /\ base64Shape (removeWhiteSpace s)
  /\ (136 <= Z.of_nat (length (removeWhiteSpace s)) <= 27962024)%Z
  /\ length (removeWhiteSpace s) mod 4 = 0.
Proof.
  unfold checkImageData. cbv zeta.
  rewrite !pushIf_nil, negb_false_iff, negb_false_iff, Nat.eqb_eq, Nat.eqb_neq,
    estimatedSize_within_limit, estimatedSize_not_too_small, base64Pattern_spec.
  split.
  - intros (Hmod & Hne & Hsmall & Hbig & Hshape & Herr).
    repeat split; try assumption.
    + apply Nat.Div0.div_exact in Hmod. lia.
    + apply Nat.Div0.div_exact in Hmod. lia.
  - intros (Herr & Hshape & [Hlo Hhi] & Hmod).
    repeat split; try assumption; lia.
Qed.

Lemma afterRequired_nil (body : JsVal) :
  afterRequired body = [] <->
  truthy (getProp body (lit "imageData")) = true
  /\ truthy (getProp body (lit "mimeType")) = true.
Proof.
  unfold afterRequired. rewrite !pushIf_nil, !negb_false_iff. tauto.
Qed.

Lemma allowed_type_inv (v : JsVal) :
  existsb (strictEqualsString v) SECURITY_CONFIG.ALLOWED_IMAGE_TYPES = true
  <-> exists m, v = JStr m /\ In m SECURITY_CONFIG.ALLOWED_IMAGE_TYPES.
Proof.
  rewrite existsb_exists. split.
  - intros (m & Hin & Heq). exists m. split; [|assumption].
    destruct v; try discriminate. simpl in Heq. apply eqb_eq in Heq. now subst.
  - intros (m & -> & Hin). exists m. split; [assumption | apply eqb_refl].
Qed.

Lemma allowed_type_truthy (m : jsstring) :
  In m SECURITY_CONFIG.ALLOWED_IMAGE_TYPES -> truthy (JStr m) = true.
Proof.
  intros H. destruct m; [|reflexivity]. simpl in H.
  repeat (destruct H as [H|H]; [discriminate|]). contradiction.
Qed.

(** The validator throws nothing but the error of a failed conversion to
    a string. *)
Lemma afterMimeType_nil (body : JsVal) :
  afterMimeType body = Normal [] <->
  afterImageData body = []
  /\ (truthy (getProp body (lit "mimeType")) = true ->
      exists m, getProp body (lit "mimeType") = JStr m
                /\ In m SECURITY_CONFIG.ALLOWED_IMAGE_TYPES).
Proof.
  unfold afterMimeType.
  destruct (truthy (getProp body (lit "mimeType"))) eqn:Ht; cbn [andb].
  - destruct (existsb _ SECURITY_CONFIG.ALLOWED_IMAGE_TYPES) eqn:Hex; cbn [negb].
    + apply allowed_type_inv in Hex. split.
      * intros H. injection H as H. split; [assumption | now intros _].
      * intros [-> _]. reflexivity.
    + split.
      * destruct (ToString (getProp body (lit "mimeType"))); simpl; [|discriminate].
        intros H. injection H as H. unfold push in H.
        apply app_eq_nil in H as [_ H]. discriminate.
      * intros [_ H]. destruct (H eq_refl) as (m & Hm & Hin).
        assert (Hex' : existsb (strictEqualsString (getProp body (lit "mimeType")))
                         SECURITY_CONFIG.ALLOWED_IMAGE_TYPES = true)
          by (apply allowed_type_inv; now exists m).
        congruence.
  - split.
    + intros H. injection H as H. split; [assumption | discriminate].
    + intros [-> _]. reflexivity.
Qed.

End ValidatorStages.

Section ValidatorProperties.
Context {Num : JsNumber}.

Lemma accepts_iff_no_error (props : list (jsstring * JsVal)) :
  getProp (JObj props) (lit "debugMode") <> JBool true ->
  accepts (JObj props) <-> afterMimeType (JObj props) = Normal [].
Proof.
  intros Hdebug. unfold accepts. rewrite (validateRequestBody_stages props Hdebug).
  destruct (afterMimeType (JObj props)) as [errs|e]; cbn [bind].
  - split.
    + intros (r & Hr & Hvalid). injection Hr as <-. cbn [isValid] in Hvalid.
      apply Nat.eqb_eq in Hvalid. apply length_zero_iff_nil in Hvalid. now subst.
    + intros H. injection H as ->. eexists. split; reflexivity.
  - split; [intros (r & Hr & _); discriminate | discriminate].
Qed.

Lemma afterImageData_nil (body : JsVal) :
  afterImageData body = [] <->
  afterRequired body = []
  /\ (forall s, getProp body (lit "imageData") = JStr s ->
      base64Shape (removeWhiteSpace s)
      /\ (136 <= Z.of_nat (length (removeWhiteSpace s)) <= 27962024)%Z
      /\ length (removeWhiteSpace s) mod 4 = 0).
Proof.
  unfold afterImageData.
  destruct (getProp body (lit "imageData")) as [ | | b | n | [|c s] | items | ps ] eqn:E;
    try (split; [intros H; split; [exact H | discriminate] | tauto]).
  - (* the empty string is falsy: the field counts as missing *)
    split.
    + intros H. exfalso. apply afterRequired_nil in H as [H _].
      rewrite E in H. discriminate.
    + intros [H _]. exact H.
  - rewrite checkImageData_nil. split.
    + intros (H & Hrest). split; [exact H|]. intros s' Hs'. injection Hs' as <-. exact Hrest.
    + intros (H & Hrest). split; [exact H|]. now apply Hrest.
Qed.

(** X4. What the validator accepts. Without the bypass, an object body is
    reported valid exactly when [imageData] is truthy, [mimeType] is one of
    the four allowed strings, and, if [imageData] is a string, its cleaned
    text is base64 (alphabet characters, then at most two [=]) of a length
    that is a multiple of 4 between 136 and 27,962,024. *)
Theorem accepted_iff :
  forall (props : list (jsstring * JsVal)),
    getProp (JObj props) (lit "debugMode") <> JBool true ->
    (accepts (JObj props) <->
     truthy (getProp (JObj props) (lit "imageData")) = true
     /\ (forall s, getProp (JObj props) (lit "imageData") = JStr s ->
         base64Shape (removeWhiteSpace s)
         /\ (136 <= Z.of_nat (length (removeWhiteSpace s)) <= 27962024)%Z
         /\ length (removeWhiteSpace s) mod 4 = 0)
     /\ exists m, getProp (JObj props) (lit "mimeType") = JStr m
                  /\ In m SECURITY_CONFIG.ALLOWED_IMAGE_TYPES).
Proof.
  intros props Hdebug.
  rewrite (accepts_iff_no_error props Hdebug), afterMimeType_nil,
    afterImageData_nil, afterRequired_nil.
  split.
  - intros ((( Himage & Hmime) & Hstring) & Hallowed).
    split; [exact Himage|]. split; [exact Hstring | now apply Hallowed].
  - intros (Himage & Hstring & m & Hm & Hin).
    assert (Hmime : truthy (getProp (JObj props) (lit "mimeType")) = true).
    { rewrite Hm. now apply allowed_type_truthy. }
    split; [split; [split|]; assumption|]. intros _. now exists m.
Qed.

(** X7. A [mimeType] string outside the allowed list is reported by name.
    The comparison is exact: another spelling of an allowed type is
    unsupported. *)
Theorem unsupported_type_is_named :
  forall (props : list (jsstring * JsVal)) (m : jsstring),
    getProp (JObj props) (lit "debugMode") <> JBool true ->
    getProp (JObj props) (lit "mimeType") = JStr m ->
    m <> [] ->
    ~ In m SECURITY_CONFIG.ALLOWED_IMAGE_TYPES ->
    exists r,
      validateRequestBody (JObj props) = Normal r
      /\ isValid r = false
      /\ errors r = afterImageData (JObj props) ++ [lit "Unsupported image type: " ++ m].
Proof.
  intros props m Hdebug Hm Hne Hnot.
  rewrite (validateRequestBody_stages props Hdebug). unfold afterMimeType.
  rewrite Hm.
  assert (Ht : truthy (JStr m) = true) by (destruct m; [congruence | reflexivity]).
  assert (Hex : existsb (strictEqualsString (JStr m))
                  SECURITY_CONFIG.ALLOWED_IMAGE_TYPES = false).
  { destruct (existsb _ _) eqn:E; [|reflexivity].
    apply allowed_type_inv in E as (m' & Hm' & Hin). injection Hm' as <-. contradiction. }
  rewrite Ht, Hex. cbn [andb negb ToString bind].
  eexists. split; [reflexivity|]. split; [|reflexivity].
  cbn [isValid]. unfold push. rewrite length_app. cbn [length]. apply Nat.eqb_neq. lia.
Qed.

End ValidatorProperties.

(** ** More on the provider client and the handler *)

Section ProviderOutcomes.
Context {Num : JsNumber}.
Variable penv : ProcessEnv.
Variable env : Env.

(** A rejection of [fetch] is caught and thrown again: as the timeout when
    its name is [AbortError], with its message otherwise. *)
Lemma processWithOpenAI_rejected (s shown name message : jsstring) (mimeType : JsVal) :
  ToString mimeType = Normal shown ->
  fetch env (providerCall penv shown (removeWhiteSpace s))
  = FetchRejected name message ->
  processWithOpenAI penv env (JStr s) mimeType
  = ([providerCall penv shown (removeWhiteSpace s)],
     Throw (newError
       (if eqb name (lit "AbortError")
        then lit "Request timeout: OpenAI API took too long to respond"
        else lit "OpenAI processing failed: " ++ message))).
Proof.
  intros Hmime Hfetch. unfold processWithOpenAI. cbn [replaceWhiteSpace].
  rewrite Hmime. cbv zeta. fold (providerCall penv shown (removeWhiteSpace s)).
  rewrite Hfetch. cbn [tryCatch thrownName thrownMessage].
  now destruct (eqb name (lit "AbortError")).
Qed.

(** So is a rejection of [response.json()] on a success status. *)
Lemma processWithOpenAI_unparsed (s shown name message : jsstring) (mimeType : JsVal)
      (status : Z) :
  ToString mimeType = Normal shown ->
  fetch env (providerCall penv shown (removeWhiteSpace s))
  = FetchResponse status (JsonRejected name message) ->
  responseOk status = true ->
  processWithOpenAI penv env (JStr s) mimeType
  = ([providerCall penv shown (removeWhiteSpace s)],
     Throw (newError
       (if eqb name (lit "AbortError")
        then lit "Request timeout: OpenAI API took too long to respond"
        else lit "OpenAI processing failed: " ++ message))).
Proof.
  intros Hmime Hfetch Hok. unfold processWithOpenAI. cbn [replaceWhiteSpace].
  rewrite Hmime. cbv zeta. fold (providerCall penv shown (removeWhiteSpace s)).
  rewrite Hfetch, Hok. cbn [negb bind tryCatch thrownName thrownMessage].
  now destruct (eqb name (lit "AbortError")).
Qed.

Lemma processWithOpenAI_upstream (s shown text : jsstring) (mimeType : JsVal)
      (status : Z) (json : JsonResult) :
  ToString mimeType = Normal shown ->
  fetch env (providerCall penv shown (removeWhiteSpace s))
  = FetchResponse status json ->
  responseOk status = false ->
  isNullish (errorDataOf json) = false ->
  ToString (orElse (atPath (errorDataOf json) ["error"; "message"])
                   (JStr (lit "Unknown error"))) = Normal text ->
  processWithOpenAI penv env (JStr s) mimeType
  = ([providerCall penv shown (removeWhiteSpace s)],
     Throw (newError (lit "OpenAI processing failed: OpenAI API error: "
                      ++ ofZ status ++ lit " - " ++ text))).
Proof.
  intros Hmime Hfetch Hok Hdata Htext. unfold processWithOpenAI.
  cbn [replaceWhiteSpace]. rewrite Hmime. cbv zeta.
  fold (providerCall penv shown (removeWhiteSpace s)).
  rewrite Hfetch, Hok. cbn [negb]. cbv iota.
  fold (errorDataOf json).
  assert (Hmember : member (errorDataOf json) "error"
                    = Normal (getProp (errorDataOf json) (lit "error"))).
  { destruct (errorDataOf json); try reflexivity; discriminate. }
  cbn [bind]. rewrite Hmember. cbn [bind].
  rewrite getOptional_getProp. cbn [atPath] in Htext. rewrite Htext.
  cbn [bind tryCatch thrownName thrownMessage].
  change (eqb (lit "Error") (lit "AbortError")) with false. cbv iota.
  reflexivity.
Qed.

End ProviderOutcomes.

Section HandlerOutcomes.
Context {Num : JsNumber}.
Variable penv : ProcessEnv.
Variable env : Env.

Lemma handleError_failure (name text : jsstring) :
  text <> [] -> handleError env (ThrownError name text) = providerFailure env text.
Proof. intros H. destruct text; [congruence | reflexivity]. Qed.

Lemma prefixed_not_empty (prefix : string) (c : ascii) (rest : jsstring) :
  lit (String c prefix) ++ rest <> [].
Proof. discriminate. Qed.

(** A failure of the provider call on a string [imageData] is answered
    with status 500 and its text as details. *)
Lemma handler_provider_failure (hdrs : list (jsstring * jsstring)) (json : JsVal)
      (validation : ValidationResult) (s text : jsstring)
      (sent : list OutboundRequest) :
  validateAppToken penv (appToken (POST hdrs json)) = true ->
  validateRequestBody json = Normal validation ->
  isValid validation = true ->
  getProp json (lit "imageData") = JStr s ->
  processWithOpenAI penv env (JStr s) (getProp json (lit "mimeType"))
  = (sent, Throw (newError text)) ->
  text <> [] ->
  handler penv env (POST hdrs json) = (providerFailure env text, sent).
Proof.
  intros Htoken Hbody Hvalid Himage Hcall Htext.
  rewrite <- Himage in Hcall.
  rewrite (handler_provider_throws penv env hdrs json validation sent _
             Htoken Hbody Hvalid Hcall).
  unfold newError. now rewrite handleError_failure.
Qed.

End HandlerOutcomes.

Section ProviderProperties.
Context {Num : JsNumber}.

(** X16. A rejection of the provider call, or of reading a success answer
    as JSON, is answered with status 500 and code ["AI_001"]; the details
    are "OpenAI processing failed: " followed by the message of the
    rejection, unless its name is [AbortError], which reads as the
    timeout. One request was sent, and none is sent again. *)
Theorem rejection_is_reported :
  forall (penv : ProcessEnv) (env : Env) (hdrs : list (jsstring * jsstring))
         (json : JsVal) (validation : ValidationResult)
         (s shown name message : jsstring),
    validateAppToken penv (appToken (POST hdrs json)) = true ->
    validateRequestBody json = Normal validation ->
    isValid validation = true ->
    getProp json (lit "imageData") = JStr s ->
    ToString (getProp json (lit "mimeType")) = Normal shown ->
    fetch env (providerCall penv shown (removeWhiteSpace s)) = FetchRejected name message
    \/ (exists status,
          fetch env (providerCall penv shown (removeWhiteSpace s))
          = FetchResponse status (JsonRejected name message)
          /\ responseOk status = true) ->
    handler penv env (POST hdrs json)
    = (providerFailure env
         (if eqb name (lit "AbortError")
          then lit "Request timeout: OpenAI API took too long to respond"
          else lit "OpenAI processing failed: " ++ message),
       [providerCall penv shown (removeWhiteSpace s)]).
Proof.
  intros penv env hdrs json validation s shown name message
         Htoken Hbody Hvalid Himage Hmime Hfetch.
  apply (handler_provider_failure penv env hdrs json validation s); try assumption.
  - destruct Hfetch as [Hfetch | (status & Hfetch & Hok)].
    + now apply processWithOpenAI_rejected.
    + now apply (processWithOpenAI_unparsed penv env s shown name message _ status).
  - destruct (eqb name (lit "AbortError")); discriminate.
Qed.

(** X17. An answer of the provider with a status outside 200..299 is
    answered with status 500 and details that carry the upstream status
    and, when the error body has a non-empty [error.message] string, that
    message; "Unknown error" stands in when the body does not parse or has
    no such message. An error body that is [null] loses even the status:
    reading its [error] property throws. *)
Theorem upstream_error_is_reported :
  forall (penv : ProcessEnv) (env : Env) (hdrs : list (jsstring * jsstring))
         (json : JsVal) (validation : ValidationResult) (s shown : jsstring)
         (status : Z) (answer : JsonResult),
    validateAppToken penv (appToken (POST hdrs json)) = true ->
    validateRequestBody json = Normal validation ->
    isValid validation = true ->
    getProp json (lit "imageData") = JStr s ->
    ToString (getProp json (lit "mimeType")) = Normal shown ->
    fetch env (providerCall penv shown (removeWhiteSpace s)) = FetchResponse status answer ->
    responseOk status = false ->
    (forall message,
       atPath (errorDataOf answer) ["error"; "message"] = JStr message ->
       message <> [] ->
       handler penv env (POST hdrs json)
       = (providerFailure env
            (lit "OpenAI processing failed: OpenAI API error: " ++ ofZ status
             ++ lit " - " ++ message),
          [providerCall penv shown (removeWhiteSpace s)]))
    /\ (isNullish (errorDataOf answer) = false ->
        truthy (atPath (errorDataOf answer) ["error"; "message"]) = false ->
        handler penv env (POST hdrs json)
        = (providerFailure env
             (lit "OpenAI processing failed: OpenAI API error: " ++ ofZ status
              ++ lit " - Unknown error"),
           [providerCall penv shown (removeWhiteSpace s)]))
    /\ (answer = JsonValue JNull ->
        handler penv env (POST hdrs json)
        = (providerFailure env
             (lit "OpenAI processing failed: Cannot read properties of null (reading 'error')"),
           [providerCall penv shown (removeWhiteSpace s)])).
Proof.
  intros penv env hdrs json validation s shown status answer
         Htoken Hbody Hvalid Himage Hmime Hfetch Hok.
  split; [|split].
  - intros message Hmessage Hne.
    apply (handler_provider_failure penv env hdrs json validation s); try assumption;
      [|discriminate].
    apply (processWithOpenAI_upstream penv env s shown _ _ status answer); try assumption.
    + destruct (errorDataOf answer); try reflexivity; discriminate.
    + rewrite Hmessage. unfold orElse.
      replace (truthy (JStr message)) with true
        by (destruct message; [congruence | reflexivity]).
      reflexivity.
  - intros Hdata Hfalsy.
    apply (handler_provider_failure penv env hdrs json validation s); try assumption;
      [|discriminate].
    apply (processWithOpenAI_upstream penv env s shown _ _ status answer); try assumption.
    unfold orElse. now rewrite Hfalsy.
  - intros ->.
    apply (handler_provider_failure penv env hdrs json validation s); try assumption;
      [|discriminate].
    unfold processWithOpenAI. cbn [replaceWhiteSpace]. rewrite Hmime. cbv zeta.
    fold (providerCall penv shown (removeWhiteSpace s)).
    rewrite Hfetch, Hok. reflexivity.
Qed.

End ProviderProperties.

Section CompletionProperties.
Context {Num : JsNumber}.

Lemma processWithOpenAI_no_text (penv : ProcessEnv) (env : Env)
      (s shown : jsstring) (mimeType data : JsVal) (status : Z) :
  ToString mimeType = Normal shown ->
  fetch env (providerCall penv shown (removeWhiteSpace s))
  = FetchResponse status (JsonValue data) ->
  responseOk status = true ->
  isNullish data = false ->
  (forall c, firstCompletion data <> JStr c) ->
  processWithOpenAI penv env (JStr s) mimeType
  = ([providerCall penv shown (removeWhiteSpace s)],
     Throw (newError
       (if isNullish (firstCompletion data)
        then lit "OpenAI processing failed: No caption generated by OpenAI"
        else lit "OpenAI processing failed: data.choices?.[0]?.message?.content?.trim is not a function"))).
Proof.
  intros Hmime Hfetch Hok Hdata Hc. unfold processWithOpenAI. cbn [replaceWhiteSpace].
  rewrite Hmime. cbv zeta. fold (providerCall penv shown (removeWhiteSpace s)).
  rewrite Hfetch, Hok. cbn [negb]. cbv iota.
  assert (Hmember : member data "choices" = Normal (getProp data (lit "choices"))).
  { destruct data; try reflexivity; discriminate. }
  cbn [bind]. rewrite Hmember. cbn [bind].
  rewrite !getOptional_getProp.
  unfold firstCompletion in *. cbn [atPath] in *.
  destruct (getProp (getProp (getProp (getProp data (lit "choices")) (lit "0"))
                       (lit "message")) (lit "content"))
    as [ | | b | n | c | items | props ]; try reflexivity.
  now contradiction (Hc c).
Qed.

(** X18. A success answer of the provider without a caption in it is
    answered with status 500: "No caption generated by OpenAI" when the
    text of the first completion is missing, [null], empty or white space
    only, and a [TypeError] text when it is not a string at all. *)
Theorem completion_without_text :
  forall (penv : ProcessEnv) (env : Env) (hdrs : list (jsstring * jsstring))
         (json : JsVal) (validation : ValidationResult) (s shown : jsstring)
         (status : Z) (data : JsVal),
    validateAppToken penv (appToken (POST hdrs json)) = true ->
    validateRequestBody json = Normal validation ->
    isValid validation = true ->
    getProp json (lit "imageData") = JStr s ->
    ToString (getProp json (lit "mimeType")) = Normal shown ->
    fetch env (providerCall penv shown (removeWhiteSpace s))
    = FetchResponse status (JsonValue data) ->
    responseOk status = true ->
    isNullish data = false ->
    (isNullish (firstCompletion data) = true
     \/ (exists c, firstCompletion data = JStr c /\ trim c = []) ->
     handler penv env (POST hdrs json)
     = (providerFailure env
          (lit "OpenAI processing failed: No caption generated by OpenAI"),
        [providerCall penv shown (removeWhiteSpace s)]))
    /\ (isNullish (firstCompletion data) = false ->
        (forall c, firstCompletion data <> JStr c) ->
        handler penv env (POST hdrs json)
        = (providerFailure env
             (lit "OpenAI processing failed: data.choices?.[0]?.message?.content?.trim is not a function"),
           [providerCall penv shown (removeWhiteSpace s)])).
Proof.
  intros penv env hdrs json validation s shown status data
         Htoken Hbody Hvalid Himage Hmime Hfetch Hok Hdata.
  split.
  - intros [Hnull | (c & Hc & Htrim)];
      apply (handler_provider_failure penv env hdrs json validation s);
      try assumption; try discriminate.
    + rewrite (processWithOpenAI_no_text penv env s shown _ data status
                 Hmime Hfetch Hok Hdata).
      * now rewrite Hnull.
      * intros c Hc. rewrite Hc in Hnull. discriminate.
    + rewrite (processWithOpenAI_caption penv env s shown c _ data status
                 Hmime Hfetch Hok Hc).
      rewrite Htrim. reflexivity.
  - intros Hnull Hc.
    apply (handler_provider_failure penv env hdrs json validation s);
      try assumption; try discriminate.
    rewrite (processWithOpenAI_no_text penv env s shown _ data status
               Hmime Hfetch Hok Hdata Hc).
    now rewrite Hnull.
Qed.

(** X19. The success answer in full. The caption is the text of the first
    completion without the white space around it; [confidence] is "high"
    exactly when the completion stopped normally; [usage] is passed
    through, [null] when absent; [data] and [metadata] carry the same
    request identifier and the same processing time, as text with "ms" and
    as a number; [metadata.mimeType] is the body's, and
    [metadata.imageSize] the length of [imageData] as received. *)
Theorem success_answer :
  forall (penv : ProcessEnv) (env : Env) (hdrs : list (jsstring * jsstring))
         (json : JsVal) (validation : ValidationResult) (s shown c : jsstring)
         (status : Z) (data : JsVal),
    validateAppToken penv (appToken (POST hdrs json)) = true ->
    validateRequestBody json = Normal validation ->
    isValid validation = true ->
    getProp json (lit "imageData") = JStr s ->
    ToString (getProp json (lit "mimeType")) = Normal shown ->
    fetch env (providerCall penv shown (removeWhiteSpace s))
    = FetchResponse status (JsonValue data) ->
    responseOk status = true ->
    firstCompletion data = JStr c ->
    trim c <> [] ->
    handler penv env (POST hdrs json)
    = (respondJson 200
         (JObj (object
            [ ("success", JBool true);
              ("data", JObj (object
                 [ ("caption", JStr (trim c));
                   ("provider", JStr (lit "OpenAI"));
                   ("model", JStr (lit "gpt-4o"));
                   ("confidence",
                    if strictEqualsString
                         (atPath data ["choices"; "0"; "finish_reason"]) (lit "stop")
                    then JStr (lit "high") else JStr (lit "medium"));
                   ("usage",
                    if truthy (getProp data (lit "usage"))
                    then getProp data (lit "usage") else JNull);
                   ("processingTime",
                    JStr (ofZ (now_end env - now_start env) ++ lit "ms"));
                   ("requestId", JStr (requestIdOf env)) ]));
              ("metadata", JObj (object
                 [ ("timestamp", JStr (now_iso env));
                   ("provider", JStr (lit "openai"));
                   ("requestId", JStr (requestIdOf env));
                   ("processingTime", JNum (number_ofZ (now_end env - now_start env)));
                   ("imageSize", JNum (number_ofZ (Z.of_nat (length s))));
                   ("mimeType", getProp json (lit "mimeType")) ])) ])),
       [providerCall penv shown (removeWhiteSpace s)])
    /\ (exists before after,
          c = before ++ trim c ++ after
          /\ Forall (fun u => isWhiteSpace u = true) before
          /\ Forall (fun u => isWhiteSpace u = true) after)
    /\ (forall u rest, trim c = u :: rest -> isWhiteSpace u = false)
    /\ (forall rest u, trim c = rest ++ [u] -> isWhiteSpace u = false).
Proof.
  intros penv env hdrs json validation s shown c status data
         Htoken Hbody Hvalid Himage Hmime Hfetch Hok Hc Htrim.
  split; [|split; [|split]].
  - pose proof (processWithOpenAI_caption penv env s shown c _ data status
                  Hmime Hfetch Hok Hc) as Hcall.
    apply eqb_neq in Htrim. rewrite Htrim in Hcall.
    rewrite <- Himage in Hcall at 1.
    change (processWithOpenAI penv env (getProp json (lit "imageData"))
              (getProp json (lit "mimeType")))
      with (processWithAIProvider penv env (getProp json (lit "imageData"))
              (getProp json (lit "mimeType"))) in Hcall.
    rewrite (handler_provider_returns penv env hdrs json validation _ _ s
               Htoken Hbody Hvalid Himage Hcall).
    reflexivity.
  - destruct (trim_decompose c) as (l & r & Hdec & _ & Hl & Hr). now exists l, r.
  - apply trim_first.
  - apply trim_last.
Qed.

End CompletionProperties.

Section Invariants.
Context {Num : JsNumber}.

(** The one error a conversion to a string can throw. *)
Lemma ToString_throws :
  forall (v : JsVal) (e : Thrown),
    ToString v = Throw e ->
    e = typeError (lit "Cannot convert object to primitive value").
Proof.
  fix IH 1. intros [ | | [|] | n | s | items | props ] e; cbn [ToString];
    try discriminate.
  - induction items as [|x r IHr]; [discriminate|].
    assert (Hx : forall ex, (if isNullish x then Normal [] else ToString x) = Throw ex ->
                            ex = typeError (lit "Cannot convert object to primitive value"))
      by (destruct (isNullish x); [discriminate | apply IH]).
    destruct (if isNullish x then Normal [] else ToString x) as [sx|ex]; cbn [bind].
    + destruct r as [|y r']; [discriminate|].
      match goal with
      | |- bind ?c _ = _ -> _ => destruct c as [sr|er]; cbn [bind]
      end; [discriminate|].
      intros H. injection H as <-. now apply IHr.
    + intros H. injection H as <-. now apply Hx.
  - destruct (hasOwn (lit "toString") props); [|discriminate].
    intros H. now injection H as <-.
Qed.

Lemma validateRequestBody_throws_inv (json : JsVal) (e : Thrown) :
  validateRequestBody json = Throw e ->
  e = typeError (lit "Cannot convert object to primitive value").
Proof.
  unfold validateRequestBody.
  destruct (negb (truthy json) || _); [discriminate|]. cbv zeta.
  destruct (strictEqualsTrue _); [discriminate|].
  destruct (truthy (getProp json (lit "mimeType")) && _); [|discriminate].
  destruct (ToString (getProp json (lit "mimeType"))) as [shown|e'] eqn:Hshown;
    cbn [bind]; [discriminate|].
  intros H. injection H as <-. exact (ToString_throws _ _ Hshown).
Qed.

(** Whatever the provider client throws is an [Error] with a text. *)
Lemma processWithOpenAI_throws_inv (penv : ProcessEnv) (env : Env)
      (imageData mimeType : JsVal) (sent : list OutboundRequest) (e : Thrown) :
  processWithOpenAI penv env imageData mimeType = (sent, Throw e) ->
  exists name text, e = ThrownError name text /\ text <> [].
Proof.
  unfold processWithOpenAI.
  destruct (replaceWhiteSpace imageData) as [cleaned|e0] eqn:Hclean.
  - destruct (ToString mimeType) as [shown|e1] eqn:Hshown.
    + cbv zeta. intros H. injection H as _ H.
      match type of H with
      | tryCatch ?c _ = _ => destruct c as [a|e2]
      end; [discriminate|].
      cbn [tryCatch] in H.
      destruct (eqb (thrownName e2) (lit "AbortError"));
        injection H as <-; eexists _, _; (split; [reflexivity | discriminate]).
    + intros H. injection H as _ <-. rewrite (ToString_throws _ _ Hshown).
      eexists _, _. split; [reflexivity | discriminate].
  - intros H. injection H as _ <-.
    destruct imageData as [ | | b | n | s | items | props ];
      cbn in Hclean; try discriminate; injection Hclean as <-;
      eexists _, _; (split; [reflexivity | discriminate]).
Qed.

(** X15. The provider is called only for a [POST] that passed
    authentication and validation and whose [imageData] is a string; it is
    called once, and what it is sent is the cleaned [imageData], free of
    white space, behind the printed [mimeType]. *)
Theorem provider_call_is_guarded :
  forall (penv : ProcessEnv) (env : Env) (req : Request) (call : OutboundRequest),
    In call (snd (handler penv env req)) ->
    method req = lit "POST"
    /\ validateAppToken penv (appToken req) = true
    /\ accepts (body req)
    /\ exists s shown,
         getProp (body req) (lit "imageData") = JStr s
         /\ ToString (getProp (body req) (lit "mimeType")) = Normal shown
         /\ snd (handler penv env req) = [call]
         /\ call = providerCall penv shown (removeWhiteSpace s)
         /\ payload_image_url (out_body call)
            = lit "data:" ++ shown ++ lit ";base64," ++ removeWhiteSpace s
         /\ noWhiteSpace (removeWhiteSpace s).
Proof.
  intros penv env [m hdrs json] call Hin.
  destruct (eqb m (lit "OPTIONS")) eqn:Hoptions.
  { unfold handler in Hin. cbn [method] in Hin. rewrite Hoptions in Hin. destruct Hin. }
  destruct (eqb m (lit "POST")) eqn:Hpost.
  2:{ unfold handler in Hin. cbn [method] in Hin. rewrite Hoptions, Hpost in Hin.
      destruct Hin. }
  apply eqb_eq in Hpost. subst m.
  change {| method := lit "POST"; headers := hdrs; body := json |}
    with (POST hdrs json) in *.
  cbn [body POST method].
  destruct (validateAppToken penv (appToken (POST hdrs json))) eqn:Htoken.
  2:{ rewrite (handler_rejects_token penv env hdrs json Htoken) in Hin. destruct Hin. }
  destruct (validateRequestBody json) as [validation|e] eqn:Hbody.
  2:{ rewrite (handler_validator_throws penv env hdrs json e Htoken Hbody) in Hin.
      destruct Hin. }
  destruct (isValid validation) eqn:Hvalid.
  2:{ rewrite (handler_rejects_invalid penv env hdrs json validation Htoken Hbody Hvalid)
        in Hin. destruct Hin. }
  pose proof (handler_sent penv env hdrs json validation Htoken Hbody Hvalid) as Hsent.
  unfold processWithAIProvider in Hsent. rewrite provider_is_configured in Hsent.
  rewrite Hsent in Hin |- *.
  repeat split; [now exists validation|].
  destruct (getProp json (lit "imageData")) as [ | | b | n | s | items | props ];
    try (now destruct Hin).
  destruct (ToString (getProp json (lit "mimeType"))) as [shown|e] eqn:Hshown.
  - rewrite (processWithOpenAI_sends penv env s shown _ Hshown) in Hin |- *.
    destruct Hin as [<-|[]].
    exists s, shown. repeat split. apply removeWhiteSpace_noWhiteSpace.
  - unfold processWithOpenAI in Hin. cbn [replaceWhiteSpace] in Hin.
    rewrite Hshown in Hin. destruct Hin.
Qed.

End Invariants.

Section Envelope.
Context {Num : JsNumber}.

Lemma processWithOpenAI_returns_sent (penv : ProcessEnv) (env : Env)
      (imageData mimeType : JsVal) (sent : list OutboundRequest)
      (aiResult : list (jsstring * JsVal)) :
  processWithOpenAI penv env imageData mimeType = (sent, Normal aiResult) ->
  length sent = 1.
Proof.
  unfold processWithOpenAI.
  destruct (replaceWhiteSpace imageData); [|discriminate].
  destruct (ToString mimeType); [|discriminate].
  cbv zeta. intros H. now injection H as <- _.
Qed.

(** X5. Every answer is one envelope. It always carries the three CORS
    headers. To [OPTIONS] it is status 200 without a body. To anything
    else it is either the success envelope with status 200, after exactly
    one provider call, or an error envelope whose status, code and message
    are one of the four kinds (401, 400, 500, 405) and whose details are
    never left out. *)
Theorem every_answer_is_an_envelope :
  forall (penv : ProcessEnv) (env : Env) (req : Request),
    responseHeaders (fst (handler penv env req)) = corsHeaders
    /\ (method req = lit "OPTIONS" ->
        statusCode (fst (handler penv env req)) = 200%Z
        /\ responseBody (fst (handler penv env req)) = None
        /\ snd (handler penv env req) = [])
    /\ (method req <> lit "OPTIONS" ->
        (exists data metadata,
           fst (handler penv env req)
           = respondJson 200
               (JObj (object [ ("success", JBool true);
                               ("data", JObj data);
                               ("metadata", JObj metadata) ]))
           /\ length (snd (handler penv env req)) = 1)
        \/ (exists status code message details,
              In (status, code, message) errorKinds
              /\ truthy details = true
              /\ fst (handler penv env req)
                 = respondJson status
                     (errorEnvelope code message (now_iso env) details))).
Proof.
  intros penv env [m hdrs json].
  destruct (eqb m (lit "OPTIONS")) eqn:Hoptions.
  { apply eqb_eq in Hoptions. subst m. repeat split. intros H. now contradiction H. }
  assert (Hm : m <> lit "OPTIONS") by now apply eqb_neq.
  assert (Hmain :
    (exists data metadata,
       fst (handler penv env {| method := m; headers := hdrs; body := json |})
       = respondJson 200
           (JObj (object [ ("success", JBool true);
                           ("data", JObj data);
                           ("metadata", JObj metadata) ]))
       /\ length (snd (handler penv env {| method := m; headers := hdrs; body := json |})) = 1)
    \/ (exists status code message details,
          In (status, code, message) errorKinds
          /\ truthy details = true
          /\ fst (handler penv env {| method := m; headers := hdrs; body := json |})
             = respondJson status (errorEnvelope code message (now_iso env) details))).
  { destruct (eqb m (lit "POST")) eqn:Hpost.
    2:{ right. exists 405%Z, "METHOD_001", "Method not allowed",
          (JStr (lit "Method " ++ m ++ lit " not allowed")).
        unfold handler. cbn [method]. rewrite Hoptions, Hpost.
        repeat split. simpl. tauto. }
    apply eqb_eq in Hpost. subst m.
    change {| method := lit "POST"; headers := hdrs; body := json |}
      with (POST hdrs json).
    destruct (validateAppToken penv (appToken (POST hdrs json))) eqn:Htoken.
    2:{ right. rewrite (handler_rejects_token penv env hdrs json Htoken).
        exists 401%Z, "AUTH_001", "Authentication failed",
          (JStr (lit "Invalid or missing app token")).
        repeat split. simpl. tauto. }
    destruct (validateRequestBody json) as [validation|e] eqn:Hbody.
    2:{ right. rewrite (handler_validator_throws penv env hdrs json e Htoken Hbody).
        rewrite (validateRequestBody_throws_inv json e Hbody).
        exists 500%Z, "AI_001", "AI provider error",
          (JStr (lit "Cannot convert object to primitive value")).
        repeat split. simpl. tauto. }
    destruct (isValid validation) eqn:Hvalid.
    2:{ right.
        rewrite (handler_rejects_invalid penv env hdrs json validation Htoken Hbody Hvalid).
        exists 400%Z, "VAL_001", "Request validation failed",
          (JArr (map JStr (errors validation))).
        repeat split. simpl. tauto. }
    destruct (processWithAIProvider penv env (getProp json (lit "imageData"))
                (getProp json (lit "mimeType"))) as [sent [aiResult|e]] eqn:Hcall.
    - left. destruct (processWithOpenAI_returns_inv _ _ _ _ _ _ Hcall) as [s Hs].
      rewrite (handler_provider_returns penv env hdrs json validation sent aiResult s
                 Htoken Hbody Hvalid Hs Hcall).
      eexists _, _. split; [reflexivity|].
      exact (processWithOpenAI_returns_sent _ _ _ _ _ _ Hcall).
    - right.
      rewrite (handler_provider_throws penv env hdrs json validation sent e
                 Htoken Hbody Hvalid Hcall).
      destruct (processWithOpenAI_throws_inv _ _ _ _ _ _ Hcall) as (name & text & -> & Htext).
      rewrite (handleError_failure env name text Htext).
      exists 500%Z, "AI_001", "AI provider error", (JStr text).
      repeat split.
      + simpl. tauto.
      + destruct text; [congruence | reflexivity]. }
  split; [|split].
  - destruct Hmain as [(data & metadata & -> & _) | (st & c & msg & d & _ & _ & ->)];
      reflexivity.
  - cbn [method]. intros H. contradiction.
  - intros _. exact Hmain.
Qed.

End Envelope.

Section Authentication.
Context {Num : JsNumber}.

Lemma header_cases (req : Request) (name : string) :
  header req name = JUndefined \/ exists v, header req name = JStr v.
Proof.
  unfold header. destruct (find _ (headers req)) as [kv|]; [right | now left].
  now exists (snd kv).
Qed.

Lemma uuidShape_units (t : jsstring) :
  uuidShape t -> Forall (fun c => HexDigit c \/ c = 45%N) t.
Proof.
  intros (a & b & c & d & e & -> & [_ Ha] & [_ Hb] & [_ Hc] & [_ Hd] & [_ He]).
  assert (Hhex : forall g, Forall HexDigit g -> Forall (fun c => HexDigit c \/ c = 45%N) g).
  { intros g Hg. eapply Forall_impl; [|exact Hg]. intros x Hx. now left. }
  assert (Hdash : Forall (fun c => HexDigit c \/ c = 45%N) (lit "-")).
  { constructor; [now right | constructor]. }
  repeat (apply Forall_app; split); auto.
Qed.

Lemma uuidShape_not_empty (t : jsstring) : uuidShape t -> t <> [].
Proof.
  intros (a & b & c & d & e & -> & [Ha _] & _) H.
  apply app_eq_nil in H as [-> _]. discriminate.
Qed.

(** A UUID-shaped string contains no "Bearer ": stripping the prefix
    leaves it as it is. *)
Lemma uuidShape_without_Bearer (t : jsstring) :
  uuidShape t -> removeFirst (lit "Bearer ") t = t.
Proof.
  intros Ht. apply removeFirst_absent. intros (pre & post & Heq).
  pose proof (uuidShape_units t Ht) as Hall. rewrite Forall_forall in Hall.
  destruct (Hall 32%N) as [H|H].
  - rewrite Heq. apply in_or_app. right. apply in_or_app. left.
    simpl. tauto.
  - unfold HexDigit in H. lia.
  - discriminate.
Qed.

(** The token the handler reads off the headers. *)
Lemma appToken_value (hdrs : list (jsstring * jsstring)) (json : JsVal) :
  (forall t, header (POST hdrs json) "x-app-token" = JStr t -> t <> [] ->
             appToken (POST hdrs json) = JStr t)
  /\ (absentHeader (header (POST hdrs json) "x-app-token") ->
      appToken (POST hdrs json)
      = match header (POST hdrs json) "authorization" with
        | JStr a => JStr (removeFirst (lit "Bearer ") a)
        | _ => JUndefined
        end).
Proof.
  unfold appToken, orElse. split.
  - intros t -> Ht. destruct t; [congruence | reflexivity].
  - intros [-> | ->]; reflexivity.
Qed.

(** X12. Who is authenticated. A [POST] passes authentication exactly when
    the configured secret is UUID-shaped and either the [x-app-token]
    header is the secret, or that header is absent or empty and the
    [authorization] header, with its first "Bearer " removed, is the
    secret. *)
Theorem authenticated_iff :
  forall (penv : ProcessEnv) (hdrs : list (jsstring * jsstring)) (json : JsVal),
    validateAppToken penv (appToken (POST hdrs json)) = true <->
    exists secret,
      APP_TOKEN penv = Some secret
      /\ uuidShape secret
      /\ (header (POST hdrs json) "x-app-token" = JStr secret
          \/ (absentHeader (header (POST hdrs json) "x-app-token")
              /\ exists a, header (POST hdrs json) "authorization" = JStr a
                           /\ removeFirst (lit "Bearer ") a = secret)).
Proof.
  intros penv hdrs json. rewrite validateAppToken_true_iff.
  destruct (appToken_value hdrs json) as [Hpresent Habsent].
  split.
  - intros (s & Htoken & Hshape & Hsecret). exists s. repeat split; try assumption.
    destruct (header_cases (POST hdrs json) "x-app-token") as [Hx | [[|c t] Hx]].
    + right. split; [now left|]. rewrite (Habsent (or_introl Hx)) in Htoken.
      destruct (header (POST hdrs json) "authorization"); try discriminate.
      injection Htoken as <-. eexists. split; reflexivity.
    + right. split; [now right|]. rewrite (Habsent (or_intror Hx)) in Htoken.
      destruct (header (POST hdrs json) "authorization"); try discriminate.
      injection Htoken as <-. eexists. split; reflexivity.
    + left. rewrite (Hpresent _ Hx) in Htoken by discriminate. now rewrite <- Htoken.
  - intros (secret & Hsecret & Hshape & Hways). exists secret.
    repeat split; try assumption.
    destruct Hways as [Hx | [Hx (a & Ha & Hstrip)]].
    + apply Hpresent; [assumption | now apply uuidShape_not_empty].
    + rewrite (Habsent Hx), Ha. now rewrite Hstrip.
Qed.

(** X13. How the token may be presented. With a UUID-shaped secret
    configured, a [POST] is authenticated by the secret in [x-app-token],
    and, without that header, by [Authorization: Bearer <secret>] or by the
    bare secret in [authorization]. A non-empty [x-app-token] that is not
    the secret fails, whatever [authorization] says. *)
Theorem token_presentations :
  forall (penv : ProcessEnv) (hdrs : list (jsstring * jsstring)) (json : JsVal)
         (secret : jsstring),
    APP_TOKEN penv = Some secret ->
    uuidShape secret ->
    (header (POST hdrs json) "x-app-token" = JStr secret ->
     validateAppToken penv (appToken (POST hdrs json)) = true)
    /\ (absentHeader (header (POST hdrs json) "x-app-token") ->
        header (POST hdrs json) "authorization" = JStr (lit "Bearer " ++ secret) ->
        validateAppToken penv (appToken (POST hdrs json)) = true)
    /\ (absentHeader (header (POST hdrs json) "x-app-token") ->
        header (POST hdrs json) "authorization" = JStr secret ->
        validateAppToken penv (appToken (POST hdrs json)) = true)
    /\ (forall t, header (POST hdrs json) "x-app-token" = JStr t ->
        t <> [] -> t <> secret ->
        validateAppToken penv (appToken (POST hdrs json)) = false).
Proof.
  intros penv hdrs json secret Hsecret Hshape.
  destruct (appToken_value hdrs json) as [Hpresent Habsent].
  repeat split.
  - intros Hx. apply validateAppToken_true_iff. exists secret.
    repeat split; try assumption.
    apply Hpresent; [assumption | now apply uuidShape_not_empty].
  - intros Hx Ha. apply validateAppToken_true_iff. exists secret.
    repeat split; try assumption.
    rewrite (Habsent Hx), Ha. now rewrite removeFirst_prefix.
  - intros Hx Ha. apply validateAppToken_true_iff. exists secret.
    repeat split; try assumption.
    rewrite (Habsent Hx), Ha. now rewrite uuidShape_without_Bearer.
  - intros t Hx Hne Hdiff. apply validateAppToken_false_iff.
    intros (s & Htoken & _ & Hs). rewrite (Hpresent t Hx Hne) in Htoken.
    injection Htoken as <-. congruence.
Qed.

(** X14. Failing closed. When no secret is configured, or the configured
    one is not UUID-shaped, every [POST] is answered 401, whatever it
    presents, and nothing reaches the validator or the provider. *)
Theorem unusable_secret_locks_everyone_out :
  forall (penv : ProcessEnv) (env : Env) (hdrs : list (jsstring * jsstring))
         (json : JsVal),
    (forall secret, APP_TOKEN penv = Some secret -> ~ uuidShape secret) ->
    isErrorResponse 401 "AUTH_001" (fst (handler penv env (POST hdrs json)))
    /\ snd (handler penv env (POST hdrs json)) = [].
Proof.
  intros penv env hdrs json Hsecret.
  rewrite (handler_rejects_token penv env hdrs json).
  - repeat split.
  - apply validateAppToken_false_iff. intros (s & _ & Hshape & Hs).
    exact (Hsecret s Hs Hshape).
Qed.

End Authentication.

Section MoreValidatorProperties.
Context {Num : JsNumber}.

(** Without the bypass the errors returned are those of the first two
    stages, followed at most by the unsupported type. *)
Lemma validateRequestBody_errors (props : list (jsstring * JsVal)) (r : ValidationResult) :
  getProp (JObj props) (lit "debugMode") <> JBool true ->
  validateRequestBody (JObj props) = Normal r ->
  isValid r = Nat.eqb (length (errors r)) 0
  /\ (errors r = afterImageData (JObj props)
      \/ exists shown,
           errors r = afterImageData (JObj props)
                      ++ [lit "Unsupported image type: " ++ shown]).
Proof.
  intros Hdebug. rewrite (validateRequestBody_stages props Hdebug).
  unfold afterMimeType.
  destruct (truthy (getProp (JObj props) (lit "mimeType")) && _).
  - destruct (ToString (getProp (JObj props) (lit "mimeType"))) as [shown|e];
      cbn [bind]; [|discriminate].
    intros H. injection H as <-. split; [reflexivity|]. right. now exists shown.
  - cbn [bind]. intros H. injection H as <-. split; [reflexivity|]. now left.
Qed.

Lemma notBase64OrPad_spec (c : N) :
  Pattern.notBase64OrPad c = true <-> ~ Base64Char c /\ c <> 61%N.
Proof.
  unfold Pattern.notBase64OrPad. rewrite negb_true_iff.
  rewrite <- base64Char_spec. unfold Pattern.base64Char, Pattern.only.
  destruct (isUpper c || isLower c || isDigit c || (43 =? c)%N || (47 =? c)%N) eqn:E.
  - cbn [orb]. split; [discriminate | intros [H _]; now contradiction H].
  - cbn [orb]. rewrite N.eqb_neq. split.
    + intros H. split; [discriminate | congruence].
    + intros [_ H]. congruence.
Qed.

(** X9. Characters outside base64. When the cleaned [imageData] is not
    base64 text, the body is invalid and one error lists the offending
    characters: every code unit of the cleaned text that is neither in the
    alphabet nor [=], once each. Misplaced padding is therefore reported
    with an empty list. *)
Theorem invalid_characters_are_listed :
  forall (props : list (jsstring * JsVal)) (s : jsstring) (r : ValidationResult),
    getProp (JObj props) (lit "imageData") = JStr s ->
    s <> [] ->
    getProp (JObj props) (lit "debugMode") <> JBool true ->
    validateRequestBody (JObj props) = Normal r ->
    ~ base64Shape (removeWhiteSpace s) ->
    isValid r = false
    /\ exists listed,
         In (lit "imageData contains invalid base64 characters: "
             ++ join (lit ", ") (map (fun c => [c]) listed)
             ++ lit " | Debug: "
             ++ stringifyDebugInfo (debugInfoOf s (removeWhiteSpace s)))
            (errors r)
         /\ NoDup listed
         /\ (forall c, In c listed <->
                       In c (removeWhiteSpace s) /\ ~ Base64Char c /\ c <> 61%N)
         /\ (Forall (fun c => Base64Char c \/ c = 61%N) (removeWhiteSpace s) ->
             listed = []).
Proof.
  intros props s r Himage Hne Hdebug Hr Hshape.
  destruct (validateRequestBody_returns props r Hdebug Hr) as (Hin & Hvalid & _).
  assert (Hstage : afterImageData (JObj props)
                   = checkImageData s (afterRequired (JObj props))).
  { unfold afterImageData. rewrite Himage. destruct s; [congruence | reflexivity]. }
  rewrite Hstage in Hin.
  assert (Hpattern : Pattern.base64Pattern (removeWhiteSpace s) = false).
  { destruct (Pattern.base64Pattern (removeWhiteSpace s)) eqn:E; [|reflexivity].
    apply base64Pattern_spec in E. contradiction. }
  set (listed := dedup [] (filter Pattern.notBase64OrPad (removeWhiteSpace s))).
  assert (He : In (lit "imageData contains invalid base64 characters: "
                   ++ join (lit ", ") (map (fun c => [c]) listed)
                   ++ lit " | Debug: "
                   ++ stringifyDebugInfo (debugInfoOf s (removeWhiteSpace s)))
                  (errors r)).
  { apply Hin. unfold checkImageData. cbv zeta. do 4 apply pushIf_keeps.
    apply pushIf_adds. now rewrite Hpattern. }
  split; [rewrite Hvalid; exact (nonempty_not_valid _ _ He)|].
  assert (Hlisted : forall c, In c listed <->
                      In c (removeWhiteSpace s) /\ ~ Base64Char c /\ c <> 61%N).
  { intros c. unfold listed. rewrite dedup_In, filter_In, notBase64OrPad_spec.
    simpl. tauto. }
  exists listed. repeat split; try assumption.
  - apply dedup_NoDup.
  - now apply Hlisted.
  - now apply Hlisted.
  - now apply Hlisted.
  - intros H. now apply Hlisted.
  - intros Hall. destruct listed as [|c l] eqn:E; [reflexivity|].
    exfalso. destruct (proj1 (Hlisted c) (or_introl eq_refl)) as (Hc & Hnot & Hpad).
    rewrite Forall_forall in Hall. destruct (Hall c Hc); contradiction.
Qed.

(** X10. White space only. An [imageData] of white space is not a missing
    field: it is reported as too small, with an estimate of 0 bytes, and as
    empty after cleaning. *)
Theorem blank_imageData_is_empty_after_cleaning :
  forall (props : list (jsstring * JsVal)) (s : jsstring) (r : ValidationResult),
    getProp (JObj props) (lit "imageData") = JStr s ->
    s <> [] ->
    removeWhiteSpace s = [] ->
    getProp (JObj props) (lit "debugMode") <> JBool true ->
    validateRequestBody (JObj props) = Normal r ->
    isValid r = false
    /\ In (lit "imageData is empty after cleaning") (errors r)
    /\ In (lit "Image data appears to be too small or invalid (0 bytes) | Debug: "
           ++ stringifyDebugInfo
                {| originalLength := length s; cleanedLength := 0;
                   whitespaceRemoved := length s; firstChars := [];
                   lastChars := []; hasInvalidChars := false |})
          (errors r)
    /\ ~ In (lit "imageData field is required") (errors r).
Proof.
  intros props s r Himage Hne Hclean Hdebug Hr.
  destruct (validateRequestBody_errors props r Hdebug Hr) as (Hvalid & Herrors).
  assert (Hstage : afterImageData (JObj props)
                   = afterRequired (JObj props)
                     ++ [ lit "Image data appears to be too small or invalid (0 bytes) | Debug: "
                          ++ stringifyDebugInfo
                               {| originalLength := length s; cleanedLength := 0;
                                  whitespaceRemoved := length s; firstChars := [];
                                  lastChars := []; hasInvalidChars := false |};
                          lit "imageData is empty after cleaning" ]).
  { unfold afterImageData. rewrite Himage. destruct s as [|c s]; [congruence|].
    unfold checkImageData, debugInfoOf. rewrite Hclean. cbn [length].
    rewrite Nat.sub_0_r. unfold pushIf, push. cbn. now rewrite <- app_assoc. }
  assert (Hrequired : ~ In (lit "imageData field is required") (afterRequired (JObj props))).
  { unfold afterRequired. rewrite Himage.
    replace (truthy (JStr s)) with true by (destruct s; [congruence | reflexivity]).
    unfold pushIf, push. cbn [negb].
    destruct (negb (truthy (getProp (JObj props) (lit "mimeType")))); cbn.
    - intros [H|[]]. discriminate.
    - tauto. }
  rewrite Hstage in Herrors.
  assert (Hshape : exists tail,
             errors r = afterRequired (JObj props)
                        ++ [ lit "Image data appears to be too small or invalid (0 bytes) | Debug: "
                             ++ stringifyDebugInfo
                                  {| originalLength := length s; cleanedLength := 0;
                                     whitespaceRemoved := length s; firstChars := [];
                                     lastChars := []; hasInvalidChars := false |};
                             lit "imageData is empty after cleaning" ] ++ tail
             /\ Forall (fun e => isPrefix (lit "Unsupported") e = true) tail).
  { destruct Herrors as [-> | (shown & ->)].
    - exists []. split; [now rewrite app_nil_r | constructor].
    - eexists. rewrite <- app_assoc. split; [reflexivity|].
      constructor; [reflexivity | constructor]. }
  destruct Hshape as (tail & Herr & Htail). rewrite Hvalid, Herr.
  split; [|split; [|split]].
  - rewrite length_app. cbn [length app]. apply Nat.eqb_neq. lia.
  - apply in_or_app. right. cbn. tauto.
  - apply in_or_app. right. cbn. tauto.
  - intros H. apply in_app_or in H as [H|H]; [contradiction|].
    cbn in H. destruct H as [H | [H | H]]; try discriminate.
    rewrite Forall_forall in Htail. specialize (Htail _ H). discriminate.
Qed.

End MoreValidatorProperties.

Section MoreHandlerProperties.
Context {Num : JsNumber}.

(** X20. The bypass forwards what nobody checked. With a valid token and
    [debugMode: true], any string [imageData], of any content and size,
    goes to the provider behind whatever [mimeType] prints as; an absent
    [imageData] is answered 500 before anything is sent. *)
Theorem bypass_forwards_unchecked_data :
  forall (penv : ProcessEnv) (env : Env) (hdrs : list (jsstring * jsstring))
         (json : JsVal),
    validateAppToken penv (appToken (POST hdrs json)) = true ->
    getProp json (lit "debugMode") = JBool true ->
    (forall s shown,
       getProp json (lit "imageData") = JStr s ->
       ToString (getProp json (lit "mimeType")) = Normal shown ->
       snd (handler penv env (POST hdrs json))
       = [providerCall penv shown (removeWhiteSpace s)])
    /\ (getProp json (lit "imageData") = JUndefined ->
        handler penv env (POST hdrs json)
        = (providerFailure env
             (lit "Cannot read properties of undefined (reading 'replace')"), [])).
Proof.
  intros penv env hdrs json Htoken Hdebug.
  pose proof (validateRequestBody_bypass json Hdebug) as Hbypass.
  split.
  - intros s shown Himage Hmime.
    rewrite (handler_sent penv env hdrs json bypassed Htoken Hbypass eq_refl).
    unfold processWithAIProvider. rewrite provider_is_configured, Himage.
    now apply processWithOpenAI_sends.
  - intros Himage.
    rewrite (handler_provider_throws penv env hdrs json bypassed []
               (typeError (lit "Cannot read properties of undefined (reading 'replace')"))
               Htoken Hbypass eq_refl).
    + reflexivity.
    + rewrite Himage. reflexivity.
Qed.

(** X8. A body that is not an object. With a valid token, a body that is
    absent, [null], a string, a number or a boolean is answered 400 with
    the single error "Request body must be a valid JSON object"; an array
    passes for an object and is answered 400 with both required-field
    errors. Nothing is sent. *)
Theorem body_that_is_no_object :
  forall (penv : ProcessEnv) (env : Env) (hdrs : list (jsstring * jsstring))
         (json : JsVal),
    validateAppToken penv (appToken (POST hdrs json)) = true ->
    (truthy json = false \/ typeOf json <> lit "object" ->
     handler penv env (POST hdrs json)
     = (respondJson 400
          (errorEnvelope "VAL_001" "Request validation failed" (now_iso env)
             (JArr [JStr (lit "Request body must be a valid JSON object")])), []))
    /\ (forall items, json = JArr items ->
        handler penv env (POST hdrs json)
        = (respondJson 400
             (errorEnvelope "VAL_001" "Request validation failed" (now_iso env)
                (JArr [ JStr (lit "imageData field is required");
                        JStr (lit "mimeType field is required") ])), [])).
Proof.
  intros penv env hdrs json Htoken. split.
  - intros H.
    assert (Hbody : validateRequestBody json
                    = Normal {| isValid := false;
                                errors := [lit "Request body must be a valid JSON object"];
                                debug := false |}).
    { unfold validateRequestBody.
      replace (negb (truthy json) || negb (eqb (typeOf json) (lit "object"))) with true;
        [reflexivity|].
      symmetry. apply orb_true_iff. destruct H as [H|H].
      - left. now rewrite H.
      - right. apply negb_true_iff. now apply eqb_neq. }
    now rewrite (handler_rejects_invalid penv env hdrs json _ Htoken Hbody eq_refl).
  - intros items ->.
    now rewrite (handler_rejects_invalid penv env hdrs (JArr items)
                   {| isValid := false;
                      errors := [ lit "imageData field is required";
                                  lit "mimeType field is required" ];
                      debug := false |} Htoken eq_refl eq_refl).
Qed.



End MoreHandlerProperties.

(* ====================================================================== *)
(** * Concrete runs *)
(* ====================================================================== *)

(** The authenticator on the configured secret, on a malformed token and on
    an absent one. *)
Example validateAppToken_examples :
  validateAppToken Fixture.penv (JStr Fixture.secret) = true
  /\ validateAppToken Fixture.penv (JStr (lit "01234567-89ab-cdef-0123-456789abcdef")) = false
  /\ validateAppToken Fixture.penv (JStr (lit "not-a-uuid")) = false
  /\ validateAppToken Fixture.penv JUndefined = false
  /\ validateAppToken Fixture.penv (JNum 7%Z) = false.
Proof. repeat split. Qed.

(** C4 on a request without a token, once with a well-formed body and once
    with none, in two different worlds. *)
Lemma invalid_token_rejected_run :
  isErrorResponse 401 "AUTH_001"
    (fst (handler Fixture.penv (Fixture.world Fixture.timedOut)
            (POST [] Fixture.wellFormed)))
  /\ isErrorResponse 401 "AUTH_001"
       (fst (handler Fixture.penv (Fixture.world (Fixture.answered JNull))
               (POST [] JUndefined)))
  /\ snd (handler Fixture.penv (Fixture.world Fixture.timedOut)
            (POST [] Fixture.wellFormed)) = []
  /\ snd (handler Fixture.penv (Fixture.world (Fixture.answered JNull))
            (POST [] JUndefined)) = []
  /\ (Fixture.world Fixture.timedOut = Fixture.world (Fixture.answered JNull) ->
      handler Fixture.penv (Fixture.world Fixture.timedOut) (POST [] Fixture.wellFormed)
      = handler Fixture.penv (Fixture.world (Fixture.answered JNull)) (POST [] JUndefined)).
Proof.
  apply invalid_token_rejected_whatever_the_body.
  apply validateAppToken_false_iff. reflexivity.
Defined.

(** C2 on [{debugMode: true, imageData: ""}] with a valid token. *)
Lemma debugMode_true_run :
  validateRequestBody Fixture.debugging = Normal bypassed
  /\ snd (handler Fixture.penv (Fixture.world Fixture.timedOut)
            (POST Fixture.authorized Fixture.debugging))
     = [providerCall Fixture.penv (lit "undefined") []].
Proof.
  destruct (debugMode_true_skips_validation Fixture.penv
              (Fixture.world Fixture.timedOut) Fixture.authorized
              Fixture.debugging eq_refl) as [Hvalid Hsent].
  split; [exact Hvalid|].
  apply Hsent; reflexivity.
Defined.


(** The bypass needs the boolean: the string ["true"] and the number [1]
    leave the checks on. *)
Example debugMode_other_values :
  validateRequestBody
    (JObj (object [ ("debugMode", JStr (lit "true")) ]))
  = Normal {| isValid := false;
              errors := [ lit "imageData field is required";
                          lit "mimeType field is required" ];
              debug := false |}
  /\ validateRequestBody
       (JObj (object [ ("debugMode", JNum 1%Z) ]))
     = Normal {| isValid := false;
                 errors := [ lit "imageData field is required";
                             lit "mimeType field is required" ];
                 debug := false |}
  /\ validateRequestBody
       (JObj (object [ ("debugMode", JBool true) ]))
     = Normal bypassed.
Proof. repeat split. Qed.

(** C1 as stated fails on a well-formed request whose provider call times
    out: the token is valid, the body is valid, the one call sent is
    aborted, and [error.message] is "AI provider error", which does not
    mention the timeout. *)
Lemma timeout_message_is_generic :
  validateAppToken Fixture.penv
    (appToken (POST Fixture.authorized Fixture.wellFormed)) = true
  /\ validateRequestBody Fixture.wellFormed = Normal Fixture.accepted
  /\ snd (handler Fixture.penv (Fixture.world Fixture.timedOut)
            (POST Fixture.authorized Fixture.wellFormed))
     = [providerCall Fixture.penv (lit "image/jpeg") Fixture.image]
  /\ fetch (Fixture.world Fixture.timedOut)
       (providerCall Fixture.penv (lit "image/jpeg") Fixture.image)
     = FetchRejected (lit "AbortError") (lit "This operation was aborted")
  /\ statusCode (fst (handler Fixture.penv (Fixture.world Fixture.timedOut)
                        (POST Fixture.authorized Fixture.wellFormed))) = 500%Z
  /\ atPath (payload (fst (handler Fixture.penv (Fixture.world Fixture.timedOut)
                             (POST Fixture.authorized Fixture.wellFormed))))
       ["error"; "message"] = JStr (lit "AI provider error")
  /\ mentionsTimeout (lit "AI provider error") = false.
Proof. repeat split. Qed.

(** C1 as amended, on the same run. *)
Lemma timeout_is_reported_in_details_run :
  isErrorResponse 500 "AI_001"
    (fst (handler Fixture.penv (Fixture.world Fixture.timedOut)
            (POST Fixture.authorized Fixture.wellFormed)))
  /\ atPath (payload (fst (handler Fixture.penv (Fixture.world Fixture.timedOut)
                             (POST Fixture.authorized Fixture.wellFormed))))
       ["error"; "message"] = JStr (lit "AI provider error")
  /\ mentionsTimeout (lit "AI provider error") = false
  /\ atPath (payload (fst (handler Fixture.penv (Fixture.world Fixture.timedOut)
                             (POST Fixture.authorized Fixture.wellFormed))))
       ["error"; "details"]
     = JStr (lit "Request timeout: OpenAI API took too long to respond")
  /\ mentionsTimeout (lit "Request timeout: OpenAI API took too long to respond") = true.
Proof.
  apply (timeout_is_reported_in_details Fixture.penv (Fixture.world Fixture.timedOut)
           Fixture.authorized Fixture.wellFormed Fixture.accepted
           (providerCall Fixture.penv (lit "image/jpeg") Fixture.image)
           (lit "This operation was aborted")); reflexivity.
Defined.

(** C5 fails on [{mimeType: {toString: 1}}] sent with a valid token:
    [imageData] is missing and [debugMode] is not [true], but the
    validator throws while it prints the unsupported [mimeType], and the
    answer is status 500 with code ["AI_001"] instead of 400 with the
    required-field message. *)
Theorem missing_imageData_with_unprintable_mimeType :
  validateAppToken Fixture.penv
    (appToken (POST Fixture.authorized Fixture.missingImage)) = true
  /\ getProp Fixture.missingImage (lit "imageData") = JUndefined
  /\ getProp Fixture.missingImage (lit "debugMode") = JUndefined
  /\ validateRequestBody Fixture.missingImage
     = Throw (typeError (lit "Cannot convert object to primitive value"))
  /\ isErrorResponse 500 "AI_001"
       (fst (handler Fixture.penv (Fixture.world Fixture.timedOut)
               (POST Fixture.authorized Fixture.missingImage)))
  /\ atPath (payload (fst (handler Fixture.penv (Fixture.world Fixture.timedOut)
                             (POST Fixture.authorized Fixture.missingImage))))
       ["error"; "details"]
     = JStr (lit "Cannot convert object to primitive value").
Proof. repeat split. Qed.

(** C6 fails on [{imageData: "QUJDR", mimeType: {toString: 1}}]: the
    cleaned length is 5, not a multiple of 4, and [debugMode] is not
    [true], but the validator returns no result at all: it throws while it
    prints the unsupported [mimeType]. *)
Theorem not_multiple_of_4_with_unprintable_mimeType :
  getProp Fixture.fiveChars (lit "imageData") = JStr (lit "QUJDR")
  /\ length (removeWhiteSpace (lit "QUJDR")) mod 4 = 1
  /\ getProp Fixture.fiveChars (lit "debugMode") = JUndefined
  /\ validateRequestBody Fixture.fiveChars
     = Throw (typeError (lit "Cannot convert object to primitive value")).
Proof. repeat split. Qed.

(** C7 as stated fails on [{imageData: "", mimeType: "image/png"}]:
    [imageData] is a string, its estimated size is 0, under 100 bytes, and
    the validator reports the missing field only; no error cites "too
    small or invalid". *)
Lemma empty_imageData_is_not_size_checked :
  getProp Fixture.emptyImage (lit "imageData") = JStr []
  /\ Qltb (estimatedSize (length (removeWhiteSpace []))) 100 = true
  /\ validateRequestBody Fixture.emptyImage
     = Normal {| isValid := false;
                 errors := [lit "imageData field is required"];
                 debug := false |}
  /\ existsb (includes (lit "too small or invalid"))
       [lit "imageData field is required"] = false.
Proof. repeat split. Qed.

(** C7 as amended, on [{imageData: "QUJD", mimeType: "image/png"}]: an
    estimated 3 bytes. *)
Lemma size_checks_run :
  isValid Fixture.tinyResult = false
  /\ exists e, In e (errors Fixture.tinyResult)
       /\ Includes (lit "too small or invalid") e
       /\ isPrefix (lit "Image data appears to be too small or invalid (3 bytes)") e = true.
Proof.
  destruct (size_checks_on_non_empty_string_imageData Fixture.tiny (lit "QUJD")
              Fixture.tinyResult) as (_ & _ & Hsmall).
  - reflexivity.
  - discriminate.
  - discriminate.
  - reflexivity.
  - apply Hsmall. reflexivity.
Defined.

(** C8 as stated fails when the completion is three spaces: it is not
    empty, the request is well formed and the provider answers 200, but the
    answer is status 500, "No caption generated by OpenAI". *)
Lemma blank_completion_is_no_caption :
  validateAppToken Fixture.penv
    (appToken (POST Fixture.authorized Fixture.wellFormed)) = true
  /\ validateRequestBody Fixture.wellFormed = Normal Fixture.accepted
  /\ firstCompletion
       (JObj (object
          [ ("choices",
             JArr [ JObj (object
                      [ ("message", JObj (object [ ("role", JStr (lit "assistant"));
                                                   ("content", JStr (lit "   ")) ]));
                        ("finish_reason", JStr (lit "stop")) ]) ]) ]))
     = JStr (lit "   ")
  /\ length (lit "   ") = 3
  /\ statusCode (fst (handler Fixture.penv
                        (Fixture.world (Fixture.answered (JStr (lit "   "))))
                        (POST Fixture.authorized Fixture.wellFormed))) = 500%Z
  /\ atPath (payload (fst (handler Fixture.penv
                             (Fixture.world (Fixture.answered (JStr (lit "   "))))
                             (POST Fixture.authorized Fixture.wellFormed))))
       ["error"; "details"]
     = JStr (lit "OpenAI processing failed: No caption generated by OpenAI").
Proof. repeat split. Qed.

(** C8 as amended, on a completion with white space around it. *)
Lemma caption_round_trip_run :
  statusCode (fst (handler Fixture.penv
                     (Fixture.world (Fixture.answered (JStr (lit "  bark bark "))))
                     (POST Fixture.authorized Fixture.wellFormed))) = 200%Z
  /\ atPath (payload (fst (handler Fixture.penv
                             (Fixture.world (Fixture.answered (JStr (lit "  bark bark "))))
                             (POST Fixture.authorized Fixture.wellFormed))))
       ["data"; "caption"] = JStr (lit "bark bark")
  /\ atPath (payload (fst (handler Fixture.penv
                             (Fixture.world (Fixture.answered (JStr (lit "  bark bark "))))
                             (POST Fixture.authorized Fixture.wellFormed))))
       ["metadata"; "imageSize"] = JNum 136%Z.
Proof.
  destruct (caption_round_trip Fixture.penv
              (Fixture.world (Fixture.answered (JStr (lit "  bark bark "))))
              Fixture.authorized Fixture.wellFormed Fixture.accepted
              Fixture.image (lit "image/jpeg") (lit "  bark bark ") 200
              (JObj (object
                 [ ("choices",
                    JArr [ JObj (object
                             [ ("message",
                                JObj (object [ ("role", JStr (lit "assistant"));
                                               ("content", JStr (lit "  bark bark ")) ]));
                               ("finish_reason", JStr (lit "stop")) ]) ]) ])))
    as (Hstatus & _ & Hcaption & Hsize & _);
    try reflexivity; try discriminate.
  repeat split; assumption.
Defined.

(** A missing [imageData] next to an allowed [mimeType]: status 400. *)
Lemma missing_field_run :
  isErrorResponse 400 "VAL_001"
    (fst (handler Fixture.penv (Fixture.world Fixture.timedOut)
            (POST Fixture.authorized (JObj Fixture.onlyMimeType))))
  /\ atPath (payload (fst (handler Fixture.penv (Fixture.world Fixture.timedOut)
                             (POST Fixture.authorized (JObj Fixture.onlyMimeType)))))
       ["error"; "details"] = JArr [JStr (lit "imageData field is required")].
Proof.
  destruct (missing_field_answered_400_when_validator_returns Fixture.penv
              (Fixture.world Fixture.timedOut) Fixture.authorized
              Fixture.onlyMimeType Fixture.onlyMimeTypeResult)
    as (Hanswer & Hdetails & _).
  - reflexivity.
  - discriminate.
  - reflexivity.
  - left. reflexivity.
  - split; [exact Hanswer | exact Hdetails].
Defined.

(** Five base64 characters next to an allowed [mimeType]. *)
Lemma not_multiple_of_4_run :
  isValid Fixture.fiveCharsResult = false
  /\ exists e, In e (errors Fixture.fiveCharsResult)
       /\ Includes (lit "not valid base64") e
       /\ isPrefix (lit "imageData length (5) is not valid base64 (must be multiple of 4)")
            e = true.
Proof.
  apply (not_multiple_of_4_reported_when_validator_returns Fixture.fiveCharsPng
           (lit "QUJDR") Fixture.fiveCharsResult).
  - reflexivity.
  - discriminate.
  - discriminate.
  - reflexivity.
Defined.

(** A [GET] request. *)
Lemma other_methods_run :
  isErrorResponse 405 "METHOD_001"
    (fst (handler Fixture.penv (Fixture.world Fixture.timedOut)
            {| method := lit "GET"; headers := []; body := JUndefined |}))
  /\ atPath (payload (fst (handler Fixture.penv (Fixture.world Fixture.timedOut)
                             {| method := lit "GET"; headers := [];
                                body := JUndefined |})))
       ["error"; "details"] = JStr (lit "Method GET not allowed")
  /\ snd (handler Fixture.penv (Fixture.world Fixture.timedOut)
            {| method := lit "GET"; headers := []; body := JUndefined |}) = [].
Proof.
  apply (other_methods_not_allowed Fixture.penv (Fixture.world Fixture.timedOut)
           {| method := lit "GET"; headers := []; body := JUndefined |});
    discriminate.
Defined.

(** The acceptance conditions on the well-formed body. *)
Lemma accepted_run :
  accepts (JObj Fixture.unwrapped) <->
  truthy (getProp (JObj Fixture.unwrapped) (lit "imageData")) = true
  /\ (forall s, getProp (JObj Fixture.unwrapped) (lit "imageData") = JStr s ->
      base64Shape (removeWhiteSpace s)
      /\ (136 <= Z.of_nat (length (removeWhiteSpace s)) <= 27962024)%Z
      /\ length (removeWhiteSpace s) mod 4 = 0)
  /\ exists m, getProp (JObj Fixture.unwrapped) (lit "mimeType") = JStr m
               /\ In m SECURITY_CONFIG.ALLOWED_IMAGE_TYPES.
Proof. apply (accepted_iff Fixture.unwrapped). discriminate. Defined.

(** ["IMAGE/PNG"] is not ["image/png"]. *)
Lemma unsupported_type_run :
  exists r,
    validateRequestBody (JObj Fixture.shouting) = Normal r
    /\ isValid r = false
    /\ errors r = afterImageData (JObj Fixture.shouting)
                  ++ [lit "Unsupported image type: " ++ lit "IMAGE/PNG"].
Proof.
  apply (unsupported_type_is_named Fixture.shouting (lit "IMAGE/PNG")).
  - discriminate.
  - reflexivity.
  - discriminate.
  - simpl. intuition discriminate.
Defined.

(** A text body, and an empty array. *)
Lemma body_that_is_no_object_run :
  handler Fixture.penv (Fixture.world Fixture.timedOut)
    (POST Fixture.authorized (JStr (lit "hello")))
  = (respondJson 400
       (errorEnvelope "VAL_001" "Request validation failed"
          (now_iso (Fixture.world Fixture.timedOut))
          (JArr [JStr (lit "Request body must be a valid JSON object")])), [])
  /\ handler Fixture.penv (Fixture.world Fixture.timedOut)
       (POST Fixture.authorized (JArr []))
     = (respondJson 400
          (errorEnvelope "VAL_001" "Request validation failed"
             (now_iso (Fixture.world Fixture.timedOut))
             (JArr [ JStr (lit "imageData field is required");
                     JStr (lit "mimeType field is required") ])), []).
Proof.
  split.
  - apply (proj1 (body_that_is_no_object Fixture.penv (Fixture.world Fixture.timedOut)
                    Fixture.authorized (JStr (lit "hello")) eq_refl)).
    right. discriminate.
  - apply (proj2 (body_that_is_no_object Fixture.penv (Fixture.world Fixture.timedOut)
                    Fixture.authorized (JArr []) eq_refl) []).
    reflexivity.
Defined.

(** ["QU=J$D!$"]: the characters listed are [$] and [!]. *)
Lemma invalid_characters_run :
  isValid Fixture.garbledResult = false
  /\ exists listed,
       In (lit "imageData contains invalid base64 characters: "
           ++ join (lit ", ") (map (fun c => [c]) listed)
           ++ lit " | Debug: "
           ++ stringifyDebugInfo
                (debugInfoOf (lit "QU=J$D!$") (removeWhiteSpace (lit "QU=J$D!$"))))
          (errors Fixture.garbledResult)
       /\ NoDup listed
       /\ (forall c, In c listed <->
                     In c (removeWhiteSpace (lit "QU=J$D!$"))
                     /\ ~ Base64Char c /\ c <> 61%N)
       /\ (Forall (fun c => Base64Char c \/ c = 61%N) (removeWhiteSpace (lit "QU=J$D!$")) ->
           listed = []).
Proof.
  apply (invalid_characters_are_listed Fixture.garbled (lit "QU=J$D!$")
           Fixture.garbledResult).
  - reflexivity.
  - discriminate.
  - discriminate.
  - reflexivity.
  - intros H. apply base64Pattern_spec in H. discriminate.
Defined.

(** Three spaces. *)
Lemma blank_imageData_run :
  isValid Fixture.blankResult = false
  /\ In (lit "imageData is empty after cleaning") (errors Fixture.blankResult)
  /\ In (lit "Image data appears to be too small or invalid (0 bytes) | Debug: "
         ++ stringifyDebugInfo
              {| originalLength := 3; cleanedLength := 0;
                 whitespaceRemoved := 3; firstChars := [];
                 lastChars := []; hasInvalidChars := false |})
        (errors Fixture.blankResult)
  /\ ~ In (lit "imageData field is required") (errors Fixture.blankResult).
Proof.
  apply (blank_imageData_is_empty_after_cleaning Fixture.blank (lit "   ")
           Fixture.blankResult).
  - reflexivity.
  - discriminate.
  - reflexivity.
  - discriminate.
  - reflexivity.
Defined.


(** The secret behind [Bearer], bare, and overruled by a wrong
    [x-app-token]. *)
Lemma token_presentations_run :
  validateAppToken Fixture.penv
    (appToken (POST [(lit "authorization", lit "Bearer " ++ Fixture.secret)] JNull)) = true
  /\ validateAppToken Fixture.penv
       (appToken (POST [(lit "authorization", Fixture.secret)] JNull)) = true
  /\ validateAppToken Fixture.penv
       (appToken (POST [ (lit "x-app-token", lit "guess");
                         (lit "authorization", lit "Bearer " ++ Fixture.secret) ] JNull))
     = false.
Proof.
  assert (Hshape : uuidShape Fixture.secret) by (apply tokenPattern_spec; reflexivity).
  split; [|split].
  - destruct (token_presentations Fixture.penv
                [(lit "authorization", lit "Bearer " ++ Fixture.secret)] JNull
                Fixture.secret eq_refl Hshape) as (_ & Hbearer & _).
    apply Hbearer; [now left | reflexivity].
  - destruct (token_presentations Fixture.penv
                [(lit "authorization", Fixture.secret)] JNull
                Fixture.secret eq_refl Hshape) as (_ & _ & Hbare & _).
    apply Hbare; [now left | reflexivity].
  - destruct (token_presentations Fixture.penv
                [ (lit "x-app-token", lit "guess");
                  (lit "authorization", lit "Bearer " ++ Fixture.secret) ] JNull
                Fixture.secret eq_refl Hshape) as (_ & _ & _ & Hwrong).
    apply (Hwrong (lit "guess")); [reflexivity | discriminate | discriminate].
Defined.

(** A secret that is not a UUID: presenting it changes nothing. *)
Lemma unusable_secret_run :
  isErrorResponse 401 "AUTH_001"
    (fst (handler Fixture.misconfigured (Fixture.world Fixture.timedOut)
            (POST [(lit "x-app-token", lit "secret123")] Fixture.wellFormed)))
  /\ snd (handler Fixture.misconfigured (Fixture.world Fixture.timedOut)
            (POST [(lit "x-app-token", lit "secret123")] Fixture.wellFormed)) = [].
Proof.
  apply unusable_secret_locks_everyone_out.
  intros secret Hsecret Hshape. injection Hsecret as <-.
  apply tokenPattern_spec in Hshape. discriminate.
Defined.

(** The one call of a well-formed request. *)
Lemma provider_call_run :
  method (POST Fixture.authorized Fixture.wellFormed) = lit "POST"
  /\ validateAppToken Fixture.penv
       (appToken (POST Fixture.authorized Fixture.wellFormed)) = true
  /\ accepts (body (POST Fixture.authorized Fixture.wellFormed))
  /\ exists s shown,
       getProp (body (POST Fixture.authorized Fixture.wellFormed)) (lit "imageData")
       = JStr s
       /\ ToString (getProp (body (POST Fixture.authorized Fixture.wellFormed))
                      (lit "mimeType")) = Normal shown
       /\ snd (handler Fixture.penv (Fixture.world Fixture.timedOut)
                 (POST Fixture.authorized Fixture.wellFormed))
          = [providerCall Fixture.penv (lit "image/jpeg") Fixture.image]
       /\ providerCall Fixture.penv (lit "image/jpeg") Fixture.image
          = providerCall Fixture.penv shown (removeWhiteSpace s)
       /\ payload_image_url
            (out_body (providerCall Fixture.penv (lit "image/jpeg") Fixture.image))
          = lit "data:" ++ shown ++ lit ";base64," ++ removeWhiteSpace s
       /\ noWhiteSpace (removeWhiteSpace s).
Proof.
  apply (provider_call_is_guarded Fixture.penv (Fixture.world Fixture.timedOut)
           (POST Fixture.authorized Fixture.wellFormed)
           (providerCall Fixture.penv (lit "image/jpeg") Fixture.image)).
  left. reflexivity.
Defined.

(** The network is down. *)
Lemma rejection_run :
  handler Fixture.penv (Fixture.world Fixture.networkDown)
    (POST Fixture.authorized Fixture.wellFormed)
  = (providerFailure (Fixture.world Fixture.networkDown)
       (lit "OpenAI processing failed: fetch failed"),
     [providerCall Fixture.penv (lit "image/jpeg") Fixture.image]).
Proof.
  apply (rejection_is_reported Fixture.penv (Fixture.world Fixture.networkDown)
           Fixture.authorized Fixture.wellFormed Fixture.accepted Fixture.image
           (lit "image/jpeg") (lit "TypeError") (lit "fetch failed"));
    [reflexivity | reflexivity | reflexivity | reflexivity | reflexivity | now left].
Defined.

(** A 429 with a message, a 502 that is not JSON, and a 500 whose body is
    [null]. *)
Lemma upstream_error_run :
  handler Fixture.penv (Fixture.world Fixture.rateLimited)
    (POST Fixture.authorized Fixture.wellFormed)
  = (providerFailure (Fixture.world Fixture.rateLimited)
       (lit "OpenAI processing failed: OpenAI API error: 429 - Rate limit exceeded"),
     [providerCall Fixture.penv (lit "image/jpeg") Fixture.image])
  /\ handler Fixture.penv (Fixture.world Fixture.badGateway)
       (POST Fixture.authorized Fixture.wellFormed)
     = (providerFailure (Fixture.world Fixture.badGateway)
          (lit "OpenAI processing failed: OpenAI API error: 502 - Unknown error"),
        [providerCall Fixture.penv (lit "image/jpeg") Fixture.image])
  /\ handler Fixture.penv (Fixture.world (FetchResponse 500 (JsonValue JNull)))
       (POST Fixture.authorized Fixture.wellFormed)
     = (providerFailure (Fixture.world (FetchResponse 500 (JsonValue JNull)))
          (lit "OpenAI processing failed: Cannot read properties of null (reading 'error')"),
        [providerCall Fixture.penv (lit "image/jpeg") Fixture.image]).
Proof.
  split; [|split].
  - destruct (upstream_error_is_reported Fixture.penv (Fixture.world Fixture.rateLimited)
                Fixture.authorized Fixture.wellFormed Fixture.accepted Fixture.image
                (lit "image/jpeg") 429
                (JsonValue (JObj (object
                   [ ("error", JObj (object
                        [ ("message", JStr (lit "Rate limit exceeded")) ])) ]))))
      as (Hmessage & _); [reflexivity .. | ].
    apply (Hmessage (lit "Rate limit exceeded")); [reflexivity | discriminate].
  - destruct (upstream_error_is_reported Fixture.penv (Fixture.world Fixture.badGateway)
                Fixture.authorized Fixture.wellFormed Fixture.accepted Fixture.image
                (lit "image/jpeg") 502
                (JsonRejected (lit "SyntaxError") (lit "Unexpected token <")))
      as (_ & Hunknown & _); [reflexivity .. | ].
    apply Hunknown; reflexivity.
  - destruct (upstream_error_is_reported Fixture.penv
                (Fixture.world (FetchResponse 500 (JsonValue JNull)))
                Fixture.authorized Fixture.wellFormed Fixture.accepted Fixture.image
                (lit "image/jpeg") 500 (JsonValue JNull))
      as (_ & _ & Hnull); [reflexivity .. | ].
    now apply Hnull.
Defined.

(** A completion whose text is [null], blank, or a number. *)
Lemma completion_without_text_run :
  handler Fixture.penv (Fixture.world (Fixture.answered JNull))
    (POST Fixture.authorized Fixture.wellFormed)
  = (providerFailure (Fixture.world (Fixture.answered JNull))
       (lit "OpenAI processing failed: No caption generated by OpenAI"),
     [providerCall Fixture.penv (lit "image/jpeg") Fixture.image])
  /\ handler Fixture.penv (Fixture.world (Fixture.answered (JStr (lit "  "))))
       (POST Fixture.authorized Fixture.wellFormed)
     = (providerFailure (Fixture.world (Fixture.answered (JStr (lit "  "))))
          (lit "OpenAI processing failed: No caption generated by OpenAI"),
        [providerCall Fixture.penv (lit "image/jpeg") Fixture.image])
  /\ handler Fixture.penv (Fixture.world (Fixture.answered (JNum 4%Z)))
       (POST Fixture.authorized Fixture.wellFormed)
     = (providerFailure (Fixture.world (Fixture.answered (JNum 4%Z)))
          (lit "OpenAI processing failed: data.choices?.[0]?.message?.content?.trim is not a function"),
        [providerCall Fixture.penv (lit "image/jpeg") Fixture.image]).
Proof.
  split; [|split].
  - destruct (completion_without_text Fixture.penv (Fixture.world (Fixture.answered JNull))
                Fixture.authorized Fixture.wellFormed Fixture.accepted Fixture.image
                (lit "image/jpeg") 200 (Fixture.answer JNull))
      as (Hnone & _); [reflexivity .. | ].
    apply Hnone. now left.
  - destruct (completion_without_text Fixture.penv
                (Fixture.world (Fixture.answered (JStr (lit "  "))))
                Fixture.authorized Fixture.wellFormed Fixture.accepted Fixture.image
                (lit "image/jpeg") 200 (Fixture.answer (JStr (lit "  "))))
      as (Hnone & _); [reflexivity .. | ].
    apply Hnone. right. exists (lit "  "). split; reflexivity.
  - destruct (completion_without_text Fixture.penv
                (Fixture.world (Fixture.answered (@JNum IntegerNumber 4%Z)))
                Fixture.authorized Fixture.wellFormed Fixture.accepted Fixture.image
                (lit "image/jpeg") 200 (Fixture.answer (@JNum IntegerNumber 4%Z)))
      as (_ & Hother); [reflexivity .. | ].
    apply Hother; [reflexivity | discriminate].
Defined.

(** The success answer to a completion that stopped normally. *)
Lemma success_answer_run :
  atPath (payload (fst (handler Fixture.penv
                          (Fixture.world (Fixture.answered (JStr (lit "  bark bark "))))
                          (POST Fixture.authorized Fixture.wellFormed))))
    ["data"; "confidence"] = JStr (lit "high")
  /\ atPath (payload (fst (handler Fixture.penv
                             (Fixture.world (Fixture.answered (JStr (lit "  bark bark "))))
                             (POST Fixture.authorized Fixture.wellFormed))))
       ["data"; "usage"] = JNull
  /\ atPath (payload (fst (handler Fixture.penv
                             (Fixture.world (Fixture.answered (JStr (lit "  bark bark "))))
                             (POST Fixture.authorized Fixture.wellFormed))))
       ["data"; "requestId"] = JStr (lit "req_1705314645000_4fzyo82mv")
  /\ atPath (payload (fst (handler Fixture.penv
                             (Fixture.world (Fixture.answered (JStr (lit "  bark bark "))))
                             (POST Fixture.authorized Fixture.wellFormed))))
       ["metadata"; "requestId"] = JStr (lit "req_1705314645000_4fzyo82mv")
  /\ atPath (payload (fst (handler Fixture.penv
                             (Fixture.world (Fixture.answered (JStr (lit "  bark bark "))))
                             (POST Fixture.authorized Fixture.wellFormed))))
       ["data"; "processingTime"] = JStr (lit "2847ms")
  /\ atPath (payload (fst (handler Fixture.penv
                             (Fixture.world (Fixture.answered (JStr (lit "  bark bark "))))
                             (POST Fixture.authorized Fixture.wellFormed))))
       ["metadata"; "processingTime"] = JNum 2847%Z.
Proof.
  destruct (success_answer Fixture.penv
              (Fixture.world (Fixture.answered (JStr (lit "  bark bark "))))
              Fixture.authorized Fixture.wellFormed Fixture.accepted Fixture.image
              (lit "image/jpeg") (lit "  bark bark ") 200
              (Fixture.answer (JStr (lit "  bark bark "))))
    as (Hanswer & _); [ reflexivity | reflexivity | reflexivity | reflexivity
                      | reflexivity | reflexivity | reflexivity | reflexivity
                      | discriminate | ].
  rewrite Hanswer. repeat split.
Defined.

(** The bypass with text that is not base64 and a [mimeType] that is an
    object; and with nothing but the flag. *)
Lemma bypass_forwards_run :
  snd (handler Fixture.penv (Fixture.world Fixture.timedOut)
         (POST Fixture.authorized Fixture.smuggled))
  = [providerCall Fixture.penv (lit "[object Object]") (lit "notbase64!")]
  /\ handler Fixture.penv (Fixture.world Fixture.timedOut)
       (POST Fixture.authorized (JObj (object [ ("debugMode", JBool true) ])))
     = (providerFailure (Fixture.world Fixture.timedOut)
          (lit "Cannot read properties of undefined (reading 'replace')"), []).
Proof.
  split.
  - destruct (bypass_forwards_unchecked_data Fixture.penv (Fixture.world Fixture.timedOut)
                Fixture.authorized Fixture.smuggled eq_refl eq_refl) as (Hsent & _).
    apply (Hsent (lit "not base64 !") (lit "[object Object]")); reflexivity.
  - destruct (bypass_forwards_unchecked_data Fixture.penv (Fixture.world Fixture.timedOut)
                Fixture.authorized (JObj (object [ ("debugMode", JBool true) ]))
                eq_refl eq_refl) as (_ & Hmissing).
    now apply Hmissing.
Defined.
